(** * Local Library: the catalog workflow over a document store

    A shallow embedding of the BookInstance model and of the book and genre
    controllers.  The HTTP framework, the template engine, the validation
    library and the document-store driver are the environment of the
    controllers; they are represented by small executable models:

    - a response object is the list of calls a handler makes on it
      ([res.render], [res.redirect], [next(err)]), in order;
    - the store is four collections kept in insertion order, together with
      the generator of fresh object identifiers and a pending driver
      failure that every command sent to the driver reports to its
      callback when it is set;
    - the object model casts what it is given before anything reaches the
      driver: a text that is not an object identifier makes the query fail
      with a cast error, and leaves the field of a new document unset;
    - a validation chain [trim().isLength({ min: 1 }).escape()] rewrites
      the field of the request body and records an error for the field.

    Strings are the UTF-8 bytes of the JavaScript strings.  The fields of a
    form that a chain rewrites are strings (a field that is not submitted
    reads as the empty string once the chain has run); the genre selection
    of the book form arrives absent, as one value or as an array; the body
    of a delete form carries the identifier in its [genreid] field. *)

From Stdlib Require Import ZArith List String Ascii Bool Lia.
From Stdlib Require Import DecimalString HexadecimalString.
From Stdlib Require Import Permutation Sorted.
Import ListNotations.

Local Open Scope list_scope.
Local Open Scope string_scope.

Set Implicit Arguments.

(** ** JavaScript values the controllers rely on *)

(** Template literals print an integer in decimal, with a leading minus
    sign when it is negative. *)
Definition js_int_to_string (z : Z) : string :=
  DecimalString.NilZero.string_of_int (Z.to_int z).

(** A [Date] is observed through its local-time accessors only:
    [getMonth] counts from 0 and [getDate] from 1.  An invalid date has no
    representation here. *)
Module JsDate.

Record t := mk {
  getFullYear : Z;
  getMonth : Z;
  getDate : Z
}.

Definition valid (d : t) : Prop :=
  (0 <= getMonth d <= 11)%Z /\ (1 <= getDate d <= 31)%Z.

End JsDate.

Fixpoint string_forallb (p : ascii -> bool) (s : string) : bool :=
  match s with
  | EmptyString => true
  | String c s' => p c && string_forallb p s'
  end.

Fixpoint string_map (f : ascii -> ascii) (s : string) : string :=
  match s with
  | EmptyString => EmptyString
  | String c s' => String (f c) (string_map f s')
  end.

(** ** Object identifiers *)

(** An object identifier is twelve bytes, written as 24 hexadecimal digits
    in lower case wherever it is shown: in URLs, in form fields and in the
    comparisons of the handlers. *)
Definition ObjectId := string.

Definition hex_digit (c : ascii) : bool :=
  let n := nat_of_ascii c in
  (((48 <=? n) && (n <=? 57)) || ((97 <=? n) && (n <=? 102)))%nat.

Definition hex_digits (s : string) : bool := string_forallb hex_digit s.

Definition canonical (s : string) : bool :=
  (String.length s =? 24)%nat && hex_digits s.

(** The digit of a value below 16. *)
Definition hex_char (d : N) : ascii :=
  ascii_of_N (if (d <? 10)%N then 48 + d else 87 + d).

Fixpoint hex_fixed (width : nat) (n : N) : string :=
  match width with
  | O => EmptyString
  | S k => String (hex_char ((n / 16 ^ N.of_nat k) mod 16)) (hex_fixed k n)
  end.

(** The identifiers the generator hands out, one per value of its
    counter. *)
Definition ObjectId_of_counter (n : N) : ObjectId := hex_fixed 24 n.

(** The cast of a text to an object identifier.  A text of 24 hexadecimal
    digits, in either case, is the identifier it spells; a text of twelve
    ASCII characters is the identifier made of its twelve bytes; any other
    text is refused. *)
Definition is_hex (c : ascii) : bool :=
  let n := nat_of_ascii c in
  (((48 <=? n) && (n <=? 57)) || ((97 <=? n) && (n <=? 102))
   || ((65 <=? n) && (n <=? 70)))%nat.

Definition lower_hex (c : ascii) : ascii :=
  let n := nat_of_ascii c in
  if ((65 <=? n) && (n <=? 70))%nat then ascii_of_nat (n + 32) else c.

Definition is_ascii (c : ascii) : bool := (nat_of_ascii c <? 128)%nat.

Fixpoint hex_of_bytes (s : string) : string :=
  match s with
  | EmptyString => EmptyString
  | String c s' =>
      String (hex_char (N_of_ascii c / 16))
        (String (hex_char (N_of_ascii c mod 16)) (hex_of_bytes s'))
  end.

Definition ObjectId_cast (text : string) : option ObjectId :=
  if (String.length text =? 24)%nat && string_forallb is_hex text then
    Some (string_map lower_hex text)
  else if (String.length text =? 12)%nat && string_forallb is_ascii text then
    Some (hex_of_bytes text)
  else None.

(** [indexOf] on an array of identifiers: the position of the first
    element equal to [x], or -1. *)
Fixpoint indexOf_from (i : Z) (xs : list ObjectId) (x : ObjectId) : Z :=
  match xs with
  | [] => (-1)%Z
  | y :: ys => if String.eqb x y then i else indexOf_from (i + 1)%Z ys x
  end.

Definition indexOf (xs : list ObjectId) (x : ObjectId) : Z :=
  indexOf_from 0%Z xs x.

(** ** Sanitizers and validators of the validation library *)

Module Validator.

(** The characters [trim()] removes are those a regular expression calls
    white space.  One byte: space, tab, line feed, vertical tab, form feed
    and carriage return. *)
Definition is_space (c : ascii) : bool :=
  let n := nat_of_ascii c in
  ((n =? 32) || ((9 <=? n) && (n <=? 13)))%nat.

(** Two bytes: the no-break space U+00A0. *)
Definition is_space2 (c1 c2 : ascii) : bool :=
  ((nat_of_ascii c1 =? 194) && (nat_of_ascii c2 =? 160))%nat.

(** Three bytes: U+1680, U+2000 to U+200A, U+2028, U+2029, U+202F, U+205F,
    U+3000 and U+FEFF. *)
Definition is_space3 (c1 c2 c3 : ascii) : bool :=
  let n1 := nat_of_ascii c1 in
  let n2 := nat_of_ascii c2 in
  let n3 := nat_of_ascii c3 in
  (((n1 =? 225) && (n2 =? 154) && (n3 =? 128))
   || ((n1 =? 226) && (n2 =? 128)
       && (((128 <=? n3) && (n3 <=? 138)) || (n3 =? 168) || (n3 =? 169)
           || (n3 =? 175)))
   || ((n1 =? 226) && (n2 =? 129) && (n3 =? 159))
   || ((n1 =? 227) && (n2 =? 128) && (n3 =? 128))
   || ((n1 =? 239) && (n2 =? 187) && (n3 =? 191)))%nat.

(** Strip the white space a string starts with, the bytes of a character
    being read in the order given by [two] and [three]. *)
Fixpoint strip (two : ascii -> ascii -> bool)
  (three : ascii -> ascii -> ascii -> bool) (s : string) : string :=
  match s with
  | EmptyString => EmptyString
  | String c1 s1 =>
      if is_space c1 then strip two three s1
      else
        match s1 with
        | EmptyString => s
        | String c2 s2 =>
            if two c1 c2 then strip two three s2
            else
              match s2 with
              | EmptyString => s
              | String c3 s3 =>
                  if three c1 c2 c3 then strip two three s3 else s
              end
        end
  end.

Fixpoint reverse_onto (s acc : string) : string :=
  match s with
  | EmptyString => acc
  | String c s' => reverse_onto s' (String c acc)
  end.

Definition reverse (s : string) : string := reverse_onto s EmptyString.

Definition ltrim (s : string) : string := strip is_space2 is_space3 s.

(** From the end, the bytes of a character come last byte first. *)
Definition rtrim (s : string) : string :=
  reverse
    (strip (fun c2 c1 => is_space2 c1 c2)
       (fun c3 c2 c1 => is_space3 c1 c2 c3) (reverse s)).

Definition trim (s : string) : string := rtrim (ltrim s).

(** [isLength({ min: 1 })] *)
Definition isLength_min1 (s : string) : bool := (1 <=? String.length s)%nat.

(** [escape()] replaces the markup-significant characters (ampersand,
    double and single quote, angle brackets, slash, backslash and
    backquote) by HTML entities. *)
Definition escape_char (c : ascii) : string :=
  let n := nat_of_ascii c in
  if (n =? 38)%nat then "&amp;"
  else if (n =? 34)%nat then "&quot;"
  else if (n =? 39)%nat then "&#x27;"
  else if (n =? 60)%nat then "&lt;"
  else if (n =? 62)%nat then "&gt;"
  else if (n =? 47)%nat then "&#x2F;"
  else if (n =? 92)%nat then "&#x5C;"
  else if (n =? 96)%nat then "&#96;"
  else String c EmptyString.

Fixpoint escape (s : string) : string :=
  match s with
  | EmptyString => EmptyString
  | String c s' => escape_char c ++ escape s'
  end.

(** One entry of [validationResult(req).array()]: the field it is about
    and the message given to the chain. *)
Record ValidationError := mkError {
  param : string;
  msg : string
}.

(** [body(field, message).trim().isLength({ min: 1 }).escape()] run on a
    submitted value: the value left in the request body, and the errors
    the chain records. *)
Definition required (field message value : string)
  : string * list ValidationError :=
  let trimmed := trim value in
  (escape trimmed,
   if isLength_min1 trimmed then [] else [mkError field message]).

End Validator.

(** ** Models *)

Module BookInstance.

Inductive Status := Available | Maintenance | Loaned | Reserved.

Definition Status_eqb (a b : Status) : bool :=
  match a, b with
  | Available, Available | Maintenance, Maintenance
  | Loaned, Loaned | Reserved, Reserved => true
  | _, _ => false
  end.

Record t := mk {
  _id : ObjectId;
  book : ObjectId;
  imprint : string;
  status : Status;
  due_back : JsDate.t
}.

Definition url (this : t) : string := "/catalog/bookinstance/" ++ _id this.

Definition due_back_yyyy_mm_dd (this : t) : string :=
  let year := JsDate.getFullYear (due_back this) in
  let month := (JsDate.getMonth (due_back this) + 1)%Z in
  let month :=
    if (month <? 10)%Z then "0" ++ js_int_to_string month
    else js_int_to_string month in
  let day := JsDate.getDate (due_back this) in
  js_int_to_string year ++ "-" ++ month ++ "-" ++ js_int_to_string day.

(** The machine-sortable date as the specification words it: year, month
    and day joined by hyphens, the month padded to two digits when it is
    under 10, the day printed as it is. *)
Definition yyyy_mm_dd_spec (year month day : Z) : string :=
  String.concat "-"
    [js_int_to_string year;
     (if (month <? 10)%Z then "0" else "") ++ js_int_to_string month;
     js_int_to_string day].

End BookInstance.

Module Author.

(** Modelled from the spec: the Author model (models/author), a first name,
    a family name and two optional dates. *)
Record t := mk {
  _id : ObjectId;
  first_name : string;
  family_name : string;
  date_of_birth : option JsDate.t;
  date_of_death : option JsDate.t
}.

End Author.

Module Genre.

(** Modelled from the spec: the Genre model (models/genre), a required
    name and a URL path derived from the identifier. *)
Record t := mk {
  _id : ObjectId;
  name : string
}.

(** Modelled from the spec: the [url] virtual of the Genre model, the
    detail path /catalog/genre/:id. *)
Definition url (this : t) : string := "/catalog/genre/" ++ _id this.

(** A document handed to a callback: the stored fields and the [checked]
    property the book form handlers set on it before rendering. *)
Record Doc := hydrate {
  fields : t;
  checked : option string
}.

(** A document made by [new Genre({ ... })] and not yet saved;
    [cast_failed] records that the text given for its identifier was
    refused. *)
Record Unsaved := unsaved {
  new_id : ObjectId;
  new_name : string;
  cast_failed : bool
}.

(** Modelled from the spec: the same virtual, read on a new document. *)
Definition new_url (this : Unsaved) : string :=
  "/catalog/genre/" ++ new_id this.

End Genre.

Module Book.

(** Modelled from the spec: the Book model (models/book), four required
    fields, a set of genre references and a URL path derived from the
    identifier. *)
Record t := mk {
  _id : ObjectId;
  title : string;
  author : ObjectId;
  summary : string;
  isbn : string;
  genre : list ObjectId
}.

(** Modelled from the spec: the [url] virtual of the Book model, the
    detail path /catalog/book/:id. *)
Definition url (this : t) : string := "/catalog/book/" ++ _id this.

(** A document made by [new Book({ ... })] and not yet saved.  The author
    is unset when the text given for it is not an identifier, and the
    genres are empty when one of the texts given for them is not;
    [cast_failed] records that some text was refused. *)
Record Unsaved := unsaved {
  new_id : ObjectId;
  new_title : string;
  new_author : option ObjectId;
  new_summary : string;
  new_isbn : string;
  new_genre : list ObjectId;
  cast_failed : bool
}.

(** Modelled from the spec: the same virtual, read on a new document. *)
Definition new_url (this : Unsaved) : string :=
  "/catalog/book/" ++ new_id this.

(** A book after [populate('author').populate('genre')]. *)
Record Populated := populated {
  doc : t;
  author_doc : option Author.t;
  genre_docs : list Genre.t
}.

End Book.

(** ** Requests *)

Module Req.

(** The genre selection of the book form as the body parser delivers it. *)
Inductive GenreField :=
| undefined
| single (value : string)
| array (values : list string).

Record Body := mkBody {
  name : string;
  title : string;
  author : string;
  summary : string;
  isbn : string;
  genre : GenreField;
  genreid : string
}.

Record t := mk {
  params_id : string;
  body : Body
}.

Definition set_genre (b : Body) (g : GenreField) : Body :=
  mkBody (name b) (title b) (author b) (summary b) (isbn b) g (genreid b).

End Req.

(** ** The document store *)

(** An error is known by its name; the store's own carry a message. *)
Definition Error := string.

(** The errors of the object model: a text refused by a cast in a query,
    and a document refused by the validation that precedes a save. *)
Definition CastError : Error := "CastError".

Definition ValidationFailed : Error := "ValidationError".

Record Db := mkDb {
  books : list Book.t;
  authors : list Author.t;
  genres : list Genre.t;
  bookinstances : list BookInstance.t
}.

Record World := mkWorld {
  db : Db;
  oid_counter : N;
  fault : option Error
}.

Definition with_db (w : World) (d : Db) : World :=
  mkWorld d (oid_counter w) (fault w).

(** What a callback of the object model receives: [(err, result)]. *)
Definition Callback (A : Type) : Type := (Error + A)%type.

(** A read: the pending failure if there is one, else the answer computed
    on the collections. *)
Definition query {A : Type} (answer : Db -> A) (w : World) : Callback A :=
  match fault w with
  | Some err => inl err
  | None => inr (answer (db w))
  end.

(** A write: the same, with the collections replaced. *)
Definition command {A : Type} (run : Db -> Callback A * Db) (w : World)
  : Callback A * World :=
  match fault w with
  | Some err => (inl err, w)
  | None => let '(r, d) := run (db w) in (r, with_db w d)
  end.

(** The identifier of a query is cast before anything is sent. *)
Definition casting {A : Type} (text : string)
  (read : ObjectId -> World -> Callback A) (w : World) : Callback A :=
  match ObjectId_cast text with
  | None => inl CastError
  | Some oid => read oid w
  end.

(** Every new document draws an identifier. *)
Definition new_ObjectId (w : World) : ObjectId * World :=
  (ObjectId_of_counter (oid_counter w),
   mkWorld (db w) (N.succ (oid_counter w)) (fault w)).

Definition is_none {A : Type} (o : option A) : bool :=
  match o with
  | None => true
  | Some _ => false
  end.

(** An array is cast entry by entry, and refused as a whole when an entry
    is. *)
Fixpoint cast_all (texts : list string) : option (list ObjectId) :=
  match texts with
  | [] => Some []
  | text :: rest =>
      match ObjectId_cast text, cast_all rest with
      | Some oid, Some oids => Some (oid :: oids)
      | _, _ => None
      end
  end.

(** The model casts the genre field of a new book to an array of
    identifiers; a field left undefined takes the default, the empty
    array. *)
Definition cast_genre (g : Req.GenreField) : option (list ObjectId) :=
  match g with
  | Req.undefined => Some []
  | Req.single value => cast_all [value]
  | Req.array values => cast_all values
  end.

(** [new Genre({ name, _id })]: the identifier drawn is kept unless [_id]
    is given and is an identifier. *)
Definition Genre_new (name : string) (_id : option string) (w : World)
  : Genre.Unsaved * World :=
  let '(oid, w) := new_ObjectId w in
  match _id with
  | None => (Genre.unsaved oid name false, w)
  | Some text =>
      match ObjectId_cast text with
      | Some id => (Genre.unsaved id name false, w)
      | None => (Genre.unsaved oid name true, w)
      end
  end.

(** [new Book({ title, author, summary, isbn, genre, _id })] *)
Definition Book_new (title author summary isbn : string)
  (genre : Req.GenreField) (_id : option string) (w : World)
  : Book.Unsaved * World :=
  let '(oid, w) := new_ObjectId w in
  let id :=
    match _id with
    | None => Some oid
    | Some text => ObjectId_cast text
    end in
  let author := ObjectId_cast author in
  let genre := cast_genre genre in
  (Book.unsaved
     (match id with Some id => id | None => oid end)
     title author summary isbn
     (match genre with Some oids => oids | None => [] end)
     (is_none id || is_none author || is_none genre),
   w).

Fixpoint remove_first {A : Type} (p : A -> bool) (xs : list A) : list A :=
  match xs with
  | [] => []
  | x :: xs' => if p x then xs' else x :: remove_first p xs'
  end.

Fixpoint replace_first {A : Type} (p : A -> bool) (y : A) (xs : list A)
  : list A :=
  match xs with
  | [] => []
  | x :: xs' => if p x then y :: xs' else x :: replace_first p y xs'
  end.

Definition countDocuments {A : Type} (collection : Db -> list A)
  (filter : A -> bool) : World -> Callback nat :=
  query (fun d => List.length (List.filter filter (collection d))).

Definition Author_find : World -> Callback (list Author.t) :=
  query authors.

Definition Author_findById_in (d : Db) (id : ObjectId) : option Author.t :=
  List.find (fun a => String.eqb (Author._id a) id) (authors d).

Definition Genre_findById_in (d : Db) (id : ObjectId) : option Genre.t :=
  List.find (fun g => String.eqb (Genre._id g) id) (genres d).

Definition Book_findById_in (d : Db) (id : ObjectId) : option Book.t :=
  List.find (fun b => String.eqb (Book._id b) id) (books d).

Definition Genre_find : World -> Callback (list Genre.Doc) :=
  query (fun d => List.map (fun g => Genre.hydrate g None) (genres d)).

Definition Genre_findById (id : string)
  : World -> Callback (option Genre.t) :=
  casting id (fun oid => query (fun d => Genre_findById_in d oid)).

(** [Genre.findOne({ name })]: the first genre whose name is exactly the
    given string. *)
Definition Genre_findOne_name (name : string)
  : World -> Callback (option Genre.t) :=
  query (fun d =>
    List.find (fun g => String.eqb (Genre.name g) name) (genres d)).

(** The filter [{ genre: id }] selects the books whose genre array
    contains the identifier. *)
Definition references (id : ObjectId) (b : Book.t) : bool :=
  List.existsb (String.eqb id) (Book.genre b).

Definition option_to_list {A : Type} (o : option A) : list A :=
  match o with
  | Some a => [a]
  | None => []
  end.

Definition populate (d : Db) (b : Book.t) : Book.Populated :=
  Book.populated b
    (Author_findById_in d (Book.author b))
    (List.flat_map (fun id => option_to_list (Genre_findById_in d id))
       (Book.genre b)).

(** [Book.find({ genre: id }).populate('author').populate('genre')] *)
Definition Book_find_genre_populated (id : string)
  : World -> Callback (list Book.Populated) :=
  casting id (fun oid =>
    query (fun d =>
      List.map (populate d) (List.filter (references oid) (books d)))).

(** Modelled from the spec: the validation that precedes a save, from the
    schemas of models/genre and models/book.  The required fields are
    there, and no cast was refused. *)
Definition Genre_validate (g : Genre.Unsaved) : option Genre.t :=
  if Genre.cast_failed g || String.eqb (Genre.new_name g) "" then None
  else Some (Genre.mk (Genre.new_id g) (Genre.new_name g)).

(** Modelled from the spec: the same for a book, whose author is required
    too. *)
Definition Book_validate (b : Book.Unsaved) : option Book.t :=
  match Book.new_author b with
  | None => None
  | Some author =>
      if Book.cast_failed b || String.eqb (Book.new_title b) ""
         || String.eqb (Book.new_summary b) ""
         || String.eqb (Book.new_isbn b) ""
      then None
      else
        Some
          (Book.mk (Book.new_id b) (Book.new_title b) author
             (Book.new_summary b) (Book.new_isbn b) (Book.new_genre b))
  end.

(** [doc.save()] of a new document validates it, then appends it to its
    collection. *)
Definition Genre_save (g : Genre.Unsaved) (w : World)
  : Callback unit * World :=
  match Genre_validate g with
  | None => (inl ValidationFailed, w)
  | Some doc =>
      command (fun d =>
        (inr tt,
         mkDb (books d) (authors d) (genres d ++ [doc]) (bookinstances d)))
        w
  end.

Definition Book_save (b : Book.Unsaved) (w : World)
  : Callback unit * World :=
  match Book_validate b with
  | None => (inl ValidationFailed, w)
  | Some doc =>
      command (fun d =>
        (inr tt,
         mkDb (books d ++ [doc]) (authors d) (genres d) (bookinstances d)))
        w
  end.

(** [findByIdAndRemove(id, callback)] removes the document with that
    identifier, if there is one, and calls back with it. *)
Definition Genre_findByIdAndRemove (id : string) (w : World)
  : Callback (option Genre.t) * World :=
  match ObjectId_cast id with
  | None => (inl CastError, w)
  | Some oid =>
      command (fun d =>
        (inr (Genre_findById_in d oid),
         mkDb (books d) (authors d)
           (remove_first (fun g => String.eqb (Genre._id g) oid) (genres d))
           (bookinstances d)))
        w
  end.

Definition immutable_id : Error :=
  "Performing an update on the path '_id' would modify the immutable field".

(** [findByIdAndUpdate(id, update, {}, callback)] sets the fields of the
    document with that identifier to those the [update] document has and
    calls back with the document as it was before, or with null when there
    is none.  A field the update left unset keeps its value, and the store
    refuses an update that would change the identifier. *)
Definition Genre_findByIdAndUpdate (id : string) (update : Genre.Unsaved)
  (w : World) : Callback (option Genre.t) * World :=
  match ObjectId_cast id with
  | None => (inl CastError, w)
  | Some oid =>
      command (fun d =>
        match Genre_findById_in d oid with
        | None => (inr None, d)
        | Some old =>
            if String.eqb (Genre.new_id update) (Genre._id old) then
              (inr (Some old),
               mkDb (books d) (authors d)
                 (replace_first (fun g => String.eqb (Genre._id g) oid)
                    (Genre.mk (Genre._id old) (Genre.new_name update))
                    (genres d))
                 (bookinstances d))
            else (inl immutable_id, d)
        end)
        w
  end.

Definition Book_findByIdAndUpdate (id : string) (update : Book.Unsaved)
  (w : World) : Callback (option Book.t) * World :=
  match ObjectId_cast id with
  | None => (inl CastError, w)
  | Some oid =>
      command (fun d =>
        match Book_findById_in d oid with
        | None => (inr None, d)
        | Some old =>
            if String.eqb (Book.new_id update) (Book._id old) then
              (inr (Some old),
               mkDb
                 (replace_first (fun b => String.eqb (Book._id b) oid)
                    (Book.mk (Book._id old) (Book.new_title update)
                       (match Book.new_author update with
                        | Some author => author
                        | None => Book.author old
                        end)
                       (Book.new_summary update) (Book.new_isbn update)
                       (Book.new_genre update))
                    (books d))
                 (authors d) (genres d) (bookinstances d))
            else (inl immutable_id, d)
        end)
        w
  end.

(** ** [async.parallel] *)

(** Two tasks whose results the final callback reads together; the first
    error wins. *)
Definition parallel2 {A B : Type}
  (first : World -> Callback A) (second : World -> Callback B) (w : World)
  : Callback (A * B) :=
  match first w with
  | inl err => inl err
  | inr a =>
      match second w with
      | inl err => inl err
      | inr b => inr (a, b)
      end
  end.

(** An object of tasks: the final callback receives the first error and
    the results gathered so far, the failing key being left undefined. *)
Fixpoint parallel_object {A : Type}
  (tasks : list (string * (World -> Callback A))) (w : World)
  : option Error * list (string * option A) :=
  match tasks with
  | [] => (None, [])
  | (key, task) :: rest =>
      match task w with
      | inl err => (Some err, [(key, None)])
      | inr result =>
          let '(err, results) := parallel_object rest w in
          (err, (key, Some result) :: results)
      end
  end.

(** ** Responses *)

(** The payload of each template. *)
Inductive View :=
| index_view (title : string) (error : option Error)
    (data : list (string * option nat))
| book_form (title : string) (authors : list Author.t)
    (genres : list Genre.Doc) (book : Book.Unsaved)
    (errors : list Validator.ValidationError)
| genre_form (title : string) (genre : Genre.Unsaved)
    (errors : list Validator.ValidationError)
| genre_delete (title : string) (genre : option Genre.t)
    (books : list Book.Populated).

(** A call made on the response object or on [next]; [TypeError_null] is
    the exception raised by reading the named property of null. *)
Inductive ResCall :=
| render (view : View)
| redirect (url : string)
| next (err : Error)
| TypeError_null (property : string).

Definition Handler := Req.t -> World -> list ResCall * World.

(** ** Book controller *)

(** The filter [{ status: 'Available' }]. *)
Definition is_available (i : BookInstance.t) : bool :=
  BookInstance.Status_eqb (BookInstance.status i) BookInstance.Available.

Definition index : Handler := fun req w =>
  let '(err, results) :=
    parallel_object
      [("book_count", countDocuments books (fun _ => true));
       ("book_instance_count", countDocuments bookinstances (fun _ => true));
       ("book_instance_available_count",
        countDocuments bookinstances is_available);
       ("author_count", countDocuments authors (fun _ => true));
       ("genre_count", countDocuments genres (fun _ => true))] w in
  ([render (index_view "Local Library Home" err results)], w).

(** Convert the genre to an array. *)
Definition convert_genre (b : Req.Body) : Req.Body :=
  match Req.genre b with
  | Req.array _ => b
  | Req.undefined => Req.set_genre b (Req.array [])
  | Req.single value => Req.set_genre b (Req.array [value])
  end.

(** [body('genre.*').escape()] *)
Definition escape_each (g : Req.GenreField) : Req.GenreField :=
  match g with
  | Req.array values => Req.array (List.map Validator.escape values)
  | _ => g
  end.

(** The five chains of the book form, run in order on the body. *)
Definition book_chains (title_msg author_msg summary_msg isbn_msg : string)
  (b : Req.Body) : Req.Body * list Validator.ValidationError :=
  let '(title, e1) := Validator.required "title" title_msg (Req.title b) in
  let '(author, e2) := Validator.required "author" author_msg (Req.author b) in
  let '(summary, e3) :=
    Validator.required "summary" summary_msg (Req.summary b) in
  let '(isbn, e4) := Validator.required "isbn" isbn_msg (Req.isbn b) in
  (Req.mkBody (Req.name b) title author summary isbn
     (escape_each (Req.genre b)) (Req.genreid b),
   (e1 ++ e2 ++ e3 ++ e4)%list).

Definition isEmpty (errors : list Validator.ValidationError) : bool :=
  match errors with
  | [] => true
  | _ :: _ => false
  end.

(** Mark our selected genres as checked. *)
Definition mark_checked (book : Book.Unsaved) (genres : list Genre.Doc)
  : list Genre.Doc :=
  List.map
    (fun g =>
       if (-1 <? indexOf (Book.new_genre book)
                   (Genre._id (Genre.fields g)))%Z
       then Genre.hydrate (Genre.fields g) (Some "true")
       else g)
    genres.

Definition book_create_post : Handler := fun req w =>
  let body := convert_genre (Req.body req) in
  let '(body, errors) :=
    book_chains "Title must not be empty." "Author must not be empty."
      "Summary must not be empty" "ISBN must not be empty" body in
  let '(book, w) :=
    Book_new (Req.title body) (Req.author body) (Req.summary body)
      (Req.isbn body) (Req.genre body) None w in
  if negb (isEmpty errors) then
    match parallel2 Author_find Genre_find w with
    | inl err => ([next err], w)
    | inr (authors, genres) =>
        ([render (book_form "Create Book" authors (mark_checked book genres)
                    book errors)], w)
    end
  else
    match Book_save book w with
    | (inl err, w) => ([next err], w)
    | (inr _, w) => ([redirect (Book.new_url book)], w)
    end.

Definition book_update_post : Handler := fun req w =>
  let body := convert_genre (Req.body req) in
  let '(body, errors) :=
    book_chains "Title must not be empty" "Author must not be empty"
      "Summary must not be empty" "ISBN must not be empty" body in
  let '(book, w) :=
    Book_new (Req.title body) (Req.author body) (Req.summary body)
      (Req.isbn body)
      (match Req.genre body with
       | Req.undefined => Req.array []
       | g => g
       end)
      (Some (Req.params_id req)) w in
  if negb (isEmpty errors) then
    match parallel2 Author_find Genre_find w with
    | inl err => ([next err], w)
    | inr (authors, genres) =>
        ([render (book_form "Update Book" authors (mark_checked book genres)
                    book errors)], w)
    end
  else
    match Book_findByIdAndUpdate (Req.params_id req) book w with
    | (inl err, w) => ([next err], w)
    | (inr None, w) => ([TypeError_null "url"], w)
    | (inr (Some book), w) => ([redirect (Book.url book)], w)
    end.

(** ** Genre controller *)

Definition genre_chain (b : Req.Body)
  : Req.Body * list Validator.ValidationError :=
  let '(name, errors) :=
    Validator.required "name" "Genre name required" (Req.name b) in
  (Req.mkBody name (Req.title b) (Req.author b) (Req.summary b) (Req.isbn b)
     (Req.genre b) (Req.genreid b),
   errors).

Definition genre_create_post : Handler := fun req w =>
  let '(body, errors) := genre_chain (Req.body req) in
  let '(genre, w) := Genre_new (Req.name body) None w in
  if negb (isEmpty errors) then
    ([render (genre_form "Create Genre" genre errors)], w)
  else
    match Genre_findOne_name (Req.name body) w with
    | inl err => ([next err], w)
    | inr (Some found_genre) => ([redirect (Genre.url found_genre)], w)
    | inr None =>
        match Genre_save genre w with
        | (inl err, w) => ([next err], w)
        | (inr _, w) => ([redirect (Genre.new_url genre)], w)
        end
    end.

Definition genre_delete_get : Handler := fun req w =>
  match
    parallel2 (Genre_findById (Req.params_id req))
      (Book_find_genre_populated (Req.params_id req)) w
  with
  | inl err => ([next err], w)
  | inr (genre, books) =>
      ((if is_none genre then [redirect "/catalog/genres"] else [])
       ++ [render (genre_delete "Delete Genre" genre books)], w)%list
  end.

Definition genre_delete_post : Handler := fun req w =>
  match
    parallel2 (Genre_findById (Req.params_id req))
      (Book_find_genre_populated (Req.params_id req)) w
  with
  | inl err => ([next err], w)
  | inr (genre, books) =>
      if (0 <? List.length books)%nat then
        ([render (genre_delete "Delete Genre" genre books)], w)
      else
        match Genre_findByIdAndRemove (Req.genreid (Req.body req)) w with
        | (inl err, w) => ([next err], w)
        | (inr _, w) => ([redirect "/catalog/genres"], w)
        end
  end.

Definition genre_update_post : Handler := fun req w =>
  let '(body, errors) := genre_chain (Req.body req) in
  let '(genre, w) :=
    Genre_new (Req.name body) (Some (Req.params_id req)) w in
  if negb (isEmpty errors) then
    ([render (genre_form "Update Genre" genre errors)], w)
  else
    match Genre_findByIdAndUpdate (Req.params_id req) genre w with
    | (inl err, w) => ([next err], w)
    | (inr _, w) => ([redirect (Genre.new_url genre)], w)
    end.

(** A sequence of requests served one after the other by one handler. *)
Fixpoint serve (h : Handler) (reqs : list Req.t) (w : World) : World :=
  match reqs with
  | [] => w
  | req :: rest => serve h rest (snd (h req w))
  end.

(** ** The list, detail and form pages *)

(** An entry of the book list: the query projects the title and the
    author, and the author is populated. *)
Record BookListItem := mkItem {
  item_id : ObjectId;
  item_title : string;
  item_author : option Author.t
}.

(** A genre offered by the book form on GET: [checked] is the boolean the
    update form sets on the document, false standing for the property left
    unset. *)
Record GenreChoice := mkChoice {
  choice : Genre.t;
  chosen : bool
}.

(** The payload of the templates rendered by the GET handlers. *)
Inductive Page :=
| book_list_page (title : string) (book_list : list BookListItem)
| book_detail_page (title : string) (book : Book.Populated)
    (book_instances : list BookInstance.t)
| book_form_page (title : string) (authors : list Author.t)
    (genres : list GenreChoice) (book : option Book.Populated)
| genre_list_page (title : string) (genre_list : list Genre.t)
| genre_detail_page (title : string) (genre : Genre.t)
    (genre_books : list Book.t)
| genre_form_page (title : string) (genre : option Genre.t).

(** What a GET handler does with the response: [res.render], [res.send],
    [next(err)] with the error of the driver, or [next(err)] with an error
    made by the handler, which carries a message and a status. *)
Inductive Reply :=
| rendered (page : Page)
| sent (text : string)
| forwarded (err : Error)
| failed (message : string) (status : nat).

(** The GET handlers read the store and leave it as it is. *)
Definition Reader := Req.t -> World -> list Reply.

(** [Book.find({}, 'title author').populate('author')] *)
Definition Book_find_titles : World -> Callback (list BookListItem) :=
  query (fun d =>
    List.map
      (fun b =>
         mkItem (Book._id b) (Book.title b)
           (Author_findById_in d (Book.author b)))
      (books d)).

(** [Book.findById(id).populate('author').populate('genre')] *)
Definition Book_findById_populated (id : string)
  : World -> Callback (option Book.Populated) :=
  casting id (fun oid =>
    query (fun d => option_map (populate d) (Book_findById_in d oid))).

(** [BookInstance.find({ book: id })] *)
Definition BookInstance_find_book (id : string)
  : World -> Callback (list BookInstance.t) :=
  casting id (fun oid =>
    query (fun d =>
      List.filter (fun i => String.eqb (BookInstance.book i) oid)
        (bookinstances d))).

(** [Book.find({ genre: id })] *)
Definition Book_find_genre (id : string) : World -> Callback (list Book.t) :=
  casting id (fun oid =>
    query (fun d => List.filter (references oid) (books d))).

(** [.sort([['name', 'ascending']])]: strings are compared byte by byte;
    genres of the same name keep the order of the collection. *)
Fixpoint insert_by_name (g : Genre.t) (sorted : list Genre.t)
  : list Genre.t :=
  match sorted with
  | [] => [g]
  | h :: rest =>
      if String.leb (Genre.name g) (Genre.name h) then g :: h :: rest
      else h :: insert_by_name g rest
  end.

Definition sort_by_name (gs : list Genre.t) : list Genre.t :=
  List.fold_right insert_by_name [] gs.

Definition Genre_find_sorted : World -> Callback (list Genre.t) :=
  query (fun d => sort_by_name (genres d)).

(** Display list of all books. *)
Definition book_list : Reader := fun req w =>
  match Book_find_titles w with
  | inl err => [forwarded err]
  | inr list_books => [rendered (book_list_page "Book List" list_books)]
  end.

(** Display detail page for a specific book. *)
Definition book_detail : Reader := fun req w =>
  match
    parallel2 (Book_findById_populated (Req.params_id req))
      (BookInstance_find_book (Req.params_id req)) w
  with
  | inl err => [forwarded err]
  | inr (None, _) => [failed "Book not found" 404]
  | inr (Some book, book_instance) =>
      [rendered
         (book_detail_page (Book.title (Book.doc book)) book book_instance)]
  end.

(** Display book create form on GET. *)
Definition book_create_get : Reader := fun req w =>
  match parallel2 Author_find Genre_find w with
  | inl err => [forwarded err]
  | inr (authors, genres) =>
      [rendered
         (book_form_page "Create Book" authors
            (List.map (fun g => mkChoice (Genre.fields g) false) genres)
            None)]
  end.

Definition book_delete_get : Reader := fun req w =>
  [sent "NOT IMPLEMENTED: Book delete GET"].

Definition book_delete_post : Reader := fun req w =>
  [sent "NOT IMPLEMENTED: Book delete POST"].

(** Mark our selected genres as checked: a genre of the form is checked
    when its identifier, as text, is that of one of the populated genres
    of the book. *)
Definition mark_current (book : Book.Populated) (genres : list Genre.Doc)
  : list GenreChoice :=
  List.map
    (fun g =>
       mkChoice (Genre.fields g)
         (List.existsb
            (fun book_genre =>
               String.eqb (Genre._id (Genre.fields g)) (Genre._id book_genre))
            (Book.genre_docs book)))
    genres.

(** Display book update form on GET. *)
Definition book_update_get : Reader := fun req w =>
  match
    parallel2 (Book_findById_populated (Req.params_id req))
      (parallel2 Author_find Genre_find) w
  with
  | inl err => [forwarded err]
  | inr (None, _) => [failed "Book not found" 404]
  | inr (Some book, (authors, genres)) =>
      [rendered
         (book_form_page "Update Book" authors (mark_current book genres)
            (Some book))]
  end.

(** Display list of all Genre. *)
Definition genre_list : Reader := fun req w =>
  match Genre_find_sorted w with
  | inl err => [forwarded err]
  | inr list_genres => [rendered (genre_list_page "Genre List" list_genres)]
  end.

(** Display detail page for a specific Genre. *)
Definition genre_detail : Reader := fun req w =>
  match
    parallel2 (Genre_findById (Req.params_id req))
      (Book_find_genre (Req.params_id req)) w
  with
  | inl err => [forwarded err]
  | inr (None, _) => [failed "Genre not found" 404]
  | inr (Some genre, genre_books) =>
      [rendered (genre_detail_page "Genre Detail" genre genre_books)]
  end.

(** Display Genre create form on GET. *)
Definition genre_create_get : Reader := fun req w =>
  [rendered (genre_form_page "Create Genre" None)].

(** Display Genre update form on GET. *)
Definition genre_update_get : Reader := fun req w =>
  match Genre_findById (Req.params_id req) w with
  | inl err => [forwarded err]
  | inr None => [failed "Genre not found" 404]
  | inr (Some genre) =>
      [rendered (genre_form_page "Update Genre" (Some genre))]
  end.

(** The handlers of the two controllers that may write to the store, and
    a sequence of calls to them, each with its request. *)
Definition writers : list Handler :=
  [index; book_create_post; book_update_post; genre_create_post;
   genre_delete_get; genre_delete_post; genre_update_post].

Fixpoint run (calls : list (Handler * Req.t)) (w : World) : World :=
  match calls with
  | [] => w
  | (h, req) :: rest => run rest (snd (h req w))
  end.


(** ** The vocabulary of the specification *)

(** The required fields of the book form. *)
Inductive BookField := Title | AuthorRef | Summary | Isbn.

Definition field_name (f : BookField) : string :=
  match f with
  | Title => "title"
  | AuthorRef => "author"
  | Summary => "summary"
  | Isbn => "isbn"
  end.

Definition field_label (f : BookField) : string :=
  match f with
  | Title => "Title"
  | AuthorRef => "Author"
  | Summary => "Summary"
  | Isbn => "ISBN"
  end.

Definition field_value (f : BookField) (b : Req.Body) : string :=
  match f with
  | Title => Req.title b
  | AuthorRef => Req.author b
  | Summary => Req.summary b
  | Isbn => Req.isbn b
  end.

(** The message each chain of the book form was given. *)
Definition message_of (title_msg author_msg summary_msg isbn_msg : string)
  (f : BookField) : string :=
  match f with
  | Title => title_msg
  | AuthorRef => author_msg
  | Summary => summary_msg
  | Isbn => isbn_msg
  end.

(** A submitted value is empty after trimming. *)
Definition blank (value : string) : Prop := Validator.trim value = "".

Definition filled (value : string) : bool :=
  Validator.isLength_min1 (Validator.trim value).

(** A book form passes validation when none of its required fields is
    empty after trimming. *)
Definition book_valid (b : Req.Body) : bool :=
  filled (Req.title b) && filled (Req.author b) && filled (Req.summary b)
  && filled (Req.isbn b).

(** The sanitized value of a field: trimmed, then escaped. *)
Definition sanitized (value : string) : string :=
  Validator.escape (Validator.trim value).

(** The genre selection of a submitted book form as a list, whatever its
    shape in the body. *)
Definition selection (b : Req.Body) : list string :=
  match Req.genre b with
  | Req.undefined => []
  | Req.single value => [value]
  | Req.array values => values
  end.

(** A text of the body names the identifier [oid]: escaped as the chains
    leave it, it is cast to [oid]. *)
Definition names (text : string) (oid : ObjectId) : Prop :=
  ObjectId_cast (Validator.escape text) = Some oid.

(** A text of the body is an object identifier. *)
Definition is_identifier (text : string) : Prop :=
  exists oid, names text oid.

(** The author a book is given by a form: the identifier its text names;
    when the text names none, the author it had, if it had one. *)
Definition given_author (text : string) (before after : option ObjectId)
  : Prop :=
  (forall oid, names (Validator.trim text) oid -> after = Some oid)
  /\ (~ is_identifier (Validator.trim text) -> after = before).

(** The genres a book is given by a form: the identifiers the entries of
    the selection name, in order, when every entry names one, and none at
    all when some entry does not. *)
Definition given_genres (chosen : list string) (genre : list ObjectId)
  : Prop :=
  (List.Forall is_identifier chosen -> List.Forall2 names chosen genre)
  /\ (~ List.Forall is_identifier chosen -> genre = []).

(** The book a form describes, as stored under [id]: the sanitized title,
    summary and ISBN, the author and the genres the form gives. *)
Definition stores_form (b : Req.Body) (before : option ObjectId)
  (stored : Book.t) : Prop :=
  Book.title stored = sanitized (Req.title b)
  /\ Book.summary stored = sanitized (Req.summary b)
  /\ Book.isbn stored = sanitized (Req.isbn b)
  /\ given_author (Req.author b) before (Some (Book.author stored))
  /\ given_genres (selection b) (Book.genre stored).

(** The same for the book a form is rendered again with. *)
Definition shows_form (b : Req.Body) (shown : Book.Unsaved) : Prop :=
  Book.new_title shown = sanitized (Req.title b)
  /\ Book.new_summary shown = sanitized (Req.summary b)
  /\ Book.new_isbn shown = sanitized (Req.isbn b)
  /\ given_author (Req.author b) None (Book.new_author shown)
  /\ given_genres (selection b) (Book.new_genre shown).

(** The document the model makes of the body the chains leave behind,
    under the identifier [id]; [refused] tells that the text given for the
    identifier was refused. *)
Definition form_book (id : ObjectId) (refused : bool) (b : Req.Body)
  : Book.Unsaved :=
  Book.unsaved id (sanitized (Req.title b))
    (ObjectId_cast (sanitized (Req.author b))) (sanitized (Req.summary b))
    (sanitized (Req.isbn b))
    (match cast_all (List.map Validator.escape (selection b)) with
     | Some oids => oids
     | None => []
     end)
    (refused || is_none (ObjectId_cast (sanitized (Req.author b)))
     || is_none (cast_all (List.map Validator.escape (selection b)))).

(** The genres offered by a re-rendered book form are checked by
    identifier match with the selection: when every entry of the selection
    is an identifier, a genre carries [checked] exactly when an entry
    names its identifier, and when some entry is not, no genre does. *)
Definition checked_by_selection (chosen : list string)
  (docs : list Genre.Doc) : Prop :=
  forall g, In g docs ->
    (List.Forall is_identifier chosen ->
     (Genre.checked g = Some "true"
      <-> exists text,
            In text chosen /\ names text (Genre._id (Genre.fields g))))
    /\ (~ List.Forall is_identifier chosen -> Genre.checked g = None)
    /\ (Genre.checked g = Some "true" \/ Genre.checked g = None).

(** The errors of a rejected book form: there is at least one, and the
    fields they are about are the required fields left blank. *)
Definition errors_name_blank_fields (b : Req.Body)
  (errors : list Validator.ValidationError) : Prop :=
  errors <> []
  /\ forall f, blank (field_value f b)
       <-> exists e, In e errors /\ Validator.param e = field_name f.

(** A handler answers a book form by rendering the form again with, among
    its errors, one about the field [f] whose message starts with the
    label of the field, and leaves the collections as they were. *)
Definition rejects_book_form (h : Handler) (form_title : string)
  (req : Req.t) (w : World) (f : BookField) : Prop :=
  (exists authors genres book errors e,
     fst (h req w) = [render (book_form form_title authors genres book errors)]
     /\ In e errors
     /\ Validator.param e = field_name f
     /\ String.prefix (field_label f) (Validator.msg e) = true)
  /\ db (snd (h req w)) = db w.

(** The same for the genre form, whose only required field is the name. *)
Definition rejects_genre_form (h : Handler) (form_title : string)
  (req : Req.t) (w : World) : Prop :=
  (exists genre errors e,
     fst (h req w) = [render (genre_form form_title genre errors)]
     /\ In e errors
     /\ Validator.param e = "name"
     /\ Validator.msg e = "Genre name required")
  /\ db (snd (h req w)) = db w.

(** A handler answers a rejected book form by rendering it with the
    authors and the genres as the store has them now, the genres checked
    by identifier match with the selection, the book made of the sanitized
    values, and the errors of the blank fields. *)
Definition repopulates_book_form (h : Handler) (form_title : string)
  (req : Req.t) (w : World) : Prop :=
  exists docs shown errors,
    fst (h req w)
    = [render (book_form form_title (authors (db w)) docs shown errors)]
    /\ List.map Genre.fields docs = genres (db w)
    /\ shows_form (Req.body req) shown
    /\ checked_by_selection (selection (Req.body req)) docs
    /\ errors_name_blank_fields (Req.body req) errors.

(** Where the path is cast before the query, the error handed on when the
    driver fails with [err] is the cast error when the path is no
    identifier, and [err] otherwise. *)
Definition handed_on (req : Req.t) (err : Error) : Error :=
  if is_none (ObjectId_cast (Req.params_id req)) then CastError else err.

(** Some book of the store lists the genre identifier. *)
Definition referenced (d : Db) (id : ObjectId) : Prop :=
  exists b, In b (books d) /\ In id (Book.genre b).

(** ** Sample data *)

Module Sample.

Definition fantasy : Genre.t := Genre.mk (ObjectId_of_counter 1) "Fantasy".
Definition poetry : Genre.t := Genre.mk (ObjectId_of_counter 2) "Poetry".
Definition essays : Genre.t := Genre.mk (ObjectId_of_counter 3) "Essays".

Definition poet : Author.t :=
  Author.mk (ObjectId_of_counter 4) "Emily" "Dickinson" None None.

Definition poems : Book.t :=
  Book.mk (ObjectId_of_counter 5) "Poems" (Author._id poet)
    "Collected poems" "9780316184137" [Genre._id poetry].

Definition copy : BookInstance.t :=
  BookInstance.mk (ObjectId_of_counter 6) (Book._id poems) "Little, Brown"
    BookInstance.Available (JsDate.mk 2021 2 5).

Definition library : World :=
  mkWorld (mkDb [poems] [poet] [fantasy; poetry; essays] [copy]) 7 None.

Definition empty_body : Req.Body :=
  Req.mkBody "" "" "" "" "" Req.undefined "".

(** POST /catalog/genre/<fantasy>/delete carrying [genreid] = <poetry>. *)
Definition delete_fantasy_carrying_poetry : Req.t :=
  Req.mk (Genre._id fantasy)
    (Req.mkBody "" "" "" "" "" Req.undefined (Genre._id poetry)).

(** POST /catalog/genre/<fantasy>/delete carrying [genreid] = <essays>. *)
Definition delete_fantasy_carrying_essays : Req.t :=
  Req.mk (Genre._id fantasy)
    (Req.mkBody "" "" "" "" "" Req.undefined (Genre._id essays)).

(** GET /catalog/genre/<id>/delete for an identifier no genre has. *)
Definition delete_unknown : Req.t :=
  Req.mk (ObjectId_of_counter 99) empty_body.

Definition rename_fantasy : Req.t :=
  Req.mk (Genre._id fantasy)
    (Req.mkBody " High <Fantasy> " "" "" "" "" Req.undefined "").

Definition create_fantasy_again : Req.t :=
  Req.mk "" (Req.mkBody " Fantasy " "" "" "" "" Req.undefined "").

Definition create_drama : Req.t :=
  Req.mk "" (Req.mkBody "Drama" "" "" "" "" Req.undefined "").

Definition blank_genre : Req.t :=
  Req.mk (Genre._id fantasy) (Req.mkBody "   " "" "" "" "" Req.undefined "").

(** A book form with a blank title and the poetry genre ticked. *)
Definition blank_title : Req.t :=
  Req.mk (Book._id poems)
    (Req.mkBody "" "  " (Author._id poet) "Verse" "9780316184137"
       (Req.single (Genre._id poetry)) "").

Definition revise_poems : Req.t :=
  Req.mk (Book._id poems)
    (Req.mkBody "" " Poems & Letters " (Author._id poet) "Verse"
       "9780316184137" (Req.array [Genre._id poetry; Genre._id essays]) "").

Definition revise_unknown : Req.t :=
  Req.mk (ObjectId_of_counter 99) (Req.body revise_poems).

End Sample.

(** ** What the handlers write *)

(** The characters [escape()] never leaves in a value: the quotes, the
    angle brackets, the slash, the backslash and the backquote. *)
Definition is_markup (c : ascii) : bool :=
  let n := nat_of_ascii c in
  ((n =? 34) || (n =? 39) || (n =? 60) || (n =? 62) || (n =? 47)
   || (n =? 92) || (n =? 96))%nat.

Fixpoint markup_free (s : string) : bool :=
  match s with
  | EmptyString => true
  | String c s' => negb (is_markup c) && markup_free s'
  end.

(** A stored required value: not empty and free of markup. *)
Definition clean (s : string) : bool :=
  negb (String.eqb s "") && markup_free s.

Definition Book_clean (b : Book.t) : bool :=
  clean (Book.title b) && clean (Book.author b) && clean (Book.summary b)
  && clean (Book.isbn b) && List.forallb markup_free (Book.genre b).

Definition Genre_clean (g : Genre.t) : bool := clean (Genre.name g).

Definition clean_db (d : Db) : Prop :=
  List.Forall (fun b => Book_clean b = true) (books d)
  /\ List.Forall (fun g => Genre_clean g = true) (genres d).

(** The writes of the two controllers: a call leaves the collections as
    they are, appends a book or replaces the first book of an identifier by
    the book of a valid form, appends a genre or replaces the first genre
    of an identifier by one with a validated name, or removes the first
    genre of an identifier. *)
Inductive Write (d : Db) : Db -> Prop :=
| keeps : Write d d
| adds_book (b : Req.Body) (added : Book.t) :
    book_valid b = true -> stores_form b None added ->
    canonical (Book._id added) = true ->
    Write d
      (mkDb (books d ++ [added]) (authors d) (genres d) (bookinstances d))
| replaces_book (b : Req.Body) (old updated : Book.t) :
    book_valid b = true -> In old (books d) ->
    stores_form b (Some (Book.author old)) updated ->
    Book._id updated = Book._id old ->
    Write d
      (mkDb
         (replace_first (fun x => String.eqb (Book._id x) (Book._id old))
            updated (books d))
         (authors d) (genres d) (bookinstances d))
| adds_genre (id : ObjectId) (name : string) :
    filled name = true ->
    Write d
      (mkDb (books d) (authors d)
         (genres d ++ [Genre.mk id (sanitized name)]) (bookinstances d))
| replaces_genre (id : ObjectId) (name : string) :
    filled name = true ->
    Write d
      (mkDb (books d) (authors d)
         (replace_first (fun g => String.eqb (Genre._id g) id)
            (Genre.mk id (sanitized name)) (genres d))
         (bookinstances d))
| removes_genre (id : ObjectId) :
    Write d
      (mkDb (books d) (authors d)
         (remove_first (fun g => String.eqb (Genre._id g) id) (genres d))
         (bookinstances d)).

(** Genres in ascending order of name. *)
Definition name_leb (a b : Genre.t) : Prop :=
  String.leb (Genre.name a) (Genre.name b) = true.

(** ** More sample data *)

Module Visits.

(** The sample library with the driver failing. *)
Definition offline : World :=
  mkWorld (db Sample.library) (oid_counter Sample.library)
    (Some "connection refused").

Definition see (id : ObjectId) : Req.t := Req.mk id Sample.empty_body.

(** A valid book form without a genre field. *)
Definition new_book : Req.t :=
  Req.mk ""
    (Req.mkBody "" " Letters " (Author._id Sample.poet) "Prose <1870>"
       "9780674526273" Req.undefined "").

(** POST /catalog/genre/<essays>/delete carrying the same identifier. *)
Definition delete_essays : Req.t :=
  Req.mk (Genre._id Sample.essays)
    (Req.mkBody "" "" "" "" "" Req.undefined (Genre._id Sample.essays)).


Definition rename_unknown : Req.t :=
  Req.mk (ObjectId_of_counter 99) (Req.body Sample.rename_fantasy).

(** Two copies due on the 9th and on the 10th of the same month. *)
Definition due_ninth : BookInstance.t :=
  BookInstance.mk (ObjectId_of_counter 8) (Book._id Sample.poems) "First"
    BookInstance.Loaned (JsDate.mk 2021 2 9).

Definition due_tenth : BookInstance.t :=
  BookInstance.mk (ObjectId_of_counter 9) (Book._id Sample.poems) "First"
    BookInstance.Loaned (JsDate.mk 2021 2 10).

(** The no-break space U+00A0. *)
Definition nbsp : string :=
  String (ascii_of_nat 194) (String (ascii_of_nat 160) EmptyString).

(** A genre form whose name is made of white space of several kinds. *)
Definition blank_nbsp_genre : Req.t :=
  Req.mk (Genre._id Sample.fantasy)
    (Req.mkBody (nbsp ++ " " ++ nbsp) "" "" "" "" Req.undefined "").

(** A book form whose title is a no-break space, with the poetry genre
    ticked. *)
Definition blank_nbsp_title : Req.t :=
  Req.mk (Book._id Sample.poems)
    (Req.mkBody "" nbsp (Author._id Sample.poet) "Verse" "9780316184137"
       (Req.single (Genre._id Sample.poetry)) "").

(** A book form with a blank title whose selection holds the poetry genre
    and a text that is no identifier, and whose author is a name. *)
Definition blank_title_mixed : Req.t :=
  Req.mk (Book._id Sample.poems)
    (Req.mkBody "" "  " "Emily" "Verse" "9780316184137"
       (Req.array [Genre._id Sample.poetry; "junk"]) "").

(** A valid book form whose author is a name, not an identifier. *)
Definition revise_with_name : Req.t :=
  Req.mk (Book._id Sample.poems)
    (Req.mkBody "" "Poems" "Emily" "Verse" "9780316184137"
       (Req.array [Genre._id Sample.poetry]) "").

(** The sample library with two more copies, on loan. *)
Definition lending : World :=
  mkWorld
    (mkDb [Sample.poems] [Sample.poet]
       [Sample.fantasy; Sample.poetry; Sample.essays]
       [Sample.copy; due_ninth; due_tenth])
    10 None.

Definition session : list (Handler * Req.t) :=
  [(genre_create_post, Sample.create_drama);
   (book_update_post, Sample.revise_poems);
   (genre_delete_post, Sample.delete_fantasy_carrying_essays);
   (book_create_post, new_book);
   (genre_update_post, Sample.rename_fantasy)].

End Visits.

(** * Properties *)

(** ** Strings and sanitizers *)

Lemma isLength_min1_false (s : string) :
  Validator.isLength_min1 s = false <-> s = "".
Proof.
  destruct s; simpl; split; intro H; try reflexivity; discriminate.
Qed.

Lemma hex_digit_escape_char (c : ascii) :
  hex_digit c = true -> Validator.escape_char c = String c EmptyString.
Proof.
  unfold hex_digit, Validator.escape_char.
  intro H.
  destruct (Nat.eqb_spec (nat_of_ascii c) 38); [rewrite e in H; discriminate|].
  destruct (Nat.eqb_spec (nat_of_ascii c) 34); [rewrite e in H; discriminate|].
  destruct (Nat.eqb_spec (nat_of_ascii c) 39); [rewrite e in H; discriminate|].
  destruct (Nat.eqb_spec (nat_of_ascii c) 60); [rewrite e in H; discriminate|].
  destruct (Nat.eqb_spec (nat_of_ascii c) 62); [rewrite e in H; discriminate|].
  destruct (Nat.eqb_spec (nat_of_ascii c) 47); [rewrite e in H; discriminate|].
  destruct (Nat.eqb_spec (nat_of_ascii c) 92); [rewrite e in H; discriminate|].
  destruct (Nat.eqb_spec (nat_of_ascii c) 96); [rewrite e in H; discriminate|].
  reflexivity.
Qed.

(** An escaped character is the character itself or an entity, which
    starts with an ampersand. *)
Lemma escape_char_cases (c : ascii) :
  Validator.escape_char c = String c EmptyString
  \/ exists rest, Validator.escape_char c = String "&" rest.
Proof.
  unfold Validator.escape_char.
  repeat match goal with
  | |- context [if ?b then _ else _] =>
      destruct b; [right; eexists; reflexivity|]
  end.
  left; reflexivity.
Qed.

(** Escaping leaves hexadecimal text alone. *)
Lemma escape_hex_digits (s : string) :
  hex_digits s = true -> Validator.escape s = s.
Proof.
  unfold hex_digits.
  induction s as [|c s IH]; simpl; intro H; [reflexivity|].
  apply andb_true_iff in H as [Hc Hs].
  rewrite (hex_digit_escape_char c Hc), (IH Hs). reflexivity.
Qed.

(** ** Object identifiers *)

Lemma hex_char_digit (d : N) : (d < 16)%N -> hex_digit (hex_char d) = true.
Proof.
  intro H. destruct d as [|p]; [reflexivity|].
  do 4 (destruct p as [p|p|]; try reflexivity); exfalso; lia.
Qed.

Lemma hex_fixed_length (width : nat) (n : N) :
  String.length (hex_fixed width n) = width.
Proof.
  induction width as [|k IH]; simpl; [reflexivity|]. rewrite IH. reflexivity.
Qed.

Lemma hex_fixed_digits (width : nat) (n : N) :
  hex_digits (hex_fixed width n) = true.
Proof.
  unfold hex_digits. induction width as [|k IH]; simpl; [reflexivity|].
  rewrite IH, hex_char_digit; [reflexivity|].
  apply N.mod_lt. discriminate.
Qed.

(** What the generator hands out is an identifier in its written form. *)
Lemma ObjectId_of_counter_canonical (n : N) :
  canonical (ObjectId_of_counter n) = true.
Proof.
  unfold canonical, ObjectId_of_counter.
  rewrite hex_fixed_length, hex_fixed_digits. reflexivity.
Qed.

Lemma hex_digit_lower (c : ascii) :
  hex_digit c = true -> is_hex c = true /\ lower_hex c = c.
Proof.
  unfold hex_digit, is_hex, lower_hex. intro H. split.
  - rewrite H. reflexivity.
  - destruct ((65 <=? nat_of_ascii c)%nat && (nat_of_ascii c <=? 70)%nat)
      eqn:E; [|reflexivity].
    exfalso.
    apply andb_true_iff in E as [E1 E2].
    apply Nat.leb_le in E1, E2.
    apply orb_true_iff in H as [H | H];
      apply andb_true_iff in H as [H1 H2];
      apply Nat.leb_le in H1, H2; lia.
Qed.

Lemma hex_digits_lower (s : string) :
  hex_digits s = true ->
  string_forallb is_hex s = true /\ string_map lower_hex s = s.
Proof.
  unfold hex_digits.
  induction s as [|c s IH]; simpl; intro H; [split; reflexivity|].
  apply andb_true_iff in H as [Hc Hs].
  destruct (hex_digit_lower c Hc) as [H1 H2].
  destruct (IH Hs) as [H3 H4].
  rewrite H1, H2, H3, H4. split; reflexivity.
Qed.

(** The written form of an identifier is cast to itself. *)
Lemma ObjectId_cast_canonical (oid : ObjectId) :
  canonical oid = true -> ObjectId_cast oid = Some oid.
Proof.
  unfold canonical, ObjectId_cast. intro H.
  apply andb_true_iff in H as [Hlen Hhex].
  destruct (hex_digits_lower oid Hhex) as [H1 H2].
  rewrite Hlen, H1, H2. reflexivity.
Qed.

Lemma string_map_length (f : ascii -> ascii) (s : string) :
  String.length (string_map f s) = String.length s.
Proof.
  induction s as [|c s IH]; simpl; [reflexivity|]. rewrite IH. reflexivity.
Qed.

Lemma lower_hex_digit (c : ascii) :
  is_hex c = true -> hex_digit (lower_hex c) = true.
Proof.
  unfold is_hex, lower_hex, hex_digit. intro H.
  destruct ((65 <=? nat_of_ascii c)%nat && (nat_of_ascii c <=? 70)%nat)
    eqn:E.
  - apply andb_true_iff in E as [E1 E2]. apply Nat.leb_le in E1, E2.
    rewrite nat_ascii_embedding by lia.
    apply orb_true_iff. right. apply andb_true_iff.
    split; apply Nat.leb_le; lia.
  - rewrite ?E, orb_false_r in H. exact H.
Qed.

Lemma hex_of_bytes_length (s : string) :
  String.length (hex_of_bytes s) = (2 * String.length s)%nat.
Proof.
  induction s as [|c s IH]; simpl; [reflexivity|]. rewrite IH. lia.
Qed.

Lemma hex_of_bytes_digits (s : string) : hex_digits (hex_of_bytes s) = true.
Proof.
  unfold hex_digits. induction s as [|c s IH]; simpl; [reflexivity|].
  rewrite IH, !hex_char_digit; [reflexivity| |].
  - apply N.mod_lt. discriminate.
  - apply N.Div0.div_lt_upper_bound.
    pose proof (N_ascii_bounded c). lia.
Qed.

(** What a cast gives is an identifier in its written form. *)
Lemma ObjectId_cast_gives_canonical (text : string) (oid : ObjectId) :
  ObjectId_cast text = Some oid -> canonical oid = true.
Proof.
  unfold ObjectId_cast, canonical.
  destruct ((String.length text =? 24)%nat && string_forallb is_hex text)
    eqn:E24.
  - intro H. injection H as <-.
    apply andb_true_iff in E24 as [Hlen Hhex].
    rewrite string_map_length, Hlen. simpl.
    clear Hlen. unfold hex_digits.
    induction text as [|c s IH]; simpl in *; [reflexivity|].
    apply andb_true_iff in Hhex as [Hc Hs].
    rewrite (lower_hex_digit c Hc), (IH Hs). reflexivity.
  - destruct ((String.length text =? 12)%nat
              && string_forallb is_ascii text) eqn:E12; [|discriminate].
    intro H. injection H as <-.
    apply andb_true_iff in E12 as [Hlen _]. apply Nat.eqb_eq in Hlen.
    rewrite hex_of_bytes_length, Hlen, hex_of_bytes_digits. reflexivity.
Qed.

(** Casting is idempotent: the identifier a text names names itself. *)
Lemma ObjectId_cast_idempotent (text : string) (oid : ObjectId) :
  ObjectId_cast text = Some oid -> ObjectId_cast oid = Some oid.
Proof.
  intro H. apply ObjectId_cast_canonical.
  exact (ObjectId_cast_gives_canonical text H).
Qed.

Lemma canonical_names (oid : ObjectId) : canonical oid = true -> names oid oid.
Proof.
  intro H. unfold names.
  assert (hex_digits oid = true) as Hh
    by (unfold canonical in H; apply andb_true_iff in H as [_ H]; exact H).
  rewrite (escape_hex_digits oid Hh). apply ObjectId_cast_canonical, H.
Qed.

(** ** The machine-sortable due date *)

(** A property of the integers below a bound is checked one by one. *)
Lemma below_cases (P : Z -> Prop) (bound : nat) :
  (forall i : nat, (i < bound)%nat -> P (Z.of_nat i)) ->
  forall n : Z, (0 <= n < Z.of_nat bound)%Z -> P n.
Proof.
  intros HP n Hn. rewrite <- (Z2Nat.id n) by lia. apply HP. lia.
Qed.

Lemma one_digit (n : Z) :
  (0 <= n < 10)%Z -> String.length (js_int_to_string n) = 1%nat.
Proof.
  revert n. apply (@below_cases _ 10). intros i Hi.
  do 10 (destruct i as [|i]; [reflexivity|]). lia.
Qed.

Lemma two_digits (n : Z) :
  (10 <= n < 13)%Z -> String.length (js_int_to_string n) = 2%nat.
Proof.
  intros [Hlow Hhigh].
  apply (@below_cases
           (fun n => (10 <= n)%Z -> String.length (js_int_to_string n) = 2%nat)
           13); [|lia|exact Hlow].
  intros i Hi.
  do 10 (destruct i as [|i]; [intro; lia|]).
  do 3 (destruct i as [|i]; [intro; reflexivity|]). lia.
Qed.

(** C9. For every BookInstance whose due date is a calendar date, the
    machine-sortable string is the year, the month field and the day joined
    by hyphens, as the specification words it; the month field has two
    characters, being the month behind a zero exactly when the month is
    under 10, and the day is printed as it is, a single character when it
    is under 10. *)
Theorem due_back_yyyy_mm_dd_format (this : BookInstance.t) :
  JsDate.valid (BookInstance.due_back this) ->
  let year := JsDate.getFullYear (BookInstance.due_back this) in
  let month := (JsDate.getMonth (BookInstance.due_back this) + 1)%Z in
  let day := JsDate.getDate (BookInstance.due_back this) in
  BookInstance.due_back_yyyy_mm_dd this
  = BookInstance.yyyy_mm_dd_spec year month day
  /\ exists month_field : string,
       BookInstance.due_back_yyyy_mm_dd this
       = js_int_to_string year ++ "-" ++ month_field ++ "-"
           ++ js_int_to_string day
       /\ String.length month_field = 2%nat
       /\ ((month < 10)%Z -> month_field = "0" ++ js_int_to_string month)
       /\ ((10 <= month)%Z -> month_field = js_int_to_string month)
       /\ ((day < 10)%Z -> String.length (js_int_to_string day) = 1%nat).
Proof.
  intros [Hm Hd] year month day.
  unfold BookInstance.due_back_yyyy_mm_dd, BookInstance.yyyy_mm_dd_spec.
  fold year month day.
  split.
  - simpl String.concat. destruct (month <? 10)%Z; reflexivity.
  - destruct (Z.ltb_spec month 10) as [Hlt | Hge].
    + exists ("0" ++ js_int_to_string month). repeat split.
      * simpl. f_equal. apply one_digit. unfold month. lia.
      * intro. lia.
      * intro. apply one_digit. lia.
    + exists (js_int_to_string month). repeat split.
      * apply two_digits. unfold month. lia.
      * intro. lia.
      * intro. apply one_digit. lia.
Qed.

Lemma due_back_yyyy_mm_dd_format_witness :
  JsDate.valid (BookInstance.due_back Sample.copy)
  /\ BookInstance.due_back_yyyy_mm_dd Sample.copy = "2021-03-5".
Proof.
  assert (JsDate.valid (BookInstance.due_back Sample.copy)) as V
    by (unfold JsDate.valid; simpl; lia).
  split; [exact V|].
  destruct (due_back_yyyy_mm_dd_format Sample.copy V) as [E _].
  rewrite E. reflexivity.
Defined.

(** ** The home summary *)

Lemma filter_length_le {A : Type} (p : A -> bool) (xs : list A) :
  (List.length (List.filter p xs) <= List.length xs)%nat.
Proof.
  induction xs as [|x xs IH]; simpl; [lia|].
  destruct (p x); simpl; lia.
Qed.

Lemma filter_true {A : Type} (xs : list A) :
  List.filter (fun _ => true) xs = xs.
Proof.
  induction xs as [|x xs IH]; simpl; [reflexivity|]. now rewrite IH.
Qed.

Lemma filter_split {A : Type} (p : A -> bool) (xs : list A) :
  Permutation xs
    (List.filter p xs ++ List.filter (fun x => negb (p x)) xs).
Proof.
  induction xs as [|x xs IH]; simpl; [constructor|].
  destruct (p x); simpl.
  - apply perm_skip, IH.
  - apply Permutation_cons_app, IH.
Qed.

Lemma is_available_status (i : BookInstance.t) :
  is_available i = true <-> BookInstance.status i = BookInstance.Available.
Proof.
  unfold is_available. destruct (BookInstance.status i); simpl;
    split; intro H; try reflexivity; discriminate.
Qed.

(** C8. For every state of the collections (the driver answering), the home
    summary renders one view whose data holds exactly five counts, under
    the five keys of the summary and each a number: the sizes of the four
    collections and, third, the number of copies whose status is
    Available, the copies splitting into those and the copies of another
    status; that number is at most the number of all copies.  The store is
    left as it was. *)
Theorem index_five_counts (req : Req.t) (w : World) :
  fault w = None ->
  exists available others,
    Permutation (bookinstances (db w)) (available ++ others)
    /\ List.Forall
         (fun i => BookInstance.status i = BookInstance.Available) available
    /\ List.Forall
         (fun i => BookInstance.status i <> BookInstance.Available) others
    /\ index req w
       = ([render
             (index_view "Local Library Home" None
                [("book_count", Some (List.length (books (db w))));
                 ("book_instance_count",
                  Some (List.length (bookinstances (db w))));
                 ("book_instance_available_count",
                  Some (List.length available));
                 ("author_count", Some (List.length (authors (db w))));
                 ("genre_count", Some (List.length (genres (db w))))])], w)
    /\ (List.length available <= List.length (bookinstances (db w)))%nat.
Proof.
  intro Hf.
  exists (List.filter is_available (bookinstances (db w))).
  exists (List.filter (fun i => negb (is_available i)) (bookinstances (db w))).
  split; [apply filter_split|]. split; [|split; [|split]].
  - apply List.Forall_forall. intros i Hi.
    apply List.filter_In in Hi as [_ Hi]. apply is_available_status, Hi.
  - apply List.Forall_forall. intros i Hi Hs.
    apply List.filter_In in Hi as [_ Hi].
    apply is_available_status in Hs. rewrite Hs in Hi. discriminate.
  - unfold index, parallel_object, countDocuments, query. rewrite Hf.
    rewrite !filter_true. reflexivity.
  - apply filter_length_le.
Qed.

Lemma index_five_counts_witness :
  fault Visits.lending = None
  /\ exists available,
       List.Forall
         (fun i => BookInstance.status i = BookInstance.Available) available
       /\ List.length available = 1%nat
       /\ fst (index Sample.delete_unknown Visits.lending)
          = [render
               (index_view "Local Library Home" None
                  [("book_count", Some 1%nat);
                   ("book_instance_count", Some 3%nat);
                   ("book_instance_available_count",
                    Some (List.length available));
                   ("author_count", Some 1%nat);
                   ("genre_count", Some 3%nat)])].
Proof.
  split; [reflexivity|].
  destruct (index_five_counts Sample.delete_unknown Visits.lending eq_refl)
    as [available [others [_ [Ha [_ [E _]]]]]].
  exists available. split; [exact Ha|].
  assert (List.length available = 1%nat) as Hone.
  { apply (f_equal fst) in E. vm_compute in E.
    injection E as E. symmetry. exact E. }
  split; [exact Hone|]. rewrite E. reflexivity.
Defined.

(** ** Validation of the forms *)

Lemma filled_false (value : string) : filled value = false <-> blank value.
Proof. apply isLength_min1_false. Qed.

(** The chains of the book form, for any four messages: the create and the
    update handler differ in them only. *)
Section BookChains.

Variables mt ma ms mi : string.

Lemma book_chains_errors (b : Req.Body) :
  snd (book_chains mt ma ms mi b)
  = ((if filled (Req.title b) then []
      else [Validator.mkError "title" mt])
     ++ (if filled (Req.author b) then []
         else [Validator.mkError "author" ma])
     ++ (if filled (Req.summary b) then []
         else [Validator.mkError "summary" ms])
     ++ (if filled (Req.isbn b) then []
         else [Validator.mkError "isbn" mi]))%list.
Proof. reflexivity. Qed.

Lemma book_chains_valid (b : Req.Body) :
  book_valid b = true -> snd (book_chains mt ma ms mi b) = [].
Proof.
  unfold book_valid. rewrite book_chains_errors. intro H.
  repeat (apply andb_true_iff in H as [H ?]).
  repeat match goal with E : filled _ = true |- _ => rewrite E; clear E end.
  reflexivity.
Qed.

Lemma book_chains_invalid (b : Req.Body) :
  book_valid b = false ->
  isEmpty (snd (book_chains mt ma ms mi b)) = false.
Proof.
  unfold book_valid. rewrite book_chains_errors.
  destruct (filled (Req.title b)), (filled (Req.author b)),
    (filled (Req.summary b)), (filled (Req.isbn b));
    simpl; intro; try reflexivity; discriminate.
Qed.

(** Each required field left blank has its error, with the message of its
    chain, and each error is about a required field left blank. *)
Lemma book_chains_error_of_blank (b : Req.Body) (f : BookField) :
  blank (field_value f b) ->
  In (Validator.mkError (field_name f) (message_of mt ma ms mi f))
    (snd (book_chains mt ma ms mi b)).
Proof.
  intro H. apply filled_false in H. rewrite book_chains_errors.
  destruct f; simpl in H; rewrite H;
    repeat first [left; reflexivity | apply in_or_app; right].
Qed.

Lemma book_chains_blank_of_error (b : Req.Body) (f : BookField)
  (e : Validator.ValidationError) :
  In e (snd (book_chains mt ma ms mi b)) ->
  Validator.param e = field_name f ->
  blank (field_value f b).
Proof.
  rewrite book_chains_errors. intros Hin Hp. apply filled_false.
  repeat (apply in_app_or in Hin as [Hin | Hin]);
    match type of Hin with
    | In _ (if ?c then _ else _) => destruct c eqn:E
    end;
    simpl in Hin; try contradiction;
    destruct Hin as [<- | []]; destruct f; simpl in Hp;
    try discriminate; exact E.
Qed.

Lemma book_chains_errors_name_blank_fields (b : Req.Body) :
  book_valid b = false ->
  errors_name_blank_fields b (snd (book_chains mt ma ms mi b)).
Proof.
  intro Hv. split.
  - apply book_chains_invalid in Hv. intro E. rewrite E in Hv. discriminate.
  - intro f. split.
    + intro Hb. eexists. split; [apply (book_chains_error_of_blank _ _ Hb)|].
      reflexivity.
    + intros [e [Hin Hp]]. exact (book_chains_blank_of_error _ _ _ Hin Hp).
Qed.

End BookChains.

(** ** Marking the selected genres *)

Lemma indexOf_from_bounds (xs : list ObjectId) (x : ObjectId) (i : Z) :
  (0 <= i)%Z ->
  (indexOf_from i xs x = -1 /\ ~ In x xs
   \/ i <= indexOf_from i xs x /\ In x xs)%Z.
Proof.
  revert i. induction xs as [|y ys IH]; simpl; intros i Hi.
  - left. split; [reflexivity | tauto].
  - destruct (String.eqb_spec x y) as [-> | Hne].
    + right. split; [lia | left; reflexivity].
    + destruct (IH (i + 1)%Z ltac:(lia)) as [[E Hn] | [E Hin]].
      * left. split; [exact E|]. intros [Hy | Hy]; [congruence | tauto].
      * right. split; [lia | right; exact Hin].
Qed.

Lemma indexOf_found (xs : list ObjectId) (x : ObjectId) :
  (-1 <? indexOf xs x)%Z = true <-> In x xs.
Proof.
  unfold indexOf.
  destruct (@indexOf_from_bounds xs x 0%Z ltac:(lia)) as [[E Hn] | [E Hin]].
  - rewrite E. simpl. split; [discriminate | contradiction].
  - split; [intros _; exact Hin | intros _; apply Z.ltb_lt; lia].
Qed.

Lemma mark_checked_fields (book : Book.Unsaved) (docs : list Genre.Doc) :
  List.map Genre.fields (mark_checked book docs) = List.map Genre.fields docs.
Proof.
  unfold mark_checked. rewrite List.map_map. apply List.map_ext.
  intro g. destruct (_ <? _)%Z; reflexivity.
Qed.

Lemma mark_checked_fetched (book : Book.Unsaved) (stored : list Genre.t)
  (g : Genre.Doc) :
  In g (mark_checked book (List.map (fun x => Genre.hydrate x None) stored)) ->
  (Genre.checked g = Some "true"
   <-> In (Genre._id (Genre.fields g)) (Book.new_genre book))
  /\ (Genre.checked g = Some "true" \/ Genre.checked g = None).
Proof.
  unfold mark_checked. rewrite List.map_map. intro Hin.
  apply List.in_map_iff in Hin as [x [<- _]]. simpl.
  destruct (-1 <? indexOf (Book.new_genre book) (Genre._id x))%Z eqn:E; simpl.
  - apply indexOf_found in E. tauto.
  - split; [|right; reflexivity].
    split; [discriminate|]. intro Hin. apply indexOf_found in Hin. congruence.
Qed.

(** ** What the model makes of a form *)

Lemma is_identifier_dec (text : string) :
  is_identifier text \/ ~ is_identifier text.
Proof.
  unfold is_identifier, names.
  destruct (ObjectId_cast (Validator.escape text)) as [oid|].
  - left. exists oid. reflexivity.
  - right. intros [oid H]. discriminate.
Qed.

(** An array is cast to the identifiers its entries name, when each names
    one, and refused otherwise. *)
Lemma cast_all_escaped (chosen : list string) :
  match cast_all (List.map Validator.escape chosen) with
  | Some oids =>
      List.Forall is_identifier chosen /\ List.Forall2 names chosen oids
  | None => ~ List.Forall is_identifier chosen
  end.
Proof.
  induction chosen as [|text rest IH]; simpl.
  - split; constructor.
  - destruct (ObjectId_cast (Validator.escape text)) as [oid|] eqn:E.
    + destruct (cast_all (List.map Validator.escape rest)) as [oids|].
      * destruct IH as [Hall Hnames]. split; constructor; try assumption.
        exists oid. exact E.
      * intro Hall. inversion Hall; subst. contradiction.
    + intro Hall. inversion Hall as [|t r [oid Hn] Hr]; subst.
      unfold names in Hn. congruence.
Qed.

Lemma Forall2_names_unique (chosen : list string) (a b : list ObjectId) :
  List.Forall2 names chosen a -> List.Forall2 names chosen b -> a = b.
Proof.
  intro Ha. revert b. induction Ha as [|t o ts os Hn _ IH]; intros b Hb;
    inversion Hb; subst; [reflexivity|].
  unfold names in *. f_equal; [congruence | apply IH; assumption].
Qed.

Lemma form_book_genres (id : ObjectId) (refused : bool) (b : Req.Body) :
  given_genres (selection b) (Book.new_genre (form_book id refused b)).
Proof.
  unfold given_genres. simpl.
  pose proof (cast_all_escaped (selection b)) as H.
  destruct (cast_all (List.map Validator.escape (selection b))) as [oids|].
  - destruct H as [Hall Hn]. split; [intros _; exact Hn | contradiction].
  - split; [contradiction | reflexivity].
Qed.

Lemma form_book_author (id : ObjectId) (refused : bool) (b : Req.Body) :
  given_author (Req.author b) None (Book.new_author (form_book id refused b)).
Proof.
  unfold given_author, is_identifier, names. simpl. unfold sanitized. split.
  - intros oid H. exact H.
  - intro H.
    destruct (ObjectId_cast (Validator.escape (Validator.trim (Req.author b))))
      as [oid|]; [|reflexivity].
    exfalso. apply H. exists oid. reflexivity.
Qed.

Lemma form_book_shows (id : ObjectId) (refused : bool) (b : Req.Body) :
  shows_form b (form_book id refused b).
Proof.
  unfold shows_form.
  split; [reflexivity|]. split; [reflexivity|]. split; [reflexivity|].
  split; [apply form_book_author | apply form_book_genres].
Qed.

(** The genres of the form are checked by identifier match. *)
Lemma mark_checked_by_selection (id : ObjectId) (refused : bool)
  (b : Req.Body) (stored : list Genre.t) :
  checked_by_selection (selection b)
    (mark_checked (form_book id refused b)
       (List.map (fun x => Genre.hydrate x None) stored)).
Proof.
  intros g Hin.
  destruct (mark_checked_fetched _ _ _ Hin) as [Hiff Hcases].
  destruct (form_book_genres id refused b) as [Hsome Hnone].
  split; [|split; [|exact Hcases]].
  - intro Hall. rewrite Hiff. specialize (Hsome Hall). clear Hnone Hiff.
    revert Hsome. generalize (Book.new_genre (form_book id refused b)).
    generalize (selection b). intros chosen oids Hn.
    induction Hn as [|t o ts os Hto _ IH]; simpl.
    + split; [contradiction | intros [text [[] _]]].
    + split.
      * intros [<- | Hin']; [exists t; split; [left; reflexivity | exact Hto]|].
        apply IH in Hin' as [text [Ht Hn']].
        exists text. split; [right; exact Ht | exact Hn'].
      * intros [text [[<- | Ht] Hn']].
        -- left. unfold names in *. congruence.
        -- right. apply IH. exists text. split; assumption.
  - intro Hall. specialize (Hnone Hall).
    destruct Hcases as [Hc | Hc]; [|exact Hc].
    apply Hiff in Hc. rewrite Hnone in Hc. contradiction.
Qed.

(** ** The book form handlers *)

Lemma convert_genre_selection (b : Req.Body) :
  escape_each (Req.genre (convert_genre b))
  = Req.array (List.map Validator.escape (selection b)).
Proof.
  unfold convert_genre, selection. destruct (Req.genre b) eqn:E; simpl;
    try rewrite E; reflexivity.
Qed.

Lemma convert_genre_value (f : BookField) (b : Req.Body) :
  field_value f (convert_genre b) = field_value f b.
Proof.
  unfold convert_genre. destruct (Req.genre b), f; reflexivity.
Qed.

Lemma convert_genre_valid (b : Req.Body) :
  book_valid (convert_genre b) = book_valid b.
Proof.
  unfold book_valid.
  change (Req.title (convert_genre b))
    with (field_value Title (convert_genre b)).
  change (Req.author (convert_genre b))
    with (field_value AuthorRef (convert_genre b)).
  change (Req.summary (convert_genre b))
    with (field_value Summary (convert_genre b)).
  change (Req.isbn (convert_genre b))
    with (field_value Isbn (convert_genre b)).
  rewrite !convert_genre_value. reflexivity.
Qed.

(** The book each handler builds from the body the chains leave behind. *)
Lemma book_create_post_new (b : Req.Body) (m1 m2 m3 m4 : string) (w : World) :
  let body := fst (book_chains m1 m2 m3 m4 (convert_genre b)) in
  Book_new (Req.title body) (Req.author body) (Req.summary body)
    (Req.isbn body) (Req.genre body) None w
  = (form_book (ObjectId_of_counter (oid_counter w)) false b,
     snd (new_ObjectId w)).
Proof.
  simpl. unfold Book_new, form_book. simpl.
  rewrite convert_genre_selection. simpl.
  change (Req.title (convert_genre b))
    with (field_value Title (convert_genre b)).
  change (Req.author (convert_genre b))
    with (field_value AuthorRef (convert_genre b)).
  change (Req.summary (convert_genre b))
    with (field_value Summary (convert_genre b)).
  change (Req.isbn (convert_genre b))
    with (field_value Isbn (convert_genre b)).
  rewrite !convert_genre_value. reflexivity.
Qed.

(** The identifier of the book an update builds: the one the path names,
    or the one drawn when the path names none. *)
Lemma book_update_post_new (req : Req.t) (m1 m2 m3 m4 : string) (w : World) :
  let body := fst (book_chains m1 m2 m3 m4 (convert_genre (Req.body req))) in
  Book_new (Req.title body) (Req.author body) (Req.summary body)
    (Req.isbn body)
    (match Req.genre body with
     | Req.undefined => Req.array []
     | g => g
     end)
    (Some (Req.params_id req)) w
  = (form_book
       (match ObjectId_cast (Req.params_id req) with
        | Some id => id
        | None => ObjectId_of_counter (oid_counter w)
        end)
       (is_none (ObjectId_cast (Req.params_id req))) (Req.body req),
     snd (new_ObjectId w)).
Proof.
  simpl. unfold Book_new, form_book. simpl.
  rewrite convert_genre_selection. simpl.
  change (Req.title (convert_genre (Req.body req)))
    with (field_value Title (convert_genre (Req.body req))).
  change (Req.author (convert_genre (Req.body req)))
    with (field_value AuthorRef (convert_genre (Req.body req))).
  change (Req.summary (convert_genre (Req.body req)))
    with (field_value Summary (convert_genre (Req.body req))).
  change (Req.isbn (convert_genre (Req.body req)))
    with (field_value Isbn (convert_genre (Req.body req))).
  rewrite !convert_genre_value. reflexivity.
Qed.

Lemma book_create_post_invalid (req : Req.t) (w : World) :
  fault w = None -> book_valid (Req.body req) = false ->
  let book :=
    form_book (ObjectId_of_counter (oid_counter w)) false (Req.body req) in
  book_create_post req w
  = ([render
        (book_form "Create Book" (authors (db w))
           (mark_checked book
              (List.map (fun x => Genre.hydrate x None) (genres (db w))))
           book
           (snd (book_chains "Title must not be empty."
                   "Author must not be empty." "Summary must not be empty"
                   "ISBN must not be empty" (convert_genre (Req.body req)))))],
     snd (new_ObjectId w)).
Proof.
  intros Hf Hv book. unfold book_create_post.
  rewrite <- convert_genre_valid in Hv.
  pose proof (book_chains_invalid "Title must not be empty."
                "Author must not be empty." "Summary must not be empty"
                "ISBN must not be empty" _ Hv) as He.
  pose proof (book_create_post_new (Req.body req)
                "Title must not be empty." "Author must not be empty."
                "Summary must not be empty" "ISBN must not be empty" w)
    as Hb.
  destruct (book_chains _ _ _ _ (convert_genre (Req.body req)))
    as [body errors].
  cbn [fst snd] in He, Hb. cbv beta iota zeta in Hb |- *.
  rewrite Hb, He. cbn [negb isEmpty].
  unfold parallel2, Author_find, Genre_find, query, new_ObjectId.
  cbn [snd fault db]. rewrite Hf. reflexivity.
Qed.

Lemma book_update_post_invalid (req : Req.t) (w : World) :
  fault w = None -> book_valid (Req.body req) = false ->
  let book :=
    form_book
      (match ObjectId_cast (Req.params_id req) with
       | Some id => id
       | None => ObjectId_of_counter (oid_counter w)
       end)
      (is_none (ObjectId_cast (Req.params_id req))) (Req.body req) in
  book_update_post req w
  = ([render
        (book_form "Update Book" (authors (db w))
           (mark_checked book
              (List.map (fun x => Genre.hydrate x None) (genres (db w))))
           book
           (snd (book_chains "Title must not be empty"
                   "Author must not be empty" "Summary must not be empty"
                   "ISBN must not be empty" (convert_genre (Req.body req)))))],
     snd (new_ObjectId w)).
Proof.
  intros Hf Hv book. unfold book_update_post.
  rewrite <- convert_genre_valid in Hv.
  pose proof (book_chains_invalid "Title must not be empty"
                "Author must not be empty" "Summary must not be empty"
                "ISBN must not be empty" _ Hv) as He.
  pose proof (book_update_post_new req "Title must not be empty"
                "Author must not be empty" "Summary must not be empty"
                "ISBN must not be empty" w) as Hb.
  destruct (book_chains _ _ _ _ (convert_genre (Req.body req)))
    as [body errors].
  cbn [fst snd] in He, Hb. cbv beta iota zeta in Hb |- *.
  rewrite Hb, He. cbn [negb isEmpty].
  unfold parallel2, Author_find, Genre_find, query, new_ObjectId.
  cbn [snd fault db]. rewrite Hf. reflexivity.
Qed.

Lemma blank_field_invalid (f : BookField) (b : Req.Body) :
  blank (field_value f b) -> book_valid b = false.
Proof.
  intro H. apply filled_false in H. unfold book_valid.
  destruct f; simpl in H; rewrite H;
    rewrite ?andb_false_r, ?andb_false_l; reflexivity.
Qed.

(** ** The genre form handlers *)

Lemma genre_create_post_blank (req : Req.t) (w : World) :
  blank (Req.name (Req.body req)) ->
  genre_create_post req w
  = ([render
        (genre_form "Create Genre"
           (Genre.unsaved (ObjectId_of_counter (oid_counter w)) "" false)
           [Validator.mkError "name" "Genre name required"])],
     snd (new_ObjectId w)).
Proof.
  intro H. unfold genre_create_post, genre_chain, Validator.required.
  unfold blank in H. simpl. rewrite H. reflexivity.
Qed.

Lemma genre_update_post_blank (req : Req.t) (w : World) :
  blank (Req.name (Req.body req)) ->
  exists genre,
    genre_update_post req w
    = ([render
          (genre_form "Update Genre" genre
             [Validator.mkError "name" "Genre name required"])],
       snd (new_ObjectId w))
    /\ Genre.new_name genre = "".
Proof.
  intro H. unfold genre_update_post, genre_chain, Validator.required.
  unfold blank in H. simpl. rewrite H. unfold Genre_new. simpl.
  destruct (ObjectId_cast (Req.params_id req));
    eexists; split; reflexivity.
Qed.

Lemma book_messages_name_fields (f : BookField) :
  String.prefix (field_label f)
    (message_of "Title must not be empty." "Author must not be empty."
       "Summary must not be empty" "ISBN must not be empty" f) = true
  /\ String.prefix (field_label f)
       (message_of "Title must not be empty" "Author must not be empty"
          "Summary must not be empty" "ISBN must not be empty" f) = true.
Proof. destruct f; split; reflexivity. Qed.

(** C4. For every create or update POST of the book form or of the genre
    form in which a required field is empty after trimming (the driver
    answering), the handler renders the originating form again, and nothing
    else, with an error about that field whose message names it; the
    collections are left as they were: no entity is created and none is
    modified. *)
Theorem blank_required_field_rejected (req : Req.t) (w : World)
  (f : BookField) :
  fault w = None ->
  (blank (field_value f (Req.body req)) ->
   rejects_book_form book_create_post "Create Book" req w f
   /\ rejects_book_form book_update_post "Update Book" req w f)
  /\ (blank (Req.name (Req.body req)) ->
      rejects_genre_form genre_create_post "Create Genre" req w
      /\ rejects_genre_form genre_update_post "Update Genre" req w).
Proof.
  intro Hf. split; intro Hb.
  - pose proof (blank_field_invalid f _ Hb) as Hv.
    rewrite <- (convert_genre_value f) in Hb.
    destruct (book_messages_name_fields f) as [Hc Hu].
    split; split.
    + rewrite (book_create_post_invalid req w Hf Hv).
      do 4 eexists. eexists (Validator.mkError (field_name f) _).
      split; [reflexivity|]. split; [|split; [reflexivity | exact Hc]].
      apply book_chains_error_of_blank, Hb.
    + rewrite (book_create_post_invalid req w Hf Hv). reflexivity.
    + rewrite (book_update_post_invalid req w Hf Hv).
      do 4 eexists. eexists (Validator.mkError (field_name f) _).
      split; [reflexivity|]. split; [|split; [reflexivity | exact Hu]].
      apply book_chains_error_of_blank, Hb.
    + rewrite (book_update_post_invalid req w Hf Hv). reflexivity.
  - destruct (genre_update_post_blank req w Hb) as [genre [Eu _]].
    split; split.
    + rewrite (genre_create_post_blank req w Hb).
      do 3 eexists. split; [reflexivity|].
      split; [left; reflexivity | split; reflexivity].
    + rewrite (genre_create_post_blank req w Hb). reflexivity.
    + rewrite Eu.
      do 3 eexists. split; [reflexivity|].
      split; [left; reflexivity | split; reflexivity].
    + rewrite Eu. reflexivity.
Qed.

Lemma blank_required_field_rejected_witness :
  fault Sample.library = None
  /\ blank (field_value Title (Req.body Visits.blank_nbsp_title))
  /\ blank (Req.name (Req.body Visits.blank_nbsp_genre))
  /\ rejects_book_form book_create_post "Create Book" Visits.blank_nbsp_title
       Sample.library Title
  /\ rejects_genre_form genre_update_post "Update Genre"
       Visits.blank_nbsp_genre Sample.library.
Proof.
  split; [reflexivity|]. split; [reflexivity|]. split; [reflexivity|]. split.
  - apply (blank_required_field_rejected Visits.blank_nbsp_title
             Sample.library Title eq_refl). reflexivity.
  - apply (blank_required_field_rejected Visits.blank_nbsp_genre
             Sample.library Title eq_refl). reflexivity.
Defined.

Lemma errors_name_blank_fields_convert (b : Req.Body)
  (errors : list Validator.ValidationError) :
  errors_name_blank_fields (convert_genre b) errors ->
  errors_name_blank_fields b errors.
Proof.
  intros [Hne H]. split; [exact Hne|]. intro f.
  rewrite <- (convert_genre_value f b). apply H.
Qed.

(** C6, as the claim words it, fails here.  A create POST of the book form
    with a blank title, the author Emily and a selection made of the
    identifier of Poetry and of a text that is no identifier is rendered
    again with Poetry, whose identifier is in the selection, not checked,
    and with no author in place of the submitted one. *)
Lemma book_form_repopulated_counterexample :
  book_valid (Req.body Visits.blank_title_mixed) = false
  /\ In (Genre._id Sample.poetry)
       (selection (Req.body Visits.blank_title_mixed))
  /\ sanitized (Req.author (Req.body Visits.blank_title_mixed)) = "Emily"
  /\ exists authors docs shown errors,
       fst (book_create_post Visits.blank_title_mixed Sample.library)
       = [render (book_form "Create Book" authors docs shown errors)]
       /\ In (Genre.hydrate Sample.poetry None) docs
       /\ ~ In (Genre.hydrate Sample.poetry (Some "true")) docs
       /\ Book.new_author shown = None.
Proof.
  split; [reflexivity|]. split; [left; reflexivity|]. split; [reflexivity|].
  do 4 eexists. split; [reflexivity|].
  split; [right; left; reflexivity|]. split; [|reflexivity].
  intros [H | [H | [H | []]]]; discriminate H.
Qed.

(** C6, amended.  For every create or update POST of the book form that
    fails validation (the driver answering), the handler renders the form
    again, and nothing else, with the authors and the genres fetched from
    the store, the sanitized title, summary and ISBN, the author the
    submitted text names, none when it names none, and the errors of the
    required fields left blank.  When every entry of the selection is an
    object identifier, a fetched genre carries [checked] exactly when an
    entry names its identifier; when some entry is not, no genre does. *)
Theorem book_form_repopulated (req : Req.t) (w : World) :
  fault w = None -> book_valid (Req.body req) = false ->
  repopulates_book_form book_create_post "Create Book" req w
  /\ repopulates_book_form book_update_post "Update Book" req w.
Proof.
  intros Hf Hv. split.
  - unfold repopulates_book_form.
    rewrite (book_create_post_invalid req w Hf Hv).
    do 3 eexists. split; [reflexivity|]. split; [|split; [|split]].
    + rewrite mark_checked_fields, List.map_map. apply List.map_id.
    + apply form_book_shows.
    + apply mark_checked_by_selection.
    + apply errors_name_blank_fields_convert,
        book_chains_errors_name_blank_fields.
      rewrite convert_genre_valid. exact Hv.
  - unfold repopulates_book_form.
    rewrite (book_update_post_invalid req w Hf Hv).
    do 3 eexists. split; [reflexivity|]. split; [|split; [|split]].
    + rewrite mark_checked_fields, List.map_map. apply List.map_id.
    + apply form_book_shows.
    + apply mark_checked_by_selection.
    + apply errors_name_blank_fields_convert,
        book_chains_errors_name_blank_fields.
      rewrite convert_genre_valid. exact Hv.
Qed.

Lemma book_form_repopulated_witness :
  fault Sample.library = None
  /\ book_valid (Req.body Sample.blank_title) = false
  /\ exists docs shown errors,
       fst (book_update_post Sample.blank_title Sample.library)
       = [render (book_form "Update Book" [Sample.poet] docs shown errors)]
       /\ In (Genre.hydrate Sample.poetry (Some "true")) docs
       /\ In (Genre.hydrate Sample.fantasy None) docs
       /\ Book.new_author shown = Some (Author._id Sample.poet)
       /\ Book.new_genre shown = [Genre._id Sample.poetry].
Proof.
  split; [reflexivity|]. split; [reflexivity|].
  destruct (book_form_repopulated Sample.blank_title Sample.library eq_refl
              eq_refl) as [_ Hupdate].
  destruct Hupdate as [docs [shown [errors [E [_ [_ [Hchecked _]]]]]]].
  exists docs, shown, errors. split; [exact E|].
  assert (In (Genre.hydrate Sample.fantasy None) docs
          /\ Book.new_author shown = Some (Author._id Sample.poet)
          /\ Book.new_genre shown = [Genre._id Sample.poetry]) as Hrest.
  { vm_compute in E. injection E as <- <- <-.
    split; [left; reflexivity | split; reflexivity]. }
  split; [|exact Hrest].
  assert (exists g, In g docs /\ Genre.fields g = Sample.poetry) as [g [Hg Hp]].
  { vm_compute in E. injection E as <- <- <-.
    eexists. split; [right; left; reflexivity | reflexivity]. }
  destruct (Hchecked g Hg) as [Hall _].
  assert (Genre.checked g = Some "true") as Hc.
  { apply Hall.
    - repeat constructor. exists (Genre._id Sample.poetry). reflexivity.
    - exists (Genre._id Sample.poetry). rewrite Hp.
      split; [left; reflexivity | reflexivity]. }
  destruct g as [fields checked]. simpl in Hp, Hc. subst. exact Hg.
Defined.

(** ** Updating in place *)

Section FirstMatch.

Context {A : Type} (p : A -> bool).

Lemma replace_first_find (y old : A) (xs : list A) :
  List.find p xs = Some old -> p y = true ->
  List.find p (replace_first p y xs) = Some y.
Proof.
  intros Hfind Hy. induction xs as [|x xs IH]; simpl in *; [discriminate|].
  destruct (p x) eqn:E; simpl.
  - rewrite Hy. reflexivity.
  - rewrite E. apply IH, Hfind.
Qed.

Lemma replace_first_map {B : Type} (key : A -> B) (y : A) (xs : list A) :
  (forall x, p x = true -> key x = key y) ->
  List.map key (replace_first p y xs) = List.map key xs.
Proof.
  intro Hkey. induction xs as [|x xs IH]; simpl; [reflexivity|].
  destruct (p x) eqn:E; simpl.
  - rewrite (Hkey x E). reflexivity.
  - rewrite IH. reflexivity.
Qed.

Lemma remove_first_keeps (x : A) (xs : list A) :
  In x xs -> p x = false -> In x (remove_first p xs).
Proof.
  intros Hin Hx. induction xs as [|y ys IH]; simpl in *; [contradiction|].
  destruct (p y) eqn:E.
  - destruct Hin as [-> | Hin]; [congruence | exact Hin].
  - destruct Hin as [-> | Hin]; [left; reflexivity | right; apply IH, Hin].
Qed.

End FirstMatch.

Lemma Book_find_id (d : Db) (id : ObjectId) (b : Book.t) :
  Book_findById_in d id = Some b -> Book._id b = id.
Proof.
  intro H. apply List.find_some in H as [_ H]. apply String.eqb_eq, H.
Qed.

Lemma Genre_find_id (d : Db) (id : ObjectId) (g : Genre.t) :
  Genre_findById_in d id = Some g -> Genre._id g = id.
Proof.
  intro H. apply List.find_some in H as [_ H]. apply String.eqb_eq, H.
Qed.

(** The success branch of the book update, whatever the store answers. *)
Lemma book_update_post_valid (req : Req.t) (w : World) :
  book_valid (Req.body req) = true ->
  book_update_post req w
  = match
      Book_findByIdAndUpdate (Req.params_id req)
        (form_book
           (match ObjectId_cast (Req.params_id req) with
            | Some id => id
            | None => ObjectId_of_counter (oid_counter w)
            end)
           (is_none (ObjectId_cast (Req.params_id req))) (Req.body req))
        (snd (new_ObjectId w))
    with
    | (inl err, w) => ([next err], w)
    | (inr None, w) => ([TypeError_null "url"], w)
    | (inr (Some book), w) => ([redirect (Book.url book)], w)
    end.
Proof.
  intro Hv. unfold book_update_post.
  rewrite <- convert_genre_valid in Hv.
  pose proof (book_chains_valid "Title must not be empty"
                "Author must not be empty" "Summary must not be empty"
                "ISBN must not be empty" _ Hv) as He.
  pose proof (book_update_post_new req "Title must not be empty"
                "Author must not be empty" "Summary must not be empty"
                "ISBN must not be empty" w) as Hb.
  destruct (book_chains _ _ _ _ (convert_genre (Req.body req)))
    as [body errors].
  cbn [fst snd] in He, Hb. cbv beta iota zeta in Hb |- *.
  rewrite Hb, He. reflexivity.
Qed.

Lemma genre_update_post_valid (req : Req.t) (w : World) :
  filled (Req.name (Req.body req)) = true ->
  let genre :=
    Genre.unsaved
      (match ObjectId_cast (Req.params_id req) with
       | Some id => id
       | None => ObjectId_of_counter (oid_counter w)
       end)
      (sanitized (Req.name (Req.body req)))
      (is_none (ObjectId_cast (Req.params_id req))) in
  genre_update_post req w
  = match
      Genre_findByIdAndUpdate (Req.params_id req) genre (snd (new_ObjectId w))
    with
    | (inl err, w) => ([next err], w)
    | (inr _, w) => ([redirect (Genre.new_url genre)], w)
    end.
Proof.
  intros Hn genre. subst genre.
  unfold genre_update_post, genre_chain, Validator.required.
  unfold filled in Hn. simpl. rewrite Hn. unfold Genre_new. simpl.
  destruct (ObjectId_cast (Req.params_id req)); reflexivity.
Qed.

(** The book an update leaves in the store: the fields of the form, and
    the author the stored book had when the form names none. *)
Lemma updated_stores_form (id : ObjectId) (refused : bool) (b : Req.Body)
  (old : Book.t) :
  stores_form b (Some (Book.author old))
    (Book.mk (Book._id old) (Book.new_title (form_book id refused b))
       (match Book.new_author (form_book id refused b) with
        | Some author => author
        | None => Book.author old
        end)
       (Book.new_summary (form_book id refused b))
       (Book.new_isbn (form_book id refused b))
       (Book.new_genre (form_book id refused b))).
Proof.
  unfold stores_form.
  split; [reflexivity|]. split; [reflexivity|]. split; [reflexivity|].
  split; [|apply form_book_genres].
  unfold given_author, is_identifier, names. simpl. unfold sanitized. split.
  - intros oid H. rewrite H. reflexivity.
  - intro H.
    destruct (ObjectId_cast (Validator.escape (Validator.trim (Req.author b))))
      as [oid|]; [|reflexivity].
    exfalso. apply H. exists oid. reflexivity.
Qed.

(** C5, as the claim words it, fails here.  An update POST for the stored
    book Poems with valid fields whose author is the name Emily, which is
    no identifier, redirects to the book, and fetching the book afterwards
    returns the author it had before, not the submitted one. *)
Lemma update_keeps_identifier_counterexample :
  fault Sample.library = None
  /\ ObjectId_cast (Req.params_id Visits.revise_with_name)
     = Some (Book._id Sample.poems)
  /\ Book_findById_in (db Sample.library) (Book._id Sample.poems)
     = Some Sample.poems
  /\ book_valid (Req.body Visits.revise_with_name) = true
  /\ sanitized (Req.author (Req.body Visits.revise_with_name)) = "Emily"
  /\ fst (book_update_post Visits.revise_with_name Sample.library)
     = [redirect (Book.url Sample.poems)]
  /\ exists after,
       Book_findById_in
         (db (snd (book_update_post Visits.revise_with_name Sample.library)))
         (Book._id Sample.poems)
       = Some after
       /\ Book.author after = Book.author Sample.poems
       /\ Book.author after
          <> sanitized (Req.author (Req.body Visits.revise_with_name)).
Proof.
  split; [reflexivity|]. split; [reflexivity|]. split; [reflexivity|].
  split; [reflexivity|]. split; [reflexivity|]. split; [reflexivity|].
  eexists. split; [vm_compute; reflexivity|]. split; [reflexivity|].
  intro H. discriminate H.
Qed.

(** C5, amended.  For every update POST of a book or of a genre whose path
    identifier names a document of the store and whose fields are all valid
    (the driver answering), the handler redirects to the detail page of
    that identifier, the collection holds the same identifiers as before,
    and fetching by the identifier afterwards returns a document under that
    identifier with the submitted values, sanitized: for a genre the name;
    for a book the title, the summary and the ISBN, the author the
    submitted text names, or the author the book had when the text names
    none, and the genres the selection names, or none when some entry of
    the selection is no identifier. *)
Theorem update_keeps_identifier (req : Req.t) (w : World) (id : ObjectId) :
  fault w = None -> ObjectId_cast (Req.params_id req) = Some id ->
  (forall old, Book_findById_in (db w) id = Some old ->
     book_valid (Req.body req) = true ->
     let w' := snd (book_update_post req w) in
     fst (book_update_post req w) = [redirect ("/catalog/book/" ++ id)]
     /\ (exists updated,
           Book_findById_in (db w') id = Some updated
           /\ Book._id updated = id
           /\ stores_form (Req.body req) (Some (Book.author old)) updated)
     /\ List.map Book._id (books (db w')) = List.map Book._id (books (db w)))
  /\ (forall old, Genre_findById_in (db w) id = Some old ->
        filled (Req.name (Req.body req)) = true ->
        let w' := snd (genre_update_post req w) in
        fst (genre_update_post req w) = [redirect ("/catalog/genre/" ++ id)]
        /\ Genre_findById_in (db w') id
           = Some (Genre.mk id (sanitized (Req.name (Req.body req))))
        /\ List.map Genre._id (genres (db w'))
           = List.map Genre._id (genres (db w))).
Proof.
  intros Hf Hid. split.
  - intros old Hold Hv.
    rewrite (book_update_post_valid req w Hv).
    unfold Book_findByIdAndUpdate, command. rewrite Hid.
    cbn [new_ObjectId snd fault db]. rewrite Hf, Hold.
    pose proof (Book_find_id _ _ Hold) as Ho.
    replace (Book.new_id (form_book id false (Req.body req))) with id
      by reflexivity.
    rewrite Ho, String.eqb_refl. unfold Book.url. rewrite Ho.
    cbn [fst snd with_db db books]. split; [reflexivity|]. split.
    + eexists. split; [|split].
      * unfold Book_findById_in. cbn [books].
        apply replace_first_find with (old := old); [exact Hold|].
        simpl. apply String.eqb_refl.
      * reflexivity.
      * rewrite <- Ho at 1. apply updated_stores_form.
    + apply replace_first_map. intros x Hx. simpl.
      apply String.eqb_eq, Hx.
  - intros old Hold Hn.
    rewrite (genre_update_post_valid req w Hn).
    unfold Genre_findByIdAndUpdate, command. rewrite Hid.
    cbn [new_ObjectId snd fault db]. rewrite Hf, Hold.
    pose proof (Genre_find_id _ _ Hold) as Ho.
    cbn [Genre.new_id Genre.new_name Genre.new_url].
    rewrite Ho, String.eqb_refl.
    cbn [fst snd with_db db genres]. split; [reflexivity|]. split.
    + unfold Genre_findById_in. cbn [genres].
      apply replace_first_find with (old := old); [exact Hold|].
      simpl. apply String.eqb_refl.
    + apply replace_first_map. intros x Hx. simpl.
      apply String.eqb_eq, Hx.
Qed.

Lemma update_keeps_identifier_witness :
  fault Sample.library = None
  /\ ObjectId_cast (Req.params_id Visits.revise_with_name)
     = Some (Book._id Sample.poems)
  /\ Book_findById_in (db Sample.library) (Book._id Sample.poems)
     = Some Sample.poems
  /\ book_valid (Req.body Visits.revise_with_name) = true
  /\ exists updated,
       Book_findById_in
         (db (snd (book_update_post Visits.revise_with_name Sample.library)))
         (Book._id Sample.poems)
       = Some updated
       /\ Book._id updated = Book._id Sample.poems
       /\ stores_form (Req.body Visits.revise_with_name)
            (Some (Book.author Sample.poems)) updated.
Proof.
  split; [reflexivity|]. split; [reflexivity|]. split; [reflexivity|].
  split; [reflexivity|].
  destruct (update_keeps_identifier Visits.revise_with_name Sample.library
              eq_refl eq_refl) as [Hbook _].
  destruct (Hbook Sample.poems eq_refl eq_refl) as [_ [E _]].
  exact E.
Defined.

Lemma with_db_same (w : World) : with_db w (db w) = w.
Proof. destruct w; reflexivity. Qed.

(** C10. For every update POST of the book form whose fields all pass
    validation (the driver answering) and whose path is cast to an
    identifier: when no book has that identifier, the update calls back
    with null whatever the document it is given, the handler reads the
    [url] property of that null and raises a TypeError instead of
    redirecting, and the collections are left as they were; when a book
    has it, the handler redirects to the URL of the document the update
    calls back with.  When the path is cast to no identifier the handler
    hands the cast error to [next].  The success branch is safe only when
    the identifier resolves. *)
Theorem book_update_post_null_dereference (req : Req.t) (w : World) :
  fault w = None -> book_valid (Req.body req) = true ->
  (ObjectId_cast (Req.params_id req) = None ->
   fst (book_update_post req w) = [next CastError]
   /\ db (snd (book_update_post req w)) = db w)
  /\ (forall id, ObjectId_cast (Req.params_id req) = Some id ->
        (Book_findById_in (db w) id = None ->
         (forall update,
            Book_findByIdAndUpdate (Req.params_id req) update w
            = (inr None, w))
         /\ book_update_post req w
            = ([TypeError_null "url"], snd (new_ObjectId w))
         /\ db (snd (book_update_post req w)) = db w)
        /\ (forall old, Book_findById_in (db w) id = Some old ->
              fst (book_update_post req w) = [redirect (Book.url old)])).
Proof.
  intros Hf Hv. rewrite (book_update_post_valid req w Hv).
  unfold Book_findByIdAndUpdate, command. split.
  - intro Hnone. rewrite Hnone. split; reflexivity.
  - intros id Hid. rewrite Hid. cbn [new_ObjectId snd fault db].
    rewrite Hf. split.
    + intro Hnone. rewrite Hnone, !with_db_same.
      split; [intro; reflexivity | split; reflexivity].
    + intros old Hold. rewrite Hold.
      replace (Book.new_id (form_book id false (Req.body req))) with id
        by reflexivity.
      rewrite (Book_find_id _ _ Hold), String.eqb_refl. reflexivity.
Qed.

Lemma book_update_post_null_dereference_witness :
  fault Sample.library = None
  /\ book_valid (Req.body Sample.revise_unknown) = true
  /\ ObjectId_cast (Req.params_id Sample.revise_unknown)
     = Some (Req.params_id Sample.revise_unknown)
  /\ Book_findById_in (db Sample.library) (Req.params_id Sample.revise_unknown)
     = None
  /\ book_update_post Sample.revise_unknown Sample.library
     = ([TypeError_null "url"], snd (new_ObjectId Sample.library)).
Proof.
  split; [reflexivity|]. split; [reflexivity|]. split; [reflexivity|].
  split; [reflexivity|].
  destruct (book_update_post_null_dereference Sample.revise_unknown
              Sample.library eq_refl eq_refl) as [_ Hcast].
  destruct (Hcast (Req.params_id Sample.revise_unknown) eq_refl)
    as [Habsent _].
  destruct (Habsent eq_refl) as [_ [E _]]. exact E.
Defined.

(** ** Creating a genre *)

Lemma genre_create_post_valid (req : Req.t) (w : World) :
  filled (Req.name (Req.body req)) = true ->
  let name := sanitized (Req.name (Req.body req)) in
  let genre :=
    Genre.unsaved (ObjectId_of_counter (oid_counter w)) name false in
  genre_create_post req w
  = match Genre_findOne_name name (snd (new_ObjectId w)) with
    | inl err => ([next err], snd (new_ObjectId w))
    | inr (Some found_genre) =>
        ([redirect (Genre.url found_genre)], snd (new_ObjectId w))
    | inr None =>
        match Genre_save genre (snd (new_ObjectId w)) with
        | (inl err, w) => ([next err], w)
        | (inr _, w) => ([redirect (Genre.new_url genre)], w)
        end
    end.
Proof.
  intros Hn name genre.
  unfold genre_create_post, genre_chain, Validator.required.
  unfold filled in Hn. simpl. rewrite Hn. reflexivity.
Qed.

Lemma sanitized_filled (value : string) :
  filled value = true -> sanitized value <> "".
Proof.
  unfold filled, Validator.isLength_min1, sanitized. intros H E.
  destruct (Validator.trim value) as [|c rest]; [discriminate|].
  simpl in E. destruct (Validator.escape_char c) eqn:Ec; [|discriminate].
  destruct (escape_char_cases c) as [Hc | [tail Hc]]; rewrite Hc in Ec;
    discriminate.
Qed.

(** C3. For every create POST of the genre form whose name passes
    validation (the driver answering), the name being compared as the
    handler reads it from the body, trimmed and escaped: when some genre of
    the store has exactly that name, the collections are left as they were
    and the handler redirects to the detail URL of a stored genre of that
    name; when none has, the genre is appended to the genres under a newly
    allocated identifier, the other collections are untouched, and the
    handler redirects to the detail URL of the new genre. *)
Theorem genre_create_post_idempotent_by_name (req : Req.t) (w : World) :
  fault w = None -> filled (Req.name (Req.body req)) = true ->
  let name := sanitized (Req.name (Req.body req)) in
  let fresh := Genre.mk (ObjectId_of_counter (oid_counter w)) name in
  let w' := snd (genre_create_post req w) in
  ((exists g, In g (genres (db w)) /\ Genre.name g = name) ->
   exists found,
     In found (genres (db w)) /\ Genre.name found = name
     /\ fst (genre_create_post req w) = [redirect (Genre.url found)]
     /\ db w' = db w)
  /\ ((forall g, In g (genres (db w)) -> Genre.name g <> name) ->
      fst (genre_create_post req w) = [redirect (Genre.url fresh)]
      /\ genres (db w') = (genres (db w) ++ [fresh])%list
      /\ books (db w') = books (db w)
      /\ authors (db w') = authors (db w)
      /\ bookinstances (db w') = bookinstances (db w)).
Proof.
  intros Hf Hn name fresh w'. subst w'.
  rewrite (genre_create_post_valid req w Hn). fold name.
  pose proof (sanitized_filled _ Hn) as Hne. fold name in Hne.
  apply String.eqb_neq in Hne.
  unfold Genre_findOne_name, Genre_save, Genre_validate, command, query.
  cbn [new_ObjectId snd fault db Genre.cast_failed Genre.new_name
       Genre.new_id orb].
  rewrite Hf, Hne.
  destruct (List.find (fun g => String.eqb (Genre.name g) name)
              (genres (db w))) as [found|] eqn:E.
  - split.
    + intros _. apply List.find_some in E as [Hin Hname].
      exists found. apply String.eqb_eq in Hname. repeat split; assumption.
    + intro Hnone. apply List.find_some in E as [Hin Hname].
      apply String.eqb_eq in Hname. destruct (Hnone found Hin Hname).
  - split.
    + intros [g [Hin Hname]].
      pose proof (List.find_none _ _ E g Hin) as Hg. simpl in Hg.
      rewrite Hname, String.eqb_refl in Hg. discriminate.
    + intros _. repeat split.
Qed.

Lemma genre_create_post_idempotent_by_name_witness :
  fault Sample.library = None
  /\ filled (Req.name (Req.body Sample.create_fantasy_again)) = true
  /\ In Sample.fantasy (genres (db Sample.library))
  /\ Genre.name Sample.fantasy
     = sanitized (Req.name (Req.body Sample.create_fantasy_again))
  /\ exists found,
       fst (genre_create_post Sample.create_fantasy_again Sample.library)
       = [redirect (Genre.url found)]
       /\ db (snd (genre_create_post Sample.create_fantasy_again
                     Sample.library))
          = db Sample.library.
Proof.
  assert (In Sample.fantasy (genres (db Sample.library))) as Hin
    by (left; reflexivity).
  split; [reflexivity|]. split; [reflexivity|]. split; [exact Hin|].
  split; [reflexivity|].
  destruct (genre_create_post_idempotent_by_name Sample.create_fantasy_again
              Sample.library eq_refl eq_refl) as [Hsame _].
  destruct Hsame as [found [_ [_ [Hr Hd]]]].
  - exists Sample.fantasy. split; [exact Hin | reflexivity].
  - exists found. split; assumption.
Defined.

(** ** Deleting a genre *)

Lemma references_In (id : ObjectId) (b : Book.t) :
  references id b = true <-> In id (Book.genre b).
Proof.
  unfold references. rewrite List.existsb_exists. split.
  - intros [x [Hin E]]. apply String.eqb_eq in E. subst x. exact Hin.
  - intro Hin. exists id. split; [exact Hin | apply String.eqb_refl].
Qed.

Lemma referenced_filter (d : Db) (id : ObjectId) :
  referenced d id <-> List.filter (references id) (books d) <> [].
Proof.
  unfold referenced. split.
  - intros [b [Hin Hid]] E.
    assert (In b (List.filter (references id) (books d))) as Hb
      by (apply List.filter_In; split; [exact Hin | apply references_In, Hid]).
    rewrite E in Hb. exact Hb.
  - intro Hne.
    destruct (List.filter (references id) (books d)) as [|b bs] eqn:E;
      [congruence|].
    assert (In b (List.filter (references id) (books d))) as Hb
      by (rewrite E; left; reflexivity).
    apply List.filter_In in Hb as [Hin Hr]. exists b. split; [exact Hin|].
    apply references_In, Hr.
Qed.

(** A path that is cast to no identifier stops both delete handlers before
    any query. *)
Lemma genre_delete_uncastable (req : Req.t) (w : World) :
  ObjectId_cast (Req.params_id req) = None ->
  genre_delete_get req w = ([next CastError], w)
  /\ genre_delete_post req w = ([next CastError], w).
Proof.
  intro Hc.
  unfold genre_delete_get, genre_delete_post, parallel2, Genre_findById,
    casting.
  rewrite Hc. split; reflexivity.
Qed.

(** The confirmation view on GET: after a redirect when no genre has the
    identifier, alone when one has. *)
Lemma genre_delete_get_calls (req : Req.t) (w : World) (id : ObjectId) :
  fault w = None -> ObjectId_cast (Req.params_id req) = Some id ->
  let blocking :=
    List.map (populate (db w)) (List.filter (references id) (books (db w))) in
  genre_delete_get req w
  = (match Genre_findById_in (db w) id with
     | None =>
         [redirect "/catalog/genres";
          render (genre_delete "Delete Genre" None blocking)]
     | Some g => [render (genre_delete "Delete Genre" (Some g) blocking)]
     end, w).
Proof.
  intros Hf Hc blocking.
  unfold genre_delete_get, parallel2, Genre_findById,
    Book_find_genre_populated, casting, query.
  rewrite Hc, Hf.
  destruct (Genre_findById_in (db w) id); reflexivity.
Qed.

(** The POST is refused while a book lists the path identifier: the
    confirmation view is rendered with those books and the store is left as
    it was. *)
Lemma genre_delete_post_blocked (req : Req.t) (w : World) (id : ObjectId) :
  fault w = None -> ObjectId_cast (Req.params_id req) = Some id ->
  referenced (db w) id ->
  genre_delete_post req w
  = ([render
        (genre_delete "Delete Genre" (Genre_findById_in (db w) id)
           (List.map (populate (db w))
              (List.filter (references id) (books (db w)))))], w).
Proof.
  intros Hf Hc Href. apply referenced_filter in Href.
  unfold genre_delete_post, parallel2, Genre_findById,
    Book_find_genre_populated, casting, query.
  rewrite Hc, Hf, List.length_map.
  destruct (List.filter (references id) (books (db w))); [congruence|].
  reflexivity.
Qed.

(** When no book lists the path identifier, the removal is the one the
    body asks for. *)
Lemma genre_delete_post_free (req : Req.t) (w : World) (id : ObjectId) :
  fault w = None -> ObjectId_cast (Req.params_id req) = Some id ->
  ~ referenced (db w) id ->
  genre_delete_post req w
  = match ObjectId_cast (Req.genreid (Req.body req)) with
    | None => ([next CastError], w)
    | Some target =>
        ([redirect "/catalog/genres"],
         with_db w
           (mkDb (books (db w)) (authors (db w))
              (remove_first (fun g => String.eqb (Genre._id g) target)
                 (genres (db w)))
              (bookinstances (db w))))
    end.
Proof.
  intros Hf Hc Href. rewrite referenced_filter in Href.
  unfold genre_delete_post, parallel2, Genre_findById,
    Book_find_genre_populated, casting, query.
  rewrite Hc, Hf, List.length_map.
  destruct (List.filter (references id) (books (db w)));
    [|exfalso; apply Href; discriminate].
  simpl. unfold Genre_findByIdAndRemove, command. rewrite Hf.
  destruct (ObjectId_cast (Req.genreid (Req.body req))); reflexivity.
Qed.

Lemma genre_delete_post_faulty (req : Req.t) (w : World) (err : Error) :
  fault w = Some err ->
  genre_delete_post req w
  = ([next (if is_none (ObjectId_cast (Req.params_id req)) then CastError
            else err)], w).
Proof.
  intro Hf.
  unfold genre_delete_post, parallel2, Genre_findById, casting, query.
  destruct (ObjectId_cast (Req.params_id req)); [rewrite Hf|]; reflexivity.
Qed.

Lemma referenced_dec (d : Db) (id : ObjectId) :
  referenced d id \/ ~ referenced d id.
Proof.
  rewrite referenced_filter.
  destruct (List.filter (references id) (books d)); [right | left]; congruence.
Qed.

(** When the body carries the identifier of the path, a genre listed by a
    book survives the POST, and the books are left as they were. *)
Lemma genre_delete_post_same_id_keeps_referenced (req : Req.t) (w : World)
  (g : Genre.t) :
  Req.genreid (Req.body req) = Req.params_id req ->
  In g (genres (db w)) -> referenced (db w) (Genre._id g) ->
  In g (genres (db (snd (genre_delete_post req w))))
  /\ books (db (snd (genre_delete_post req w))) = books (db w).
Proof.
  intros Hsame Hin Href.
  destruct (fault w) as [err|] eqn:Hf.
  - rewrite (genre_delete_post_faulty req w Hf). split; [exact Hin|reflexivity].
  - destruct (ObjectId_cast (Req.params_id req)) as [id|] eqn:Hc.
    + destruct (referenced_dec (db w) id) as [Hb | Hfree].
      * rewrite (genre_delete_post_blocked req w Hf Hc Hb).
        split; [exact Hin | reflexivity].
      * rewrite (genre_delete_post_free req w Hf Hc Hfree), Hsame, Hc. simpl.
        split; [|reflexivity].
        apply remove_first_keeps; [exact Hin|].
        apply String.eqb_neq. intro E.
        apply Hfree. rewrite <- E. exact Href.
    + destruct (genre_delete_uncastable req w Hc) as [_ E]. rewrite E.
      split; [exact Hin | reflexivity].
Qed.

Lemma serve_genre_delete_post_same_id_keeps_referenced (reqs : list Req.t)
  (w : World) (g : Genre.t) :
  List.Forall (fun req => Req.genreid (Req.body req) = Req.params_id req)
    reqs ->
  In g (genres (db w)) -> referenced (db w) (Genre._id g) ->
  In g (genres (db (serve genre_delete_post reqs w))).
Proof.
  intro Hall. revert w.
  induction Hall as [|req reqs Hreq _ IH]; simpl; intros w Hin Href;
    [exact Hin|].
  destruct (genre_delete_post_same_id_keeps_referenced req w g Hreq Hin Href)
    as [Hin' Hbooks].
  apply IH; [exact Hin'|].
  destruct Href as [b [Hb Hid]]. exists b. rewrite Hbooks. split; assumption.
Qed.

(** C1, at a failing input.  The store holds the genres Fantasy, Poetry and
    Essays and one book, which lists Poetry.  A delete POST addressed to
    Fantasy, which no book lists, and carrying the identifier of Poetry in
    its body passes the pre-check and removes Poetry, although a book still
    lists it. *)
Theorem genre_delete_post_removes_referenced_genre :
  let w' :=
    serve genre_delete_post [Sample.delete_fantasy_carrying_poetry]
      Sample.library in
  In Sample.poetry (genres (db Sample.library))
  /\ referenced (db Sample.library) (Genre._id Sample.poetry)
  /\ ~ referenced (db Sample.library)
         (Req.params_id Sample.delete_fantasy_carrying_poetry)
  /\ genres (db w') = [Sample.fantasy; Sample.essays]
  /\ ~ In Sample.poetry (genres (db w'))
  /\ referenced (db w') (Genre._id Sample.poetry).
Proof.
  assert (referenced (db Sample.library) (Genre._id Sample.poetry)) as Href
    by (exists Sample.poems; split; left; reflexivity).
  repeat split.
  - right; left; reflexivity.
  - exact Href.
  - rewrite referenced_filter. intro H. apply H. reflexivity.
  - intros [H | [H | []]]; discriminate H.
  - exact Href.
Qed.

(** C2, at a failing input.  In the same store, a delete POST addressed to
    Fantasy, which no book lists, and carrying the identifier of Essays in
    its body redirects to the list of genres, yet Fantasy is still in the
    store afterwards: the genre removed is Essays. *)
Theorem genre_delete_post_removes_another_genre :
  let req := Sample.delete_fantasy_carrying_essays in
  ~ referenced (db Sample.library) (Req.params_id req)
  /\ Genre_findById_in (db Sample.library) (Req.params_id req)
     = Some Sample.fantasy
  /\ fst (genre_delete_post req Sample.library) = [redirect "/catalog/genres"]
  /\ genres (db (snd (genre_delete_post req Sample.library)))
     = [Sample.fantasy; Sample.poetry]
  /\ Genre_findById_in (db (snd (genre_delete_post req Sample.library)))
       (Req.params_id req)
     = Some Sample.fantasy.
Proof.
  repeat split.
  rewrite referenced_filter. intro H. apply H. reflexivity.
Qed.

(** C7, at a failing input.  A delete GET for an identifier that no genre
    of the store has calls [res.redirect] and then, the branch not
    returning, [res.render] with the confirmation view of a null genre. *)
Theorem genre_delete_get_unknown_renders_after_redirect :
  Genre_findById_in (db Sample.library) (Req.params_id Sample.delete_unknown)
  = None
  /\ genre_delete_get Sample.delete_unknown Sample.library
     = ([redirect "/catalog/genres";
         render (genre_delete "Delete Genre" None [])], Sample.library).
Proof. split; reflexivity. Qed.

(** * Further properties of the controllers *)

(** ** The genre field of the book form *)

(** X1. The first middleware of the book form turns the genre field into
    an array whatever its shape: absent gives the empty array, one value a
    one-element array, an array itself.  The selection and every other
    field are as submitted, and running the middleware again changes
    nothing. *)
Theorem convert_genre_array (b : Req.Body) :
  Req.genre (convert_genre b) = Req.array (selection b)
  /\ List.length (selection b)
     = match Req.genre b with
       | Req.undefined => 0%nat
       | Req.single _ => 1%nat
       | Req.array values => List.length values
       end
  /\ convert_genre (convert_genre b) = convert_genre b
  /\ (forall f, field_value f (convert_genre b) = field_value f b)
  /\ Req.name (convert_genre b) = Req.name b
  /\ Req.genreid (convert_genre b) = Req.genreid b.
Proof.
  unfold convert_genre, selection.
  destruct b as [n t a s i g gid]; simpl.
  destruct g; simpl; repeat split; intro f; destruct f; reflexivity.
Qed.

(** ** Creating a book *)

Lemma book_create_post_valid (req : Req.t) (w : World) :
  book_valid (Req.body req) = true ->
  let book :=
    form_book (ObjectId_of_counter (oid_counter w)) false (Req.body req) in
  book_create_post req w
  = match Book_save book (snd (new_ObjectId w)) with
    | (inl err, w) => ([next err], w)
    | (inr _, w) => ([redirect (Book.new_url book)], w)
    end.
Proof.
  intros Hv book. unfold book_create_post.
  rewrite <- convert_genre_valid in Hv.
  pose proof (book_chains_valid "Title must not be empty."
                "Author must not be empty." "Summary must not be empty"
                "ISBN must not be empty" _ Hv) as He.
  pose proof (book_create_post_new (Req.body req)
                "Title must not be empty." "Author must not be empty."
                "Summary must not be empty" "ISBN must not be empty" w)
    as Hb.
  destruct (book_chains _ _ _ _ (convert_genre (Req.body req)))
    as [body errors].
  cbn [fst snd] in He, Hb. cbv beta iota zeta in Hb |- *.
  rewrite Hb, He. reflexivity.
Qed.

Lemma book_valid_fields (b : Req.Body) :
  book_valid b = true -> forall f, filled (field_value f b) = true.
Proof.
  unfold book_valid. intro Hv.
  apply andb_true_iff in Hv as [Hv Hi].
  apply andb_true_iff in Hv as [Hv Hs].
  apply andb_true_iff in Hv as [Ht Ha].
  intro f. destruct f; assumption.
Qed.

(** The validation of the document of a valid form passes exactly when
    the author and the genres were cast. *)
Lemma Book_validate_form (id : ObjectId) (b : Req.Body) :
  book_valid b = true ->
  Book_validate (form_book id false b)
  = match
      ObjectId_cast (sanitized (Req.author b)),
      cast_all (List.map Validator.escape (selection b))
    with
    | Some author, Some oids =>
        Some
          (Book.mk id (sanitized (Req.title b)) author
             (sanitized (Req.summary b)) (sanitized (Req.isbn b)) oids)
    | _, _ => None
    end.
Proof.
  intro Hv. pose proof (book_valid_fields b Hv) as Hf.
  pose proof (sanitized_filled _ (Hf Title)) as Ht.
  pose proof (sanitized_filled _ (Hf Summary)) as Hs.
  pose proof (sanitized_filled _ (Hf Isbn)) as Hi.
  simpl in Ht, Hs, Hi.
  apply String.eqb_neq in Ht. apply String.eqb_neq in Hs.
  apply String.eqb_neq in Hi.
  unfold Book_validate, form_book.
  cbn [Book.new_author Book.new_title Book.new_summary Book.new_isbn
       Book.new_genre Book.new_id Book.cast_failed].
  rewrite Ht, Hs, Hi.
  destruct (ObjectId_cast (sanitized (Req.author b))) as [author|];
    [|reflexivity].
  destruct (cast_all (List.map Validator.escape (selection b))) as [oids|];
    reflexivity.
Qed.

(** The book a create stores is the book the form describes. *)
Lemma created_stores_form (id author : ObjectId) (oids : list ObjectId)
  (b : Req.Body) :
  ObjectId_cast (sanitized (Req.author b)) = Some author ->
  cast_all (List.map Validator.escape (selection b)) = Some oids ->
  stores_form b None
    (Book.mk id (sanitized (Req.title b)) author (sanitized (Req.summary b))
       (sanitized (Req.isbn b)) oids).
Proof.
  intros Ha Hg. unfold stores_form.
  split; [reflexivity|]. split; [reflexivity|]. split; [reflexivity|].
  split.
  - unfold given_author, is_identifier, names. simpl.
    unfold sanitized in Ha. rewrite Ha. split.
    + intros oid H. exact H.
    + intro H. exfalso. apply H. exists author. reflexivity.
  - pose proof (cast_all_escaped (selection b)) as H. rewrite Hg in H.
    destruct H as [Hall Hn]. split; [intros _; exact Hn | contradiction].
Qed.

Lemma cast_all_none (chosen : list string) :
  cast_all (List.map Validator.escape chosen) = None
  <-> ~ List.Forall is_identifier chosen.
Proof.
  pose proof (cast_all_escaped chosen) as H.
  destruct (cast_all (List.map Validator.escape chosen)) as [oids|].
  - destruct H as [Hall _]. split; [discriminate | contradiction].
  - split; [intros _; exact H | reflexivity].
Qed.

(** X2. A create POST of the book form whose required fields are all
    filled (the driver answering) always draws an identifier.  When the
    author is an object identifier and so is every entry of the selection,
    it appends one book to the books, made of the sanitized values under
    that identifier, leaves the other collections as they were and
    redirects to the detail URL of that book; when the form has no genre
    field the book is stored with no genre.  Otherwise the validation that
    precedes the save refuses the document: the handler hands the
    validation error to [next] and the collections are left as they
    were. *)
Theorem book_create_post_persists (req : Req.t) (w : World) :
  fault w = None -> book_valid (Req.body req) = true ->
  let id := ObjectId_of_counter (oid_counter w) in
  let w' := snd (book_create_post req w) in
  (is_identifier (Validator.trim (Req.author (Req.body req))) ->
   List.Forall is_identifier (selection (Req.body req)) ->
   exists book,
     Book._id book = id
     /\ stores_form (Req.body req) None book
     /\ fst (book_create_post req w) = [redirect ("/catalog/book/" ++ id)]
     /\ books (db w') = (books (db w) ++ [book])%list
     /\ authors (db w') = authors (db w)
     /\ genres (db w') = genres (db w)
     /\ bookinstances (db w') = bookinstances (db w)
     /\ (Req.genre (Req.body req) = Req.undefined -> Book.genre book = []))
  /\ (~ (is_identifier (Validator.trim (Req.author (Req.body req)))
         /\ List.Forall is_identifier (selection (Req.body req))) ->
      fst (book_create_post req w) = [next ValidationFailed]
      /\ db w' = db w)
  /\ oid_counter w' = N.succ (oid_counter w).
Proof.
  intros Hf Hv id w'. subst w'.
  rewrite (book_create_post_valid req w Hv).
  unfold Book_save. rewrite (Book_validate_form _ _ Hv). fold id.
  pose proof (cast_all_none (selection (Req.body req))) as Hnone.
  pose proof (@created_stores_form id) as Hstores.
  destruct (ObjectId_cast (sanitized (Req.author (Req.body req))))
    as [author|] eqn:Ha.
  - destruct (cast_all (List.map Validator.escape (selection (Req.body req))))
      as [oids|] eqn:Hg.
    + unfold command. cbn [new_ObjectId snd fault db]. rewrite Hf.
      cbn [fst snd with_db db books authors genres bookinstances
           oid_counter].
      split; [|split; [|reflexivity]].
      * intros _ _. eexists. split; [|split; [apply Hstores; eassumption|]].
        -- reflexivity.
        -- repeat split. intro Hu. unfold selection in Hg.
           rewrite Hu in Hg. simpl in Hg. injection Hg as <-. reflexivity.
      * intros Hnot. exfalso. apply Hnot. split.
        -- exists author. exact Ha.
        -- pose proof (cast_all_escaped (selection (Req.body req))) as H.
           rewrite Hg in H. exact (proj1 H).
    + split; [|split; [|reflexivity]].
      * intros _ Hall. exfalso. apply (proj1 Hnone); [reflexivity | exact Hall].
      * intros _. split; reflexivity.
  - split; [|split; [|reflexivity]].
    + intros [oid Hoid] _. unfold names in Hoid. unfold sanitized in Ha.
      congruence.
    + intros _. split; reflexivity.
Qed.

Lemma book_create_post_persists_witness :
  fault Sample.library = None
  /\ book_valid (Req.body Visits.new_book) = true
  /\ book_valid (Req.body Visits.revise_with_name) = true
  /\ (exists book,
        Book._id book = ObjectId_of_counter 7
        /\ Book.genre book = []
        /\ books (db (snd (book_create_post Visits.new_book Sample.library)))
           = [Sample.poems; book])
  /\ fst (book_create_post Visits.revise_with_name Sample.library)
     = [next ValidationFailed].
Proof.
  split; [reflexivity|]. split; [reflexivity|]. split; [reflexivity|]. split.
  - destruct (book_create_post_persists Visits.new_book Sample.library
                eq_refl eq_refl) as [Hstored _].
    destruct Hstored as [book [Hid [_ [_ [Hbooks [_ [_ [_ Hgenre]]]]]]]].
    + exists (Author._id Sample.poet). reflexivity.
    + constructor.
    + exists book. split; [exact Hid|].
      split; [apply Hgenre; reflexivity | exact Hbooks].
  - destruct (book_create_post_persists Visits.revise_with_name
                Sample.library eq_refl eq_refl) as [_ [Hrefused _]].
    apply Hrefused. intros [[oid Hoid] _]. discriminate Hoid.
Defined.

(** ** What a call may write *)

Lemma book_create_post_invalid_world (req : Req.t) (w : World) :
  book_valid (Req.body req) = false ->
  snd (book_create_post req w) = snd (new_ObjectId w).
Proof.
  intro Hv. unfold book_create_post.
  rewrite <- convert_genre_valid in Hv.
  pose proof (book_chains_invalid "Title must not be empty."
                "Author must not be empty." "Summary must not be empty"
                "ISBN must not be empty" _ Hv) as He.
  pose proof (book_create_post_new (Req.body req)
                "Title must not be empty." "Author must not be empty."
                "Summary must not be empty" "ISBN must not be empty" w)
    as Hb.
  destruct (book_chains _ _ _ _ (convert_genre (Req.body req)))
    as [body errors].
  cbn [fst snd] in He, Hb. cbv beta iota zeta in Hb |- *.
  rewrite Hb, He. cbn [negb isEmpty].
  destruct (parallel2 Author_find Genre_find _) as [err | [authors genres]];
    reflexivity.
Qed.

Lemma book_update_post_invalid_world (req : Req.t) (w : World) :
  book_valid (Req.body req) = false ->
  snd (book_update_post req w) = snd (new_ObjectId w).
Proof.
  intro Hv. unfold book_update_post.
  rewrite <- convert_genre_valid in Hv.
  pose proof (book_chains_invalid "Title must not be empty"
                "Author must not be empty" "Summary must not be empty"
                "ISBN must not be empty" _ Hv) as He.
  pose proof (book_update_post_new req "Title must not be empty"
                "Author must not be empty" "Summary must not be empty"
                "ISBN must not be empty" w) as Hb.
  destruct (book_chains _ _ _ _ (convert_genre (Req.body req)))
    as [body errors].
  cbn [fst snd] in He, Hb. cbv beta iota zeta in Hb |- *.
  rewrite Hb, He. cbn [negb isEmpty].
  destruct (parallel2 Author_find Genre_find _) as [err | [authors genres]];
    reflexivity.
Qed.

Lemma index_writes (req : Req.t) (w : World) :
  Write (db w) (db (snd (index req w))).
Proof.
  unfold index. destruct (parallel_object _ w). apply keeps.
Qed.

Lemma genre_delete_get_writes (req : Req.t) (w : World) :
  Write (db w) (db (snd (genre_delete_get req w))).
Proof.
  unfold genre_delete_get.
  destruct (parallel2 _ _ w) as [err | [genre found]]; apply keeps.
Qed.

Lemma genre_delete_post_writes (req : Req.t) (w : World) :
  Write (db w) (db (snd (genre_delete_post req w))).
Proof.
  destruct (fault w) as [err|] eqn:Hf.
  - rewrite (genre_delete_post_faulty req w Hf). apply keeps.
  - destruct (ObjectId_cast (Req.params_id req)) as [id|] eqn:Hc.
    + destruct (referenced_dec (db w) id) as [Hb | Hfree].
      * rewrite (genre_delete_post_blocked req w Hf Hc Hb). apply keeps.
      * rewrite (genre_delete_post_free req w Hf Hc Hfree).
        destruct (ObjectId_cast (Req.genreid (Req.body req)));
          [apply removes_genre | apply keeps].
    + destruct (genre_delete_uncastable req w Hc) as [_ E]. rewrite E.
      apply keeps.
Qed.

Lemma book_create_post_writes (req : Req.t) (w : World) :
  Write (db w) (db (snd (book_create_post req w))).
Proof.
  destruct (book_valid (Req.body req)) eqn:Hv.
  - rewrite (book_create_post_valid req w Hv).
    unfold Book_save. rewrite (Book_validate_form _ _ Hv).
    destruct (ObjectId_cast (sanitized (Req.author (Req.body req))))
      as [author|] eqn:Ha; [|apply keeps].
    destruct (cast_all (List.map Validator.escape (selection (Req.body req))))
      as [oids|] eqn:Hg; [|apply keeps].
    unfold command. cbn [new_ObjectId snd fault db].
    destruct (fault w); [apply keeps|].
    cbn [snd with_db db].
    apply (@adds_book (db w) (Req.body req)); [exact Hv| |].
    + apply created_stores_form; assumption.
    + apply ObjectId_of_counter_canonical.
  - rewrite (book_create_post_invalid_world req w Hv). apply keeps.
Qed.

Lemma book_update_post_writes (req : Req.t) (w : World) :
  Write (db w) (db (snd (book_update_post req w))).
Proof.
  destruct (book_valid (Req.body req)) eqn:Hv.
  - rewrite (book_update_post_valid req w Hv).
    unfold Book_findByIdAndUpdate.
    destruct (ObjectId_cast (Req.params_id req)) as [id|]; [|apply keeps].
    unfold command. cbn [new_ObjectId snd fault db].
    destruct (fault w); [apply keeps|].
    destruct (Book_findById_in (db w) id) as [old|] eqn:Hold; [|apply keeps].
    destruct (String.eqb _ _); [|apply keeps].
    cbn [snd with_db db].
    pose proof (Book_find_id _ _ Hold) as Ho.
    apply List.find_some in Hold as [Hin _]. rewrite <- Ho.
    apply (@replaces_book (db w) (Req.body req) old); [exact Hv|exact Hin| |].
    + apply updated_stores_form.
    + reflexivity.
  - rewrite (book_update_post_invalid_world req w Hv). apply keeps.
Qed.

Lemma genre_create_post_writes (req : Req.t) (w : World) :
  Write (db w) (db (snd (genre_create_post req w))).
Proof.
  destruct (filled (Req.name (Req.body req))) eqn:Hn.
  - rewrite (genre_create_post_valid req w Hn).
    pose proof (sanitized_filled _ Hn) as Hne.
    apply String.eqb_neq in Hne.
    unfold Genre_findOne_name, Genre_save, Genre_validate, command, query.
    cbn [new_ObjectId snd fault db Genre.cast_failed Genre.new_name
         Genre.new_id orb].
    rewrite Hne.
    destruct (fault w); [apply keeps|].
    destruct (List.find _ (genres (db w))); cbn [snd with_db db];
      [apply keeps | apply adds_genre, Hn].
  - apply filled_false in Hn.
    rewrite (genre_create_post_blank req w Hn). apply keeps.
Qed.

Lemma genre_update_post_writes (req : Req.t) (w : World) :
  Write (db w) (db (snd (genre_update_post req w))).
Proof.
  destruct (filled (Req.name (Req.body req))) eqn:Hn.
  - rewrite (genre_update_post_valid req w Hn).
    unfold Genre_findByIdAndUpdate.
    destruct (ObjectId_cast (Req.params_id req)) as [id|]; [|apply keeps].
    unfold command. cbn [new_ObjectId snd fault db].
    destruct (fault w); [apply keeps|].
    destruct (Genre_findById_in (db w) id) as [old|] eqn:Hold; [|apply keeps].
    destruct (String.eqb _ _); [|apply keeps].
    cbn [snd with_db db Genre.new_name].
    rewrite (Genre_find_id _ _ Hold).
    apply replaces_genre, Hn.
  - apply filled_false in Hn.
    destruct (genre_update_post_blank req w Hn) as [genre [E _]].
    rewrite E. apply keeps.
Qed.

(** X3. Whatever the request, the validity of the form and the state of
    the driver, a call to a handler of the two controllers makes at most
    one write, of one of five shapes: a book appended or replaced in place
    by the book of a valid form, a genre appended or replaced in place
    with a validated name, or a genre removed. *)
Theorem handlers_write_once (req : Req.t) (w : World) :
  Write (db w) (db (snd (index req w)))
  /\ Write (db w) (db (snd (book_create_post req w)))
  /\ Write (db w) (db (snd (book_update_post req w)))
  /\ Write (db w) (db (snd (genre_create_post req w)))
  /\ Write (db w) (db (snd (genre_delete_get req w)))
  /\ Write (db w) (db (snd (genre_delete_post req w)))
  /\ Write (db w) (db (snd (genre_update_post req w))).
Proof.
  split; [apply index_writes|].
  split; [apply book_create_post_writes|].
  split; [apply book_update_post_writes|].
  split; [apply genre_create_post_writes|].
  split; [apply genre_delete_get_writes|].
  split; [apply genre_delete_post_writes | apply genre_update_post_writes].
Qed.

Lemma writer_writes (h : Handler) (req : Req.t) (w : World) :
  In h writers -> Write (db w) (db (snd (h req w))).
Proof.
  unfold writers. simpl.
  intros [<- | [<- | [<- | [<- | [<- | [<- | [<- | []]]]]]]].
  - apply index_writes.
  - apply book_create_post_writes.
  - apply book_update_post_writes.
  - apply genre_create_post_writes.
  - apply genre_delete_get_writes.
  - apply genre_delete_post_writes.
  - apply genre_update_post_writes.
Qed.

(** An invariant of the writes is an invariant of every sequence of calls. *)
Lemma run_invariant (P : Db -> Prop) :
  (forall d d', Write d d' -> P d -> P d') ->
  forall calls w,
    List.Forall (fun call => In (fst call) writers) calls ->
    P (db w) -> P (db (run calls w)).
Proof.
  intros Hstep calls. induction calls as [|[h req] calls IH]; simpl;
    intros w Hall HP; [exact HP|].
  inversion Hall as [|call rest Hh Hrest]; subst. simpl in Hh.
  apply IH; [exact Hrest|].
  apply (Hstep (db w)); [apply writer_writes, Hh | exact HP].
Qed.

(** ** What no sequence of calls does *)

(** X4. No sequence of calls to the handlers of the two controllers
    changes the authors or the book instances. *)
Theorem run_keeps_authors_and_copies (calls : list (Handler * Req.t))
  (w : World) :
  List.Forall (fun call => In (fst call) writers) calls ->
  authors (db (run calls w)) = authors (db w)
  /\ bookinstances (db (run calls w)) = bookinstances (db w).
Proof.
  intro Hall.
  apply (@run_invariant
           (fun d => authors d = authors (db w)
                     /\ bookinstances d = bookinstances (db w)));
    [|exact Hall|split; reflexivity].
  intros d d' Hw HP. destruct Hw; exact HP.
Qed.

Lemma session_of_writers :
  List.Forall (fun call => In (fst call) writers) Visits.session.
Proof.
  unfold Visits.session, writers.
  repeat (apply List.Forall_cons; [simpl; tauto|]). apply List.Forall_nil.
Qed.

Lemma run_keeps_authors_and_copies_witness :
  List.Forall (fun call => In (fst call) writers) Visits.session
  /\ authors (db (run Visits.session Sample.library)) = [Sample.poet]
  /\ bookinstances (db (run Visits.session Sample.library)) = [Sample.copy].
Proof.
  split; [exact session_of_writers|].
  exact (run_keeps_authors_and_copies Sample.library session_of_writers).
Defined.

(** X5. No sequence of calls removes a book or changes the identifier of
    one: the identifiers of the books present at the start are still
    there, in the same positions, followed by those of the books created
    since. *)
Theorem run_keeps_books (calls : list (Handler * Req.t)) (w : World) :
  List.Forall (fun call => In (fst call) writers) calls ->
  exists added,
    List.map Book._id (books (db (run calls w)))
    = (List.map Book._id (books (db w)) ++ added)%list.
Proof.
  intro Hall.
  apply (@run_invariant
           (fun d => exists added,
              List.map Book._id (books d)
              = (List.map Book._id (books (db w)) ++ added)%list));
    [|exact Hall|exists []; rewrite List.app_nil_r; reflexivity].
  intros d d' Hw [added HP].
  destruct Hw as [| body book Hv Hs Hc | body old updated Hv Hin Hs Hid
                  | id name Hn | id name Hn | id]; simpl.
  - exists added. exact HP.
  - exists (added ++ [Book._id book])%list.
    rewrite List.map_app, HP, <- List.app_assoc. reflexivity.
  - exists added. rewrite <- HP. apply replace_first_map.
    intros x Hx. rewrite Hid. apply String.eqb_eq, Hx.
  - exists added. exact HP.
  - exists added. exact HP.
  - exists added. exact HP.
Qed.

Lemma run_keeps_books_witness :
  List.Forall (fun call => In (fst call) writers) Visits.session
  /\ exists added,
       List.map Book._id (books (db (run Visits.session Sample.library)))
       = (Book._id Sample.poems :: added)%list.
Proof.
  split; [exact session_of_writers|].
  exact (run_keeps_books Sample.library session_of_writers).
Defined.

(** ** Stored values are sanitized *)

Lemma escape_char_markup_free (c : ascii) :
  markup_free (Validator.escape_char c) = true.
Proof.
  unfold Validator.escape_char.
  repeat match goal with
  | |- context [if ?b then _ else _] => destruct b eqn:?; [reflexivity|]
  end.
  simpl. unfold is_markup.
  repeat match goal with E : _ = false |- _ => rewrite E; clear E end.
  reflexivity.
Qed.

Lemma markup_free_append (s t : string) :
  markup_free (s ++ t) = markup_free s && markup_free t.
Proof.
  induction s as [|c s IH]; simpl; [reflexivity|].
  rewrite IH. apply andb_assoc.
Qed.

Lemma escape_markup_free (s : string) :
  markup_free (Validator.escape s) = true.
Proof.
  induction s as [|c s IH]; simpl; [reflexivity|].
  rewrite markup_free_append, escape_char_markup_free, IH. reflexivity.
Qed.

Lemma sanitized_clean (value : string) :
  filled value = true -> clean (sanitized value) = true.
Proof.
  intro Hf. unfold clean. pose proof (sanitized_filled _ Hf) as Hne.
  apply String.eqb_neq in Hne. rewrite Hne. unfold sanitized.
  rewrite escape_markup_free. reflexivity.
Qed.

Lemma hex_digit_not_markup (c : ascii) :
  hex_digit c = true -> is_markup c = false.
Proof.
  destruct c as [[] [] [] [] [] [] [] []]; intro H;
    solve [reflexivity | discriminate H].
Qed.

Lemma hex_digits_markup_free (s : string) :
  hex_digits s = true -> markup_free s = true.
Proof.
  unfold hex_digits. induction s as [|c s IH]; simpl; [reflexivity|].
  intro H. apply andb_true_iff in H as [Hc Hs].
  rewrite (hex_digit_not_markup c Hc), (IH Hs). reflexivity.
Qed.

(** An identifier is a clean value. *)
Lemma canonical_clean (oid : ObjectId) :
  canonical oid = true -> clean oid = true.
Proof.
  unfold canonical, clean. intro H. apply andb_true_iff in H as [Hlen Hhex].
  rewrite (hex_digits_markup_free oid Hhex).
  destruct oid; [discriminate Hlen | reflexivity].
Qed.

Lemma names_markup_free (chosen : list string) (oids : list ObjectId) :
  List.Forall2 names chosen oids -> List.forallb markup_free oids = true.
Proof.
  intro H. induction H as [|t o ts os Hn _ IH]; simpl; [reflexivity|].
  rewrite IH, andb_true_r.
  pose proof (ObjectId_cast_gives_canonical _ Hn) as Hc.
  unfold canonical in Hc. apply andb_true_iff in Hc as [_ Hc].
  apply hex_digits_markup_free, Hc.
Qed.

(** The book of a valid form is clean, its author being an identifier or
    the clean author the book had. *)
Lemma stores_form_clean (b : Req.Body) (before : option ObjectId)
  (stored : Book.t) :
  book_valid b = true -> stores_form b before stored ->
  (forall author, before = Some author -> clean author = true) ->
  Book_clean stored = true.
Proof.
  intros Hv [Ht [Hs [Hi [[Hnamed Hkept] [Hall Hnone]]]]] Hbefore.
  pose proof (book_valid_fields b Hv) as Hf.
  pose proof (sanitized_clean _ (Hf Title)) as Ct.
  pose proof (sanitized_clean _ (Hf Summary)) as Cs.
  pose proof (sanitized_clean _ (Hf Isbn)) as Ci.
  simpl in Ct, Cs, Ci.
  unfold Book_clean. rewrite Ht, Hs, Hi, Ct, Cs, Ci.
  assert (clean (Book.author stored) = true) as Ha.
  { destruct (is_identifier_dec (Validator.trim (Req.author b)))
      as [[oid Hoid] | Hno].
    - specialize (Hnamed oid Hoid). injection Hnamed as ->.
      apply canonical_clean.
      exact (ObjectId_cast_gives_canonical _ Hoid).
    - apply Hbefore. symmetry. apply Hkept, Hno. }
  rewrite Ha. cbn [andb].
  assert (List.Forall is_identifier (selection b)
          \/ ~ List.Forall is_identifier (selection b)) as [Hyes | Hno].
  { pose proof (cast_all_escaped (selection b)) as H.
    destruct (cast_all (List.map Validator.escape (selection b)));
      [left; exact (proj1 H) | right; exact H]. }
  - exact (names_markup_free (Hall Hyes)).
  - rewrite (Hnone Hno). reflexivity.
Qed.

Section FirstMatchForall.

Context {A : Type} (p : A -> bool) (P : A -> Prop).

Lemma Forall_replace_first (y : A) (xs : list A) :
  P y -> List.Forall P xs -> List.Forall P (replace_first p y xs).
Proof.
  intros Hy Hall.
  induction Hall as [|x xs Hx Hrest IH]; simpl; [constructor|].
  destruct (p x); constructor; assumption.
Qed.

Lemma Forall_remove_first (xs : list A) :
  List.Forall P xs -> List.Forall P (remove_first p xs).
Proof.
  intro Hall. induction Hall as [|x xs Hx Hrest IH]; simpl; [constructor|].
  destruct (p x); [exact Hrest | constructor; assumption].
Qed.

End FirstMatchForall.

Lemma Write_clean (d d' : Db) : Write d d' -> clean_db d -> clean_db d'.
Proof.
  intros Hw [Hb Hg].
  destruct Hw as [| body book Hv Hs Hc | body old updated Hv Hin Hs Hid
                  | id name Hn | id name Hn | id]; split; simpl;
    try assumption.
  - apply List.Forall_app. split; [exact Hb|].
    constructor; [|constructor].
    apply (stores_form_clean Hv Hs). intros author H. discriminate H.
  - apply Forall_replace_first; [|exact Hb].
    apply (stores_form_clean Hv Hs). intros author H. injection H as <-.
    pose proof (proj1 (List.Forall_forall _ _) Hb old Hin) as Hold.
    unfold Book_clean in Hold.
    apply andb_true_iff in Hold as [Hold _].
    apply andb_true_iff in Hold as [Hold _].
    apply andb_true_iff in Hold as [Hold _].
    apply andb_true_iff in Hold as [_ Hold]. exact Hold.
  - apply List.Forall_app. split; [exact Hg|].
    constructor; [apply sanitized_clean; assumption | constructor].
  - apply Forall_replace_first; [apply sanitized_clean|]; assumption.
  - apply Forall_remove_first, Hg.
Qed.

(** X6. If every stored book has a title, an author, a summary and an ISBN
    that are not empty and hold no quote, angle bracket, slash, backslash
    or backquote, genre references free of those characters, and every
    stored genre such a name, then the same is true after any sequence of
    calls to the handlers: what the forms store is validated and
    escaped. *)
Theorem run_keeps_clean (calls : list (Handler * Req.t)) (w : World) :
  List.Forall (fun call => In (fst call) writers) calls ->
  clean_db (db w) -> clean_db (db (run calls w)).
Proof.
  intros Hall Hc.
  exact (@run_invariant clean_db Write_clean calls w Hall Hc).
Qed.

Lemma library_clean : clean_db (db Sample.library).
Proof.
  split; simpl; repeat constructor.
Qed.

Lemma run_keeps_clean_witness :
  List.Forall (fun call => In (fst call) writers) Visits.session
  /\ clean_db (db Sample.library)
  /\ clean_db (db (run Visits.session Sample.library)).
Proof.
  split; [exact session_of_writers|]. split; [exact library_clean|].
  exact (@run_keeps_clean Visits.session Sample.library session_of_writers
           library_clean).
Defined.

(** ** When the driver fails *)

Section DriverFailure.

Variables (req : Req.t) (w : World) (err : Error).
Hypothesis Hfault : fault w = Some err.

Lemma book_create_post_invalid_faulty :
  book_valid (Req.body req) = false ->
  book_create_post req w = ([next err], snd (new_ObjectId w)).
Proof.
  intro Hv. unfold book_create_post.
  rewrite <- convert_genre_valid in Hv.
  pose proof (book_chains_invalid "Title must not be empty."
                "Author must not be empty." "Summary must not be empty"
                "ISBN must not be empty" _ Hv) as He.
  pose proof (book_create_post_new (Req.body req)
                "Title must not be empty." "Author must not be empty."
                "Summary must not be empty" "ISBN must not be empty" w)
    as Hb.
  destruct (book_chains _ _ _ _ (convert_genre (Req.body req)))
    as [body errors].
  cbn [fst snd] in He, Hb. cbv beta iota zeta in Hb |- *.
  rewrite Hb, He. cbn [negb isEmpty].
  unfold parallel2, Author_find, query, new_ObjectId.
  cbn [snd fault]. rewrite Hfault. reflexivity.
Qed.

Lemma book_create_post_valid_faulty :
  book_valid (Req.body req) = true ->
  book_create_post req w
  = ([next
        (if is_none (ObjectId_cast (sanitized (Req.author (Req.body req))))
            || is_none
                 (cast_all
                    (List.map Validator.escape (selection (Req.body req))))
         then ValidationFailed else err)],
     snd (new_ObjectId w)).
Proof.
  intro Hv. rewrite (book_create_post_valid req w Hv).
  unfold Book_save. rewrite (Book_validate_form _ _ Hv).
  destruct (ObjectId_cast (sanitized (Req.author (Req.body req))));
    [|reflexivity].
  destruct (cast_all (List.map Validator.escape (selection (Req.body req))));
    [|reflexivity].
  unfold command, new_ObjectId. cbn [snd fault]. rewrite Hfault.
  reflexivity.
Qed.

Lemma book_update_post_faulty :
  book_update_post req w
  = ([next (if book_valid (Req.body req) then handed_on req err else err)],
     snd (new_ObjectId w)).
Proof.
  destruct (book_valid (Req.body req)) eqn:Hv.
  - rewrite (book_update_post_valid req w Hv).
    unfold Book_findByIdAndUpdate, handed_on.
    destruct (ObjectId_cast (Req.params_id req)); [|reflexivity].
    unfold command, new_ObjectId. cbn [snd fault]. rewrite Hfault.
    reflexivity.
  - unfold book_update_post.
    rewrite <- convert_genre_valid in Hv.
    pose proof (book_chains_invalid "Title must not be empty"
                  "Author must not be empty" "Summary must not be empty"
                  "ISBN must not be empty" _ Hv) as He.
    pose proof (book_update_post_new req "Title must not be empty"
                  "Author must not be empty" "Summary must not be empty"
                  "ISBN must not be empty" w) as Hb.
    destruct (book_chains _ _ _ _ (convert_genre (Req.body req)))
      as [body errors].
    cbn [fst snd] in He, Hb. cbv beta iota zeta in Hb |- *.
    rewrite Hb, He. cbn [negb isEmpty].
    unfold parallel2, Author_find, query, new_ObjectId.
    cbn [snd fault]. rewrite Hfault. reflexivity.
Qed.

Lemma genre_delete_get_faulty :
  genre_delete_get req w = ([next (handed_on req err)], w).
Proof.
  unfold genre_delete_get, parallel2, Genre_findById, casting, query,
    handed_on.
  destruct (ObjectId_cast (Req.params_id req)); [rewrite Hfault|];
    reflexivity.
Qed.

Lemma genre_create_post_faulty :
  filled (Req.name (Req.body req)) = true ->
  genre_create_post req w = ([next err], snd (new_ObjectId w)).
Proof.
  intro Hn. rewrite (genre_create_post_valid req w Hn).
  unfold Genre_findOne_name, query. simpl. rewrite Hfault. reflexivity.
Qed.

Lemma genre_update_post_faulty :
  filled (Req.name (Req.body req)) = true ->
  genre_update_post req w
  = ([next (handed_on req err)], snd (new_ObjectId w)).
Proof.
  intro Hn. rewrite (genre_update_post_valid req w Hn).
  unfold Genre_findByIdAndUpdate, handed_on.
  destruct (ObjectId_cast (Req.params_id req)); [|reflexivity].
  unfold command, new_ObjectId. cbn [snd fault]. rewrite Hfault.
  reflexivity.
Qed.

Lemma readers_faulty :
  book_list req w = [forwarded err]
  /\ book_create_get req w = [forwarded err]
  /\ genre_list req w = [forwarded err]
  /\ book_detail req w = [forwarded (handed_on req err)]
  /\ book_update_get req w = [forwarded (handed_on req err)]
  /\ genre_detail req w = [forwarded (handed_on req err)]
  /\ genre_update_get req w = [forwarded (handed_on req err)].
Proof.
  unfold book_list, book_detail, book_create_get, book_update_get,
    genre_list, genre_detail, genre_update_get, parallel2,
    Book_find_titles, Book_findById_populated, Author_find,
    Genre_find_sorted, Genre_findById, casting, query, handed_on.
  destruct (ObjectId_cast (Req.params_id req)); rewrite ?Hfault;
    repeat split.
Qed.

End DriverFailure.

(** X7. When the driver fails, every handler that reaches the store hands
    the error of the driver to [next], calls nothing else and leaves the
    collections as they were: the list of books, the list of genres and
    the empty book form; the book form POSTs of a form that fails
    validation; the genre create POST once the name is filled; the book
    create POST of a valid form whose author and genres are object
    identifiers; and, when the path is an object identifier, the book
    update POST, the genre delete handlers, the genre update POST once the
    name is filled, and the detail and update-form GETs.  The handlers
    that do not reach the store hand on the error that stopped them: the
    validation error for a valid book whose author or genres are not
    identifiers, the cast error for a path that is no identifier. *)
Theorem driver_failure_forwarded (req : Req.t) (w : World) (err : Error) :
  fault w = Some err ->
  (book_list req w = [forwarded err]
   /\ book_create_get req w = [forwarded err]
   /\ genre_list req w = [forwarded err]
   /\ (book_valid (Req.body req) = false ->
       fst (book_create_post req w) = [next err]
       /\ fst (book_update_post req w) = [next err])
   /\ (filled (Req.name (Req.body req)) = true ->
       fst (genre_create_post req w) = [next err]))
  /\ (book_valid (Req.body req) = true ->
      (is_identifier (Validator.trim (Req.author (Req.body req))) ->
       List.Forall is_identifier (selection (Req.body req)) ->
       fst (book_create_post req w) = [next err])
      /\ (~ (is_identifier (Validator.trim (Req.author (Req.body req)))
             /\ List.Forall is_identifier (selection (Req.body req))) ->
          fst (book_create_post req w) = [next ValidationFailed]))
  /\ (forall stopped,
        stopped
        = match ObjectId_cast (Req.params_id req) with
          | Some _ => err
          | None => CastError
          end ->
        (book_valid (Req.body req) = true ->
         fst (book_update_post req w) = [next stopped])
        /\ fst (genre_delete_get req w) = [next stopped]
        /\ fst (genre_delete_post req w) = [next stopped]
        /\ (filled (Req.name (Req.body req)) = true ->
            fst (genre_update_post req w) = [next stopped])
        /\ book_detail req w = [forwarded stopped]
        /\ book_update_get req w = [forwarded stopped]
        /\ genre_detail req w = [forwarded stopped]
        /\ genre_update_get req w = [forwarded stopped])
  /\ (forall h, In h writers -> db (snd (h req w)) = db w).
Proof.
  intro Hf.
  destruct (@readers_faulty req w err Hf)
    as [R1 [R2 [R3 [R4 [R5 [R6 R7]]]]]].
  split; [|split; [|split]].
  - split; [exact R1|]. split; [exact R2|]. split; [exact R3|]. split.
    + intro Hv. rewrite (@book_create_post_invalid_faulty req w err Hf Hv).
      rewrite (@book_update_post_faulty req w err Hf), Hv.
      split; reflexivity.
    + intro Hn. rewrite (@genre_create_post_faulty req w err Hf Hn).
      reflexivity.
  - intro Hv. rewrite (@book_create_post_valid_faulty req w err Hf Hv).
    pose proof (cast_all_escaped (selection (Req.body req))) as Hg.
    unfold is_identifier at 1 3. unfold names.
    fold (sanitized (Req.author (Req.body req))).
    destruct (ObjectId_cast (sanitized (Req.author (Req.body req))))
      as [author|]; cbn [is_none orb fst].
    + destruct (cast_all
                  (List.map Validator.escape (selection (Req.body req))))
        as [oids|]; cbn [is_none fst]; split.
      * reflexivity.
      * intro Hnot. exfalso. apply Hnot.
        split; [exists author; reflexivity | exact (proj1 Hg)].
      * intros _ Hall. contradiction.
      * reflexivity.
    + split; [|reflexivity]. intros [oid Hoid] _. discriminate Hoid.
  - intros stopped ->.
    assert (handed_on req err
            = match ObjectId_cast (Req.params_id req) with
              | Some _ => err
              | None => CastError
              end) as <-
      by (unfold handed_on; destruct (ObjectId_cast (Req.params_id req));
          reflexivity).
    split; [|split; [|split; [|split]]].
    + intro Hv. rewrite (@book_update_post_faulty req w err Hf), Hv.
      reflexivity.
    + rewrite (@genre_delete_get_faulty req w err Hf). reflexivity.
    + rewrite (genre_delete_post_faulty req w Hf). reflexivity.
    + intro Hn. rewrite (@genre_update_post_faulty req w err Hf Hn).
      reflexivity.
    + repeat split; assumption.
  - unfold writers. simpl.
    intros h [<- | [<- | [<- | [<- | [<- | [<- | [<- | []]]]]]]].
    + unfold index. destruct (parallel_object _ w). reflexivity.
    + destruct (book_valid (Req.body req)) eqn:Hv.
      * rewrite (@book_create_post_valid_faulty req w err Hf Hv).
        reflexivity.
      * rewrite (@book_create_post_invalid_faulty req w err Hf Hv).
        reflexivity.
    + rewrite (@book_update_post_faulty req w err Hf). reflexivity.
    + destruct (filled (Req.name (Req.body req))) eqn:Hn.
      * rewrite (@genre_create_post_faulty req w err Hf Hn). reflexivity.
      * apply filled_false in Hn.
        rewrite (genre_create_post_blank req w Hn). reflexivity.
    + rewrite (@genre_delete_get_faulty req w err Hf). reflexivity.
    + rewrite (genre_delete_post_faulty req w Hf). reflexivity.
    + destruct (filled (Req.name (Req.body req))) eqn:Hn.
      * rewrite (@genre_update_post_faulty req w err Hf Hn). reflexivity.
      * apply filled_false in Hn.
        destruct (genre_update_post_blank req w Hn) as [genre [E _]].
        rewrite E. reflexivity.
Qed.

Lemma driver_failure_forwarded_witness :
  fault Visits.offline = Some "connection refused"
  /\ fst (book_create_post Visits.new_book Visits.offline)
     = [next "connection refused"]
  /\ fst (book_create_post Visits.revise_with_name Visits.offline)
     = [next ValidationFailed]
  /\ genre_detail (Visits.see (Genre._id Sample.fantasy)) Visits.offline
     = [forwarded "connection refused"]
  /\ genre_detail (Visits.see "xyz") Visits.offline = [forwarded CastError].
Proof.
  split; [reflexivity|].
  destruct (@driver_failure_forwarded Visits.new_book Visits.offline _ eq_refl)
    as [_ [Hcreate _]].
  destruct (@driver_failure_forwarded Visits.revise_with_name Visits.offline
              _ eq_refl) as [_ [Hrefused _]].
  destruct (@driver_failure_forwarded (Visits.see (Genre._id Sample.fantasy))
              Visits.offline _ eq_refl) as [_ [_ [Hpath _]]].
  destruct (@driver_failure_forwarded (Visits.see "xyz") Visits.offline _
              eq_refl) as [_ [_ [Hnone _]]].
  split; [|split; [|split]].
  - apply (Hcreate eq_refl); [|constructor].
    exists (Author._id Sample.poet). reflexivity.
  - apply (Hrefused eq_refl). intros [[oid Hoid] _]. discriminate Hoid.
  - apply (Hpath _ eq_refl).
  - apply (Hnone _ eq_refl).
Defined.

(** X8. The home summary never calls [next]: in every state of the store
    and of the driver it renders the index view once, hands the error of
    the driver, if any, to the view, and leaves the store as it was. *)
Theorem index_always_renders (req : Req.t) (w : World) :
  (exists data,
     index req w
     = ([render (index_view "Local Library Home" (fault w) data)], w))
  /\ forall err, ~ In (next err) (fst (index req w)).
Proof.
  unfold index, parallel_object, countDocuments, query.
  destruct (fault w) as [failure|]; simpl.
  - split; [eexists; reflexivity|].
    intros err [H | []]. discriminate H.
  - split; [eexists; reflexivity|].
    intros err [H | []]. discriminate H.
Qed.

(** ** Detail pages and update forms *)

(** X9. With the driver answering, the detail pages and the update forms
    of books and genres answer a path that is an object identifier no
    document has with an error of status 404 handed to [next], and only
    such a path: nothing is rendered for it.  A path that is no object
    identifier is answered with the cast error, which carries no
    status. *)
Theorem unknown_identifier_not_found (req : Req.t) (w : World) :
  fault w = None ->
  (ObjectId_cast (Req.params_id req) = None ->
   book_detail req w = [forwarded CastError]
   /\ book_update_get req w = [forwarded CastError]
   /\ genre_detail req w = [forwarded CastError]
   /\ genre_update_get req w = [forwarded CastError])
  /\ (forall id, ObjectId_cast (Req.params_id req) = Some id ->
        (Book_findById_in (db w) id = None
         <-> book_detail req w = [failed "Book not found" 404])
        /\ (Book_findById_in (db w) id = None
            <-> book_update_get req w = [failed "Book not found" 404])
        /\ (Genre_findById_in (db w) id = None
            <-> genre_detail req w = [failed "Genre not found" 404])
        /\ (Genre_findById_in (db w) id = None
            <-> genre_update_get req w = [failed "Genre not found" 404])).
Proof.
  intro Hf.
  unfold book_detail, book_update_get, genre_detail, genre_update_get,
    parallel2, Book_findById_populated, BookInstance_find_book,
    Book_find_genre, Author_find, Genre_find, Genre_findById, casting,
    query.
  split.
  - intro Hc. rewrite Hc. repeat split.
  - intros id Hc. rewrite Hc, Hf.
    destruct (Book_findById_in (db w) id), (Genre_findById_in (db w) id);
      simpl; repeat split; intro H; try reflexivity; discriminate H.
Qed.

Lemma unknown_identifier_not_found_witness :
  fault Sample.library = None
  /\ genre_detail Sample.delete_unknown Sample.library
     = [failed "Genre not found" 404]
  /\ genre_detail (Visits.see "xyz") Sample.library = [forwarded CastError].
Proof.
  split; [reflexivity|].
  destruct (unknown_identifier_not_found Sample.delete_unknown
              Sample.library eq_refl) as [_ Hcast].
  destruct (Hcast _ eq_refl) as [_ [_ [Hgenre _]]].
  destruct (unknown_identifier_not_found (Visits.see "xyz") Sample.library
              eq_refl) as [Hnone _].
  destruct (Hnone eq_refl) as [_ [_ [Hxyz _]]].
  split; [apply Hgenre; reflexivity | exact Hxyz].
Defined.

Lemma populate_author (d : Db) (b : Book.t) (a : Author.t) :
  Book.author_doc (populate d b) = Some a ->
  In a (authors d) /\ Author._id a = Book.author b.
Proof.
  unfold populate, Author_findById_in. simpl. intro H.
  apply List.find_some in H as [Hin E]. split; [exact Hin|].
  apply String.eqb_eq, E.
Qed.

Lemma populate_genres (d : Db) (b : Book.t) (g : Genre.t) :
  In g (Book.genre_docs (populate d b)) ->
  In g (genres d) /\ In (Genre._id g) (Book.genre b).
Proof.
  unfold populate. simpl. intro H.
  apply List.in_flat_map in H as [id [Hid Hg]].
  destruct (Genre_findById_in d id) as [g'|] eqn:E; simpl in Hg;
    [|contradiction].
  destruct Hg as [<- | []].
  rewrite (Genre_find_id _ _ E).
  apply List.find_some in E as [Hin _]. split; assumption.
Qed.

(** X10. With the driver answering, the detail page of a stored book is
    rendered under the title of the book with the book and exactly the
    copies whose book reference is the identifier.  The author joined to
    the book, if any, is a stored author with the identifier the book
    refers to, and the genres joined are stored genres the book lists: a
    reference to a document that is gone is dropped. *)
Theorem book_detail_page_content (req : Req.t) (w : World) (id : ObjectId)
  (b : Book.t) :
  fault w = None -> ObjectId_cast (Req.params_id req) = Some id ->
  Book_findById_in (db w) id = Some b ->
  exists copies,
    book_detail req w
    = [rendered (book_detail_page (Book.title b) (populate (db w) b) copies)]
    /\ (forall i, In i copies
          <-> In i (bookinstances (db w)) /\ BookInstance.book i = id)
    /\ (forall a, Book.author_doc (populate (db w) b) = Some a ->
          In a (authors (db w)) /\ Author._id a = Book.author b)
    /\ (forall g, In g (Book.genre_docs (populate (db w) b)) ->
          In g (genres (db w)) /\ In (Genre._id g) (Book.genre b)).
Proof.
  intros Hf Hc Hb.
  unfold book_detail, parallel2, Book_findById_populated,
    BookInstance_find_book, casting, query.
  rewrite Hc, Hf, Hb. simpl. eexists. split; [reflexivity|].
  split; [|split].
  - intro i. rewrite List.filter_In, String.eqb_eq. reflexivity.
  - apply populate_author.
  - apply populate_genres.
Qed.

Lemma book_detail_page_content_witness :
  fault Sample.library = None
  /\ ObjectId_cast (Req.params_id (Visits.see (Book._id Sample.poems)))
     = Some (Book._id Sample.poems)
  /\ Book_findById_in (db Sample.library) (Book._id Sample.poems)
     = Some Sample.poems
  /\ exists copies,
       book_detail (Visits.see (Book._id Sample.poems)) Sample.library
       = [rendered
            (book_detail_page "Poems"
               (Book.populated Sample.poems (Some Sample.poet)
                  [Sample.poetry])
               copies)]
       /\ In Sample.copy copies.
Proof.
  split; [reflexivity|]. split; [reflexivity|]. split; [reflexivity|].
  destruct (@book_detail_page_content (Visits.see (Book._id Sample.poems))
              Sample.library (Book._id Sample.poems) Sample.poems eq_refl
              eq_refl eq_refl)
    as [copies [E [Hin _]]].
  exists copies. split; [exact E|].
  apply Hin. split; [left|]; reflexivity.
Defined.

(** X11. With the driver answering, the detail page of a stored genre is
    rendered with the genre and exactly the books whose genre array holds
    the identifier, in the order of the collection. *)
Theorem genre_detail_page_content (req : Req.t) (w : World) (id : ObjectId)
  (g : Genre.t) :
  fault w = None -> ObjectId_cast (Req.params_id req) = Some id ->
  Genre_findById_in (db w) id = Some g ->
  exists listed,
    genre_detail req w
    = [rendered (genre_detail_page "Genre Detail" g listed)]
    /\ Genre._id g = id
    /\ (forall b, In b listed
          <-> In b (books (db w)) /\ In id (Book.genre b))
    /\ (listed = [] <-> ~ referenced (db w) id).
Proof.
  intros Hf Hc Hg.
  unfold genre_detail, parallel2, Genre_findById, Book_find_genre, casting,
    query.
  rewrite Hc, Hf, Hg. eexists. split; [reflexivity|].
  split; [exact (Genre_find_id _ _ Hg)|]. split.
  - intro b. rewrite List.filter_In, references_In. reflexivity.
  - rewrite referenced_filter. split.
    + intros E H. exact (H E).
    + intro H.
      destruct (List.filter (references id) (books (db w)));
        [reflexivity|]. exfalso. apply H. discriminate.
Qed.

Lemma genre_detail_page_content_witness :
  fault Sample.library = None
  /\ ObjectId_cast (Req.params_id (Visits.see (Genre._id Sample.poetry)))
     = Some (Genre._id Sample.poetry)
  /\ Genre_findById_in (db Sample.library) (Genre._id Sample.poetry)
     = Some Sample.poetry
  /\ exists listed,
       genre_detail (Visits.see (Genre._id Sample.poetry)) Sample.library
       = [rendered (genre_detail_page "Genre Detail" Sample.poetry listed)]
       /\ In Sample.poems listed.
Proof.
  split; [reflexivity|]. split; [reflexivity|]. split; [reflexivity|].
  destruct (@genre_detail_page_content (Visits.see (Genre._id Sample.poetry))
              Sample.library (Genre._id Sample.poetry) Sample.poetry eq_refl
              eq_refl eq_refl)
    as [listed [E [_ [Hin _]]]].
  exists listed. split; [exact E|].
  apply Hin. split; left; reflexivity.
Defined.

Lemma mark_current_chosen (d : Db) (b : Book.t) (g : Genre.t) :
  In g (genres d) ->
  List.existsb
    (fun book_genre => String.eqb (Genre._id g) (Genre._id book_genre))
    (Book.genre_docs (populate d b)) = true
  <-> In (Genre._id g) (Book.genre b).
Proof.
  intro Hin. rewrite List.existsb_exists. split.
  - intros [x [Hx E]]. apply String.eqb_eq in E. rewrite E.
    apply (populate_genres d b x Hx).
  - intro Hid.
    destruct (Genre_findById_in d (Genre._id g)) as [x|] eqn:E.
    + exists x. split.
      * unfold populate. simpl. apply List.in_flat_map.
        exists (Genre._id g). split; [exact Hid|]. rewrite E. left; reflexivity.
      * rewrite (Genre_find_id _ _ E). apply String.eqb_refl.
    + pose proof (List.find_none _ _ E g Hin) as Hno. simpl in Hno.
      rewrite String.eqb_refl in Hno. discriminate.
Qed.

(** X12. With the driver answering, the update form of a stored book is
    rendered with the authors, the populated book and one choice per
    stored genre, in the order of the collection; a genre is checked
    exactly when the book lists its identifier. *)
Theorem book_update_get_marks_current (req : Req.t) (w : World)
  (id : ObjectId) (b : Book.t) :
  fault w = None -> ObjectId_cast (Req.params_id req) = Some id ->
  Book_findById_in (db w) id = Some b ->
  exists choices,
    book_update_get req w
    = [rendered
         (book_form_page "Update Book" (authors (db w)) choices
            (Some (populate (db w) b)))]
    /\ List.map choice choices = genres (db w)
    /\ (forall c, In c choices ->
          chosen c = true <-> In (Genre._id (choice c)) (Book.genre b)).
Proof.
  intros Hf Hc Hb.
  unfold book_update_get, parallel2, Book_findById_populated, Author_find,
    Genre_find, casting, query.
  rewrite Hc, Hf, Hb. simpl. eexists. split; [reflexivity|].
  unfold mark_current. rewrite !List.map_map. simpl. split.
  - apply List.map_id.
  - intros c Hin. apply List.in_map_iff in Hin as [g [<- Hg]]. simpl.
    apply mark_current_chosen, Hg.
Qed.

Lemma book_update_get_marks_current_witness :
  fault Sample.library = None
  /\ ObjectId_cast (Req.params_id (Visits.see (Book._id Sample.poems)))
     = Some (Book._id Sample.poems)
  /\ Book_findById_in (db Sample.library) (Book._id Sample.poems)
     = Some Sample.poems
  /\ exists choices,
       book_update_get (Visits.see (Book._id Sample.poems)) Sample.library
       = [rendered
            (book_form_page "Update Book" [Sample.poet] choices
               (Some (populate (db Sample.library) Sample.poems)))]
       /\ List.map choice choices
          = [Sample.fantasy; Sample.poetry; Sample.essays].
Proof.
  split; [reflexivity|]. split; [reflexivity|]. split; [reflexivity|].
  destruct (@book_update_get_marks_current
              (Visits.see (Book._id Sample.poems)) Sample.library
              (Book._id Sample.poems) Sample.poems eq_refl eq_refl eq_refl)
    as [choices [E [Hm _]]].
  exists choices. split; [exact E | exact Hm].
Defined.

(** ** The list of genres *)

Lemma insert_by_name_perm (g : Genre.t) (gs : list Genre.t) :
  Permutation (g :: gs) (insert_by_name g gs).
Proof.
  induction gs as [|h rest IH]; simpl; [apply Permutation_refl|].
  destruct (String.leb (Genre.name g) (Genre.name h));
    [apply Permutation_refl|].
  apply Permutation_trans with (h :: g :: rest);
    [apply perm_swap | apply perm_skip, IH].
Qed.

Lemma insert_by_name_head (g : Genre.t) (gs : list Genre.t) (low : Genre.t) :
  name_leb low g -> HdRel name_leb low gs ->
  HdRel name_leb low (insert_by_name g gs).
Proof.
  intros Hg Hgs. destruct gs as [|h rest]; simpl; [constructor; exact Hg|].
  destruct (String.leb (Genre.name g) (Genre.name h));
    constructor; [exact Hg|].
  inversion Hgs; assumption.
Qed.

Lemma insert_by_name_sorted (g : Genre.t) (gs : list Genre.t) :
  Sorted name_leb gs -> Sorted name_leb (insert_by_name g gs).
Proof.
  intro Hs. induction Hs as [|h rest Hrest IH Hh]; simpl.
  - repeat constructor.
  - destruct (String.leb (Genre.name g) (Genre.name h)) eqn:E.
    + constructor; [constructor; assumption|]. constructor. exact E.
    + constructor; [exact IH|].
      apply insert_by_name_head; [|exact Hh].
      destruct (String.leb_total (Genre.name g) (Genre.name h)) as [H | H];
        [congruence | exact H].
Qed.

(** X13. With the driver answering, the list of genres renders every
    stored genre, each as many times as it is stored, in ascending order
    of name, names being compared byte by byte. *)
Theorem genre_list_sorted (req : Req.t) (w : World) :
  fault w = None ->
  exists shown,
    genre_list req w = [rendered (genre_list_page "Genre List" shown)]
    /\ Permutation (genres (db w)) shown
    /\ Sorted name_leb shown.
Proof.
  intro Hf. unfold genre_list, Genre_find_sorted, query. rewrite Hf.
  eexists. split; [reflexivity|].
  unfold sort_by_name.
  induction (genres (db w)) as [|g gs [IHp IHs]]; simpl.
  - split; constructor.
  - split.
    + apply Permutation_trans with (g :: List.fold_right insert_by_name [] gs);
        [apply perm_skip, IHp | apply insert_by_name_perm].
    + apply insert_by_name_sorted, IHs.
Qed.

Lemma genre_list_sorted_witness :
  fault Sample.library = None
  /\ exists shown,
       genre_list Sample.delete_unknown Sample.library
       = [rendered (genre_list_page "Genre List" shown)]
       /\ Sorted name_leb shown
       /\ shown = [Sample.essays; Sample.fantasy; Sample.poetry].
Proof.
  split; [reflexivity|].
  destruct (genre_list_sorted Sample.delete_unknown Sample.library eq_refl)
    as [shown [E [_ Hs]]].
  exists shown. split; [exact E|]. split; [exact Hs|].
  injection E as <-. reflexivity.
Defined.

(** ** One request after another *)

Section FirstMatchMore.

Context {A : Type} (p : A -> bool).

Lemma find_app_last (x : A) (xs : list A) :
  List.find p xs = None ->
  List.find p (xs ++ [x]) = if p x then Some x else None.
Proof.
  induction xs as [|y ys IH]; simpl; [reflexivity|].
  destruct (p y); [discriminate | exact IH].
Qed.


Lemma remove_first_incl (x : A) (xs : list A) :
  In x (remove_first p xs) -> In x xs.
Proof.
  induction xs as [|y ys IH]; simpl; [tauto|].
  destruct (p y); [tauto|]. intros [H | H]; [left; exact H | right; auto].
Qed.

End FirstMatchMore.

Lemma remove_first_unique (id : ObjectId) (gs : list Genre.t) :
  NoDup (List.map Genre._id gs) ->
  List.find (fun g => String.eqb (Genre._id g) id)
    (remove_first (fun g => String.eqb (Genre._id g) id) gs) = None.
Proof.
  induction gs as [|g gs IH]; simpl; intro Hnd; [reflexivity|].
  inversion Hnd as [|x xs Hnot Hrest]; subst.
  destruct (String.eqb_spec (Genre._id g) id) as [E | Hne].
  - destruct (List.find _ gs) as [other|] eqn:Hf; [|reflexivity].
    apply List.find_some in Hf as [Hin Hid]. apply String.eqb_eq in Hid.
    exfalso. apply Hnot. rewrite E, <- Hid. apply List.in_map, Hin.
  - simpl. destruct (String.eqb_spec (Genre._id g) id); [contradiction|].
    apply IH, Hrest.
Qed.

(** The genre create POST of a form with a filled name, the driver
    answering. *)
Lemma genre_create_post_answering (req : Req.t) (w : World) :
  fault w = None -> filled (Req.name (Req.body req)) = true ->
  let name := sanitized (Req.name (Req.body req)) in
  let fresh := Genre.mk (ObjectId_of_counter (oid_counter w)) name in
  genre_create_post req w
  = match
      List.find (fun g => String.eqb (Genre.name g) name) (genres (db w))
    with
    | Some found =>
        ([redirect (Genre.url found)], snd (new_ObjectId w))
    | None =>
        ([redirect (Genre.url fresh)],
         with_db (snd (new_ObjectId w))
           (mkDb (books (db w)) (authors (db w))
              (genres (db w) ++ [fresh]) (bookinstances (db w))))
    end.
Proof.
  intros Hf Hn name fresh.
  rewrite (genre_create_post_valid req w Hn). fold name.
  pose proof (sanitized_filled _ Hn) as Hne. fold name in Hne.
  apply String.eqb_neq in Hne.
  unfold Genre_findOne_name, Genre_save, Genre_validate, command, query.
  cbn [new_ObjectId snd fault db Genre.cast_failed Genre.new_name
       Genre.new_id orb].
  rewrite Hf, Hne.
  destruct (List.find _ (genres (db w))); reflexivity.
Qed.

(** X14. Submitting the same valid genre form twice (the driver
    answering) is the same as submitting it once: the second call
    redirects where the first did and leaves the collections as the first
    left them, so that the two calls together store at most one genre. *)
Theorem genre_create_post_twice (req : Req.t) (w : World) :
  fault w = None -> filled (Req.name (Req.body req)) = true ->
  let once := genre_create_post req w in
  let twice := genre_create_post req (snd once) in
  fst twice = fst once
  /\ db (snd twice) = db (snd once)
  /\ exists added,
       genres (db (snd twice)) = (genres (db w) ++ added)%list
       /\ (List.length added <= 1)%nat.
Proof.
  intros Hf Hn once twice. subst twice once.
  rewrite (genre_create_post_answering req w Hf Hn).
  destruct (List.find _ (genres (db w))) as [found|] eqn:E.
  - cbn [snd].
    rewrite (genre_create_post_answering req (snd (new_ObjectId w)) Hf Hn).
    cbn [snd new_ObjectId db]. rewrite E. cbn [fst snd db new_ObjectId].
    repeat split. exists []. rewrite List.app_nil_r. split; [reflexivity|].
    simpl. lia.
  - cbn [snd].
    rewrite (genre_create_post_answering req
               (with_db (snd (new_ObjectId w))
                  (mkDb (books (db w)) (authors (db w))
                     (genres (db w)
                      ++ [Genre.mk (ObjectId_of_counter (oid_counter w))
                            (sanitized (Req.name (Req.body req)))])
                     (bookinstances (db w))))
               Hf Hn).
    cbn [snd new_ObjectId with_db db genres].
    rewrite (find_app_last _ _ _ E). cbn [Genre.name].
    rewrite String.eqb_refl. cbn [fst snd db genres].
    repeat split. eexists. split; [reflexivity|]. simpl. lia.
Qed.

Lemma genre_create_post_twice_witness :
  fault Sample.library = None
  /\ filled (Req.name (Req.body Sample.create_drama)) = true
  /\ genres
       (db (snd (genre_create_post Sample.create_drama
                   (snd (genre_create_post Sample.create_drama
                           Sample.library)))))
     = (genres (db Sample.library)
        ++ [Genre.mk (ObjectId_of_counter 7) "Drama"])%list.
Proof.
  split; [reflexivity|]. split; [reflexivity|].
  destruct (genre_create_post_twice Sample.create_drama Sample.library
              eq_refl eq_refl) as [_ [E _]].
  rewrite E. reflexivity.
Defined.

(** X15. A genre created from a valid form whose name no stored genre has
    (the driver answering, the allocated identifier being unused) is
    stored under the sanitized name, and the detail page the handler
    redirects to renders that record with the books listing it. *)
Theorem genre_create_post_then_detail (req : Req.t) (w : World) :
  fault w = None -> filled (Req.name (Req.body req)) = true ->
  let name := sanitized (Req.name (Req.body req)) in
  let id := ObjectId_of_counter (oid_counter w) in
  (forall g, In g (genres (db w)) -> Genre.name g <> name) ->
  Genre_findById_in (db w) id = None ->
  fst (genre_create_post req w) = [redirect ("/catalog/genre/" ++ id)]
  /\ forall visit, Req.params_id visit = id ->
       genre_detail visit (snd (genre_create_post req w))
       = [rendered
            (genre_detail_page "Genre Detail" (Genre.mk id name)
               (List.filter (references id) (books (db w))))].
Proof.
  intros Hf Hn name id Hnew Hfree.
  rewrite (genre_create_post_answering req w Hf Hn). fold name. fold id.
  destruct (List.find _ (genres (db w))) as [found|] eqn:E.
  - apply List.find_some in E as [Hin Hname].
    apply String.eqb_eq in Hname. destruct (Hnew found Hin Hname).
  - split; [reflexivity|]. intros visit Hv.
    unfold genre_detail, parallel2, Genre_findById, Book_find_genre,
      casting, query.
    assert (ObjectId_cast id = Some id) as Hc
      by apply ObjectId_cast_canonical, ObjectId_of_counter_canonical.
    rewrite Hv, !Hc. cbn [snd new_ObjectId with_db fault db]. rewrite Hf.
    unfold Genre_findById_in. cbn [genres books].
    rewrite (find_app_last _ _ _ Hfree). cbn [Genre._id].
    rewrite String.eqb_refl. reflexivity.
Qed.

Lemma genre_create_post_then_detail_witness :
  fault Sample.library = None
  /\ filled (Req.name (Req.body Sample.create_drama)) = true
  /\ (forall g, In g (genres (db Sample.library)) ->
        Genre.name g <> sanitized (Req.name (Req.body Sample.create_drama)))
  /\ Genre_findById_in (db Sample.library)
       (ObjectId_of_counter (oid_counter Sample.library)) = None
  /\ genre_detail (Visits.see (ObjectId_of_counter 7))
       (snd (genre_create_post Sample.create_drama Sample.library))
     = [rendered
          (genre_detail_page "Genre Detail"
             (Genre.mk (ObjectId_of_counter 7) "Drama") [])].
Proof.
  assert (forall g, In g (genres (db Sample.library)) ->
            Genre.name g
            <> sanitized (Req.name (Req.body Sample.create_drama))) as Hnew.
  { intros g [<- | [<- | [<- | []]]]; discriminate. }
  split; [reflexivity|]. split; [reflexivity|]. split; [exact Hnew|].
  split; [reflexivity|].
  destruct (genre_create_post_then_detail Sample.create_drama Sample.library
              eq_refl eq_refl Hnew eq_refl) as [_ Hdetail].
  exact (Hdetail (Visits.see (ObjectId_of_counter 7)) eq_refl).
Defined.

(** X16. A delete POST whose body carries the text of its path, in a
    store where identifiers are not repeated (the driver answering).
    When the path is an object identifier that no book lists, the handler
    redirects to the list of genres, no genre has the identifier
    afterwards, so that its detail page answers 404, and every genre of
    another identifier is kept.  When the path is no object identifier,
    the handler hands the cast error to [next] and the store is left as
    it was. *)
Theorem genre_delete_post_then_not_found (req : Req.t) (w : World) :
  fault w = None ->
  Req.genreid (Req.body req) = Req.params_id req ->
  NoDup (List.map Genre._id (genres (db w))) ->
  let w' := snd (genre_delete_post req w) in
  (forall id, ObjectId_cast (Req.params_id req) = Some id ->
     ~ referenced (db w) id ->
     fst (genre_delete_post req w) = [redirect "/catalog/genres"]
     /\ Genre_findById_in (db w') id = None
     /\ (forall visit, ObjectId_cast (Req.params_id visit) = Some id ->
           genre_detail visit w' = [failed "Genre not found" 404])
     /\ (forall g, In g (genres (db w)) -> Genre._id g <> id ->
           In g (genres (db w')))
     /\ (forall g, In g (genres (db w')) -> In g (genres (db w))))
  /\ (ObjectId_cast (Req.params_id req) = None ->
      genre_delete_post req w = ([next CastError], w)).
Proof.
  intros Hf Hsame Hnd w'. subst w'. split.
  - intros id Hc Hfree.
    rewrite (genre_delete_post_free req w Hf Hc Hfree), Hsame, Hc.
    cbn [fst snd with_db db].
    assert (Genre_findById_in
              (mkDb (books (db w)) (authors (db w))
                 (remove_first (fun g => String.eqb (Genre._id g) id)
                    (genres (db w)))
                 (bookinstances (db w))) id = None) as Hgone
      by (apply remove_first_unique, Hnd).
    split; [reflexivity|]. split; [exact Hgone|]. split; [|split].
    + intros visit Hv.
      unfold genre_detail, parallel2, Genre_findById, Book_find_genre,
        casting, query.
      rewrite Hv. cbn [with_db fault db]. rewrite Hf, Hgone. reflexivity.
    + intros g Hin Hne. apply remove_first_keeps; [exact Hin|].
      apply String.eqb_neq, Hne.
    + intros g. apply remove_first_incl.
  - intro Hc. apply (genre_delete_uncastable req w Hc).
Qed.

Lemma genre_delete_post_then_not_found_witness :
  fault Sample.library = None
  /\ Req.genreid (Req.body Visits.delete_essays)
     = Req.params_id Visits.delete_essays
  /\ ObjectId_cast (Req.params_id Visits.delete_essays)
     = Some (Genre._id Sample.essays)
  /\ ~ referenced (db Sample.library) (Genre._id Sample.essays)
  /\ NoDup (List.map Genre._id (genres (db Sample.library)))
  /\ genre_detail (Visits.see (Genre._id Sample.essays))
       (snd (genre_delete_post Visits.delete_essays Sample.library))
     = [failed "Genre not found" 404].
Proof.
  assert (~ referenced (db Sample.library) (Genre._id Sample.essays))
    as Hfree
    by (rewrite referenced_filter; intro H; apply H; reflexivity).
  assert (NoDup (List.map Genre._id (genres (db Sample.library)))) as Hnd.
  { simpl. repeat constructor; simpl; intuition discriminate. }
  split; [reflexivity|]. split; [reflexivity|]. split; [reflexivity|].
  split; [exact Hfree|]. split; [exact Hnd|].
  destruct (genre_delete_post_then_not_found Visits.delete_essays
              Sample.library eq_refl eq_refl Hnd) as [Hcast _].
  destruct (Hcast (Genre._id Sample.essays) eq_refl Hfree)
    as [_ [_ [Hdetail _]]].
  exact (Hdetail (Visits.see (Genre._id Sample.essays)) eq_refl).
Defined.



(** X18. An update POST of the genre form with a filled name (the driver
    answering) draws an identifier and stores nothing when no genre is
    addressed.  When the path is an object identifier that no genre has,
    for the update does not insert, it still redirects to the detail URL
    of that identifier, a page that answers 404; when the path is no
    object identifier, it hands the cast error to [next]. *)
Theorem genre_update_post_unknown_id (req : Req.t) (w : World) :
  fault w = None -> filled (Req.name (Req.body req)) = true ->
  (forall id, ObjectId_cast (Req.params_id req) = Some id ->
     Genre_findById_in (db w) id = None ->
     genre_update_post req w
     = ([redirect ("/catalog/genre/" ++ id)], snd (new_ObjectId w))
     /\ db (snd (genre_update_post req w)) = db w
     /\ forall visit, ObjectId_cast (Req.params_id visit) = Some id ->
          genre_detail visit (snd (genre_update_post req w))
          = [failed "Genre not found" 404])
  /\ (ObjectId_cast (Req.params_id req) = None ->
      genre_update_post req w = ([next CastError], snd (new_ObjectId w))
      /\ db (snd (genre_update_post req w)) = db w).
Proof.
  intros Hf Hn. rewrite (genre_update_post_valid req w Hn).
  unfold Genre_findByIdAndUpdate, command. split.
  - intros id Hc Hnone. rewrite Hc.
    cbn [new_ObjectId snd fault db]. rewrite Hf, Hnone.
    split; [reflexivity|]. split; [reflexivity|].
    intros visit Hv.
    unfold genre_detail, parallel2, Genre_findById, Book_find_genre,
      casting, query.
    rewrite Hv. cbn [with_db snd fault db]. rewrite Hnone.
    reflexivity.
  - intro Hc. rewrite Hc. split; reflexivity.
Qed.

Lemma genre_update_post_unknown_id_witness :
  fault Sample.library = None
  /\ filled (Req.name (Req.body Visits.rename_unknown)) = true
  /\ ObjectId_cast (Req.params_id Visits.rename_unknown)
     = Some (ObjectId_of_counter 99)
  /\ Genre_findById_in (db Sample.library) (ObjectId_of_counter 99) = None
  /\ genre_update_post Visits.rename_unknown Sample.library
     = ([redirect "/catalog/genre/000000000000000000000063"],
        snd (new_ObjectId Sample.library)).
Proof.
  split; [reflexivity|]. split; [reflexivity|]. split; [reflexivity|].
  split; [reflexivity|].
  destruct (genre_update_post_unknown_id Visits.rename_unknown Sample.library
              eq_refl eq_refl) as [Hsome _].
  destruct (Hsome (ObjectId_of_counter 99) eq_refl eq_refl) as [E _].
  exact E.
Defined.

(** ** The BookInstance model *)

Lemma compare_append_same (p a b : string) :
  String.compare (p ++ a) (p ++ b) = String.compare a b.
Proof.
  induction p as [|c p IH]; simpl; [reflexivity|].
  unfold Ascii.compare. rewrite N.compare_refl. exact IH.
Qed.

Lemma day_strings_disagree (early late : Z) :
  (1 <= early <= 9)%Z -> (10 <= late <= 31)%Z -> (late < 10 * early)%Z ->
  String.compare (js_int_to_string late) (js_int_to_string early) = Lt.
Proof.
  intros He Hl Hlt.
  assert (forall i j : nat,
            (i < 10)%nat -> (j < 32)%nat ->
            (10 <= Z.of_nat j < 10 * Z.of_nat i)%Z ->
            String.compare (js_int_to_string (Z.of_nat j))
              (js_int_to_string (Z.of_nat i)) = Lt) as Hall.
  { intros i j Hi Hj.
    do 10 (destruct i as [|i];
           [do 32 (destruct j as [|j];
                   [intro; first [reflexivity | lia]|]); lia|]).
    lia. }
  rewrite <- (Z2Nat.id early), <- (Z2Nat.id late) by lia.
  apply Hall; lia.
Qed.

(** X19. The year-month-day string does not sort as the dates do: for two
    copies due in the same month of the same year, one on a day from 1 to
    9 and the other on a later day whose tens digit is smaller than that
    day, the string of the later date comes first in the order of
    strings. *)
Theorem due_back_yyyy_mm_dd_not_sortable (early late : BookInstance.t) :
  let d1 := BookInstance.due_back early in
  let d2 := BookInstance.due_back late in
  JsDate.getFullYear d1 = JsDate.getFullYear d2 ->
  JsDate.getMonth d1 = JsDate.getMonth d2 ->
  (1 <= JsDate.getDate d1 <= 9)%Z ->
  (10 <= JsDate.getDate d2 <= 31)%Z ->
  (JsDate.getDate d2 < 10 * JsDate.getDate d1)%Z ->
  String.ltb (BookInstance.due_back_yyyy_mm_dd late)
    (BookInstance.due_back_yyyy_mm_dd early) = true.
Proof.
  intros d1 d2 Hy Hm H1 H2 Hlt.
  unfold String.ltb, BookInstance.due_back_yyyy_mm_dd.
  fold d1 d2. rewrite Hy, Hm.
  rewrite !compare_append_same.
  rewrite (day_strings_disagree H1 H2 Hlt). reflexivity.
Qed.

Lemma due_back_yyyy_mm_dd_not_sortable_witness :
  String.ltb (BookInstance.due_back_yyyy_mm_dd Visits.due_tenth)
    (BookInstance.due_back_yyyy_mm_dd Visits.due_ninth) = true
  /\ BookInstance.due_back_yyyy_mm_dd Visits.due_tenth = "2021-03-10"
  /\ BookInstance.due_back_yyyy_mm_dd Visits.due_ninth = "2021-03-9".
Proof.
  split; [|split; reflexivity].
  apply (@due_back_yyyy_mm_dd_not_sortable Visits.due_ninth Visits.due_tenth);
    simpl; try reflexivity; lia.
Defined.

Lemma append_same_prefix (p a b : string) : p ++ a = p ++ b -> a = b.
Proof.
  induction p as [|c p IH]; simpl; intro H; [exact H|].
  injection H as H. exact (IH H).
Qed.

(** X20. The URL of a book instance is the detail path of its identifier:
    it starts with /catalog/bookinstance/, and two copies have the same
    URL only if they have the same identifier. *)
Theorem BookInstance_url_identifies (a b : BookInstance.t) :
  String.prefix "/catalog/bookinstance/" (BookInstance.url a) = true
  /\ (BookInstance.url a = BookInstance.url b
      <-> BookInstance._id a = BookInstance._id b).
Proof.
  unfold BookInstance.url. split.
  - simpl. destruct (BookInstance._id a); reflexivity.
  - split; [apply append_same_prefix | intros ->; reflexivity].
Qed.

(** ** Updating a book and opening its form again *)

Lemma book_update_get_found (req : Req.t) (w : World) (id : ObjectId)
  (b : Book.t) :
  fault w = None -> ObjectId_cast (Req.params_id req) = Some id ->
  Book_findById_in (db w) id = Some b ->
  book_update_get req w
  = [rendered
       (book_form_page "Update Book" (authors (db w))
          (mark_current (populate (db w) b)
             (List.map (fun g => Genre.hydrate g None) (genres (db w))))
          (Some (populate (db w) b)))].
Proof.
  intros Hf Hc Hb.
  unfold book_update_get, parallel2, Book_findById_populated, Author_find,
    Genre_find, casting, query.
  rewrite Hc, Hf, Hb. reflexivity.
Qed.

(** The identifiers a selection names are those its entries name. *)
Lemma Forall2_names_In (chosen : list string) (oids : list ObjectId)
  (oid : ObjectId) :
  List.Forall2 names chosen oids ->
  In oid oids <-> exists text, In text chosen /\ names text oid.
Proof.
  intro H. induction H as [|t o ts os Hn _ IH]; simpl.
  - split; [contradiction | intros [text [[] _]]].
  - rewrite IH. split.
    + intros [<- | [text [Hin Ht]]].
      * exists t. split; [left; reflexivity | exact Hn].
      * exists text. split; [right; exact Hin | exact Ht].
    + intros [text [[<- | Hin] Ht]].
      * left. unfold names in *. congruence.
      * right. exists text. split; assumption.
Qed.

(** X21. After an update POST of the book form with valid fields for a
    stored book (the driver answering), the update form of the same
    identifier shows what the form gave the book: the sanitized title,
    summary and ISBN under that identifier, the author the form names, or
    the one the book had when it names none, and the same authors and
    genres as before.  When every entry of the selection is an object
    identifier, a genre is checked exactly when an entry names its
    identifier; when some entry is not, no genre is checked. *)
Theorem book_update_post_then_get (req : Req.t) (w : World) (id : ObjectId)
  (old : Book.t) :
  fault w = None -> ObjectId_cast (Req.params_id req) = Some id ->
  Book_findById_in (db w) id = Some old ->
  book_valid (Req.body req) = true ->
  let w' := snd (book_update_post req w) in
  exists updated choices,
    book_update_get req w'
    = [rendered
         (book_form_page "Update Book" (authors (db w)) choices
            (Some (populate (db w') updated)))]
    /\ Book.doc (populate (db w') updated) = updated
    /\ Book._id updated = id
    /\ stores_form (Req.body req) (Some (Book.author old)) updated
    /\ List.map choice choices = genres (db w)
    /\ (List.Forall is_identifier (selection (Req.body req)) ->
        forall c, In c choices ->
          chosen c = true
          <-> exists text,
                In text (selection (Req.body req))
                /\ names text (Genre._id (choice c)))
    /\ (~ List.Forall is_identifier (selection (Req.body req)) ->
        forall c, In c choices -> chosen c = false).
Proof.
  intros Hf Hc Hold Hv w'.
  pose proof (Book_find_id _ _ Hold) as Ho. subst id.
  pose proof (updated_stores_form (Book._id old) false (Req.body req) old)
    as Hs.
  set (form := form_book (Book._id old) false (Req.body req)) in *.
  set (updated :=
         Book.mk (Book._id old) (Book.new_title form)
           (match Book.new_author form with
            | Some author => author
            | None => Book.author old
            end)
           (Book.new_summary form) (Book.new_isbn form)
           (Book.new_genre form)) in *.
  assert (fault w' = None /\ authors (db w') = authors (db w)
          /\ genres (db w') = genres (db w)
          /\ Book_findById_in (db w') (Book._id old) = Some updated)
    as [Hf' [Ha [Hg Hb]]].
  { subst w'. rewrite (book_update_post_valid req w Hv).
    unfold Book_findByIdAndUpdate, command. rewrite Hc.
    cbn [new_ObjectId snd fault db]. rewrite Hf, Hold.
    fold form.
    replace (Book.new_id form) with (Book._id old) by reflexivity.
    rewrite String.eqb_refl.
    cbn [snd with_db fault db authors genres books].
    repeat split.
    unfold Book_findById_in. cbn [books].
    apply replace_first_find with (old := old); [exact Hold|].
    apply String.eqb_refl. }
  rewrite (book_update_get_found req w' Hf' Hc Hb), Ha, Hg.
  assert (forall c,
            In c
              (mark_current (populate (db w') updated)
                 (List.map (fun g => Genre.hydrate g None) (genres (db w)))) ->
            chosen c = true
            <-> In (Genre._id (choice c)) (Book.genre updated)) as Hmarks.
  { unfold mark_current. rewrite !List.map_map.
    intros c Hin. apply List.in_map_iff in Hin as [g [<- Hin]].
    cbn [chosen choice Genre.fields].
    rewrite <- Hg in Hin.
    apply (mark_current_chosen (db w') updated g Hin). }
  pose proof Hs as [_ [_ [_ [_ [Hall Hnone]]]]].
  exists updated. eexists. split; [reflexivity|]. split; [reflexivity|].
  split; [reflexivity|]. split; [exact Hs|]. split; [|split].
  - unfold mark_current. rewrite !List.map_map. apply List.map_id.
  - intros Hyes c Hin. rewrite (Hmarks c Hin).
    apply Forall2_names_In, Hall, Hyes.
  - intros Hno c Hin. specialize (Hmarks c Hin).
    rewrite (Hnone Hno) in Hmarks.
    destruct (chosen c); [|reflexivity].
    destruct (proj1 Hmarks eq_refl).
Qed.

Lemma book_update_post_then_get_witness :
  fault Sample.library = None
  /\ ObjectId_cast (Req.params_id Sample.revise_poems)
     = Some (Book._id Sample.poems)
  /\ Book_findById_in (db Sample.library) (Book._id Sample.poems)
     = Some Sample.poems
  /\ book_valid (Req.body Sample.revise_poems) = true
  /\ exists updated choices,
       book_update_get Sample.revise_poems
         (snd (book_update_post Sample.revise_poems Sample.library))
       = [rendered
            (book_form_page "Update Book" [Sample.poet] choices
               (Some
                  (populate
                     (db (snd (book_update_post Sample.revise_poems
                                 Sample.library)))
                     updated)))]
       /\ Book.title updated = "Poems &amp; Letters"
       /\ List.map chosen choices = [false; true; true].
Proof.
  split; [reflexivity|]. split; [reflexivity|]. split; [reflexivity|].
  split; [reflexivity|].
  destruct (@book_update_post_then_get Sample.revise_poems Sample.library
              (Book._id Sample.poems) Sample.poems eq_refl eq_refl eq_refl
              eq_refl)
    as [updated [choices [E [_ [_ [[Ht _] _]]]]]].
  exists updated, choices. split; [exact E|]. split; [exact Ht|].
  vm_compute in E. injection E as <- _. reflexivity.
Defined.
